(** * Pseudo-label heatmap generators and regression-disparity losses

    A shallow embedding of the algorithmic core of [uda/model/regda_7.py]:
    the Gaussian template banks built by the [PseudoLabelGenerator*]
    constructors, their [forward] passes, and the ground-false
    constructions of the [RegressionDisparity*] loss selectors.

    Numbers.  The program computes in [float32].  Finite arithmetic is
    idealised here as arithmetic on the real numbers [R]; the special
    values that a division by zero creates in the tensor library ([nan],
    [inf], [-inf]) are kept as constructors of [xval].  Rounding and the
    sign of zero are not modelled.

    Arrays are nested lists in row-major order; an operation that raises
    in Python returns [None] (or an error constructor of [result]). *)

From Stdlib Require Import String.
From Stdlib Require Import QArith Qround.
From Stdlib Require Import Reals Lra Lia ZArith List Bool.
Import ListNotations.

Set Implicit Arguments.

Open Scope Z_scope.
Open Scope R_scope.

(** ** Array primitives *)

Module Arr.

(** [tab n f] is the list [f 0; ...; f (n-1)]. *)
Definition tab {A : Type} (n : nat) (f : nat -> A) : list A := map f (seq 0 n).

Definition image := list (list R).
Definition tensor3 := list image.
Definition tensor4 := list tensor3.

(** The bank of templates: [heatmaps[mu_x][mu_y]] is an image. *)
Definition bank := list (list image).

(** Option monad, for code that can raise. *)
Definition bind {A B : Type} (m : option A) (k : A -> option B) : option B :=
  match m with Some a => k a | None => None end.

Fixpoint mapM {A B : Type} (f : A -> option B) (l : list A) : option (list B) :=
  match l with
  | [] => Some []
  | a :: t =>
      match f a with
      | Some b => match mapM f t with Some bs => Some (b :: bs) | None => None end
      | None => None
      end
  end.

(** [np.zeros((h, w))]. *)
Definition zeros (h w : nat) : image := tab h (fun _ => tab w (fun _ => 0)).

(** Element access with a default; only used below a bounds check. *)
Definition get2 {A : Type} (d : A) (m : list (list A)) (i j : nat) : A :=
  nth j (nth i m []) d.
Definition get3 {A : Type} (d : A) (t : list (list (list A))) (k i j : nat) : A :=
  get2 d (nth k t []) i j.
Definition get4 {A : Type} (d : A) (t : list (list (list (list A))))
  (b k i j : nat) : A :=
  get3 d (nth b t []) k i j.

Definition at2 (m : image) (i j : nat) : R := get2 0 m i j.
Definition at3 (t : tensor3) (k i j : nat) : R := get3 0 t k i j.
Definition at4 (t : tensor4) (b k i j : nat) : R := get4 0 t b k i j.

(** Checked element access: [None] outside the array. *)
Definition pixel {A : Type} (m : list (list A)) (i j : nat) : option A :=
  bind (nth_error m i) (fun r => nth_error r j).
Definition entry4 {A : Type} (t : list (list (list (list A))))
  (b k i j : nat) : option A :=
  bind (nth_error t b) (fun c => bind (nth_error c k) (fun m => pixel m i j)).

(** Shapes: a nested list is an array of shape [(h, w)] when it has [h]
    rows of [w] entries each, and so on. *)
Definition has_shape2 {A : Type} (h w : nat) (m : list (list A)) : Prop :=
  length m = h /\ Forall (fun r => length r = w) m.
Definition has_shape3 {A : Type} (k h w : nat) (t : list (list (list A))) : Prop :=
  length t = k /\ Forall (has_shape2 h w) t.
Definition has_shape4 {A : Type} (b k h w : nat)
  (t : list (list (list (list A)))) : Prop :=
  length t = b /\ Forall (has_shape3 k h w) t.

(** [y.shape] of a four-dimensional array. *)
Definition shape4 {A : Type} (t : list (list (list (list A))))
  : nat * nat * nat * nat :=
  (length t, length (hd [] t), length (hd [] (hd [] t)),
   length (hd [] (hd [] (hd [] t)))).

(** A slice endpoint [i] of Python, on a length [n]: negative endpoints
    count from the end, and all are clamped into [0, n]. *)
Definition clamp_idx (n i : Z) : Z :=
  if (i <? 0)%Z then Z.max 0 (i + n) else Z.min i n.

(** [l[a:b]]. *)
Definition slice {A : Type} (l : list A) (ab : Z * Z) : list A :=
  let n := Z.of_nat (length l) in
  let lo := clamp_idx n (fst ab) in
  let hi := clamp_idx n (snd ab) in
  firstn (Z.to_nat (hi - lo)) (skipn (Z.to_nat lo) l).

(** [m[ys[0]:ys[1], xs[0]:xs[1]]]. *)
Definition slice2 (m : image) (ys xs : Z * Z) : image :=
  map (fun r => slice r xs) (slice m ys).

(** [m[ys[0]:ys[1], xs[0]:xs[1]] = patch]: the patch must have the shape
    of the slice (NumPy raises otherwise, broadcasting apart, which the
    callers below never rely on).  A list of rows does not record the
    width of a patch that has no rows, so such a patch is taken for a
    slice without rows whatever its width; [paste] meets that case with
    a negative [sigma] only. *)
Definition assign_slice2 (m : image) (ys xs : Z * Z) (patch : image)
  : option image :=
  let h := Z.of_nat (length m) in
  let w := Z.of_nat (length (hd [] m)) in
  let ylo := clamp_idx h (fst ys) in
  let yhi := clamp_idx h (snd ys) in
  let xlo := clamp_idx w (fst xs) in
  let xhi := clamp_idx w (snd xs) in
  if (Nat.eqb (length patch) (Z.to_nat (yhi - ylo)) &&
      forallb (fun r => Nat.eqb (length r) (Z.to_nat (xhi - xlo))) patch)%bool
  then
    Some (tab (length m) (fun i =>
            tab (length (nth i m [])) (fun j =>
              if ((ylo <=? Z.of_nat i) && (Z.of_nat i <? yhi) &&
                  (xlo <=? Z.of_nat j) && (Z.of_nat j <? xhi))%bool%Z
              then at2 patch (i - Z.to_nat ylo) (j - Z.to_nat xlo)
              else at2 m i j)))
  else None.

(** [l[i]] with Python's index rules: negative indices count from the
    end, anything out of range raises [IndexError]. *)
Definition py_index {A : Type} (l : list A) (i : Z) : option A :=
  let n := Z.of_nat (length l) in
  if ((0 <=? i) && (i <? n))%bool%Z then nth_error l (Z.to_nat i)
  else if ((- n <=? i) && (i <? 0))%bool%Z then nth_error l (Z.to_nat (i + n))
  else None.

(** In-place update [l[i] = v] for an index in range. *)
Fixpoint upd {A : Type} (l : list A) (i : nat) (v : A) : list A :=
  match l, i with
  | [], _ => []
  | _ :: t, O => v :: t
  | a :: t, S i' => a :: upd t i' v
  end.

(** [x.clip(max=1., min=0.)] on one number. *)
Definition clip01 (x : R) : R := Rmin (Rmax x 0) 1.

Fixpoint sumR (l : list R) : R :=
  match l with [] => 0 | x :: t => x + sumR t end.

(** [range(n)]. *)
Definition py_range (n : Z) : list Z := map Z.of_nat (seq 0 (Z.to_nat n)).

(** [np.zeros((a, b, c, d))]; a negative dimension raises. *)
Definition np_zeros4 (a b c d : Z) : option bank :=
  if ((0 <=? a) && (0 <=? b) && (0 <=? c) && (0 <=? d))%bool%Z
  then Some (tab (Z.to_nat a) (fun _ =>
               tab (Z.to_nat b) (fun _ => zeros (Z.to_nat c) (Z.to_nat d))))
  else None.

(** [np.eye(n)]; a negative dimension raises. *)
Definition np_eye (n : Z) : option image :=
  if (0 <=? n)%Z
  then Some (tab (Z.to_nat n) (fun i =>
               tab (Z.to_nat n) (fun j => if Nat.eqb i j then 1 else 0)))
  else None.

(** [hm[i][j] = v] for indices in range. *)
Definition upd2 {A : Type} (hm : list (list A)) (i j : nat) (v : A)
  : list (list A) :=
  upd hm i (upd (nth i hm []) j v).

(** Row-major flattening, [a.reshape(-1)]. *)
Definition flatten2 {A : Type} (m : list (list A)) : list A := concat m.
Definition flatten3 {A : Type} (t : list (list (list A))) : list A :=
  concat (map flatten2 t).
Definition flatten4 {A : Type} (t : list (list (list (list A)))) : list A :=
  concat (map flatten3 t).

(** [a.reshape(b, k, h, w)] from the flat data of [a]: the sizes must
    agree, and the entries are read back in row-major order. *)
Definition reshape4 (b k h w : nat) (flat : list R) : option tensor4 :=
  if Nat.eqb (length flat) (b * k * h * w)
  then Some (tab b (fun ib => tab k (fun ik => tab h (fun i => tab w (fun j =>
               nth (((ib * k + ik) * h + i) * w + j) flat 0)))))
  else None.

(** [a.reshape(b, k, -1)]: the last dimension is inferred, which NumPy
    refuses when [b * k = 0] or when [b * k] does not divide the size. *)
Definition reshape3_infer (b k : nat) (flat : list R) : option tensor3 :=
  if Nat.eqb (b * k) 0 then None
  else if Nat.eqb (length flat mod (b * k)) 0
  then let l := (length flat / (b * k))%nat in
       Some (tab b (fun ib => tab k (fun ik => tab l (fun p =>
               nth ((ib * k + ik) * l + p) flat 0))))
  else None.

(** [m.transpose()] of an [r] by [c] matrix. *)
Definition transpose (r c : nat) (m : image) : image :=
  tab c (fun j => tab r (fun i => at2 m i j)).

(** [a.dot(m)] for [a] of shape [(b, l, k)] and a matrix [m]: the last
    axis of [a] is contracted with the rows of [m]; their sizes must
    agree. *)
Definition dot3 (k : nat) (a : tensor3) (m : image) : option tensor3 :=
  if Nat.eqb k (length m)
  then Some (map (map (fun v =>
               tab (length (hd [] m)) (fun j =>
                 sumR (tab k (fun i => nth i v 0 * at2 m i j))))) a)
  else None.

Definition map3 {A B : Type} (f : A -> B) (t : list (list (list A)))
  : list (list (list B)) := map (map (map f)) t.
Definition map4 {A B : Type} (f : A -> B) (t : list (list (list (list A))))
  : list (list (list (list B))) := map (map3 f) t.

(** Entrywise combination of two arrays of one shape. *)
Definition zip1 {A B C : Type} (f : A -> B -> C) (xs : list A) (ys : list B)
  : list C := map (fun p => f (fst p) (snd p)) (combine xs ys).
Definition zip4 {A B C : Type} (f : A -> B -> C)
  : list (list (list (list A))) -> list (list (list (list B))) ->
    list (list (list (list C))) :=
  zip1 (zip1 (zip1 (zip1 f))).

(** [np.argmax] of a flat array, with the maximum: the first position
    that holds the greatest value; an empty array raises. *)
Fixpoint argmax_from (besti : nat) (best : R) (i : nat) (l : list R)
  : nat * R :=
  match l with
  | [] => (besti, best)
  | v :: t =>
      if Rlt_dec best v then argmax_from i v (S i) t
      else argmax_from besti best (S i) t
  end.

Definition argmax (l : list R) : option (nat * R) :=
  match l with
  | [] => None
  | v :: t => Some (argmax_from 0 v 1 t)
  end.

(** Broadcasting of one axis: equal lengths pair up, a length-one axis
    is repeated, anything else raises. *)
Definition bcast {A B C : Type} (f : A -> B -> option C)
  (xs : list A) (ys : list B) : option (list C) :=
  if Nat.eqb (length xs) (length ys)
  then mapM (fun p => f (fst p) (snd p)) (combine xs ys)
  else match xs, ys with
       | [x], _ => mapM (fun y => f x y) ys
       | _, [y] => mapM (fun x => f x y) xs
       | _, _ => None
       end.

Definition bcast2 {A B C : Type} (f : A -> B -> C)
  : list (list A) -> list (list B) -> option (list (list C)) :=
  bcast (bcast (fun a b => Some (f a b))).
Definition bcast3 {A B C : Type} (f : A -> B -> C)
  : list (list (list A)) -> list (list (list B)) ->
    option (list (list (list C))) :=
  bcast (bcast2 f).
Definition bcast4 {A B C : Type} (f : A -> B -> C)
  : list (list (list (list A))) -> list (list (list (list B))) ->
    option (list (list (list (list C)))) :=
  bcast (bcast3 f).

End Arr.
Import Arr.

(** ** Tensor values with the special values of floating point *)

Module X.

(** A tensor entry: a finite number, or one of [inf], [-inf], [nan]. *)
Inductive xval : Type :=
| Fin (r : R)
| PInf
| NInf
| NaN.

Definition xtensor3 := list (list (list xval)).
Definition xtensor4 := list xtensor3.

Definition xneg (a : xval) : xval :=
  match a with
  | Fin x => Fin (- x)
  | PInf => NInf
  | NInf => PInf
  | NaN => NaN
  end.

Definition xadd (a b : xval) : xval :=
  match a, b with
  | NaN, _ | _, NaN => NaN
  | Fin x, Fin y => Fin (x + y)
  | PInf, NInf | NInf, PInf => NaN
  | PInf, _ | _, PInf => PInf
  | NInf, _ | _, NInf => NInf
  end.

Definition xsub (a b : xval) : xval := xadd a (xneg b).

(** [a * c] for a finite Python constant [c]. *)
Definition xscale (c : R) (a : xval) : xval :=
  match a with
  | Fin x => Fin (x * c)
  | NaN => NaN
  | PInf => if Rlt_dec 0 c then PInf else if Rlt_dec c 0 then NInf else NaN
  | NInf => if Rlt_dec 0 c then NInf else if Rlt_dec c 0 then PInf else NaN
  end.

(** [a / b]: a finite quotient when the divisor is finite and not zero;
    [0 / 0] is [nan] and [x / 0] an infinity of the sign of [x]. *)
Definition xdiv (a b : xval) : xval :=
  match a, b with
  | NaN, _ | _, NaN => NaN
  | Fin x, Fin y =>
      if Req_dec_T y 0
      then (if Req_dec_T x 0 then NaN
            else if Rlt_dec 0 x then PInf else NInf)
      else Fin (x / y)
  | Fin _, (PInf | NInf) => Fin 0
  | (PInf | NInf), (PInf | NInf) => NaN
  | PInf, Fin y => if Rlt_dec y 0 then NInf else PInf
  | NInf, Fin y => if Rlt_dec y 0 then PInf else NInf
  end.

(** [a.clip(max=1., min=0.)]: [nan] stays [nan]. *)
Definition xclip01 (a : xval) : xval :=
  match a with
  | Fin x => Fin (clip01 x)
  | PInf => Fin 1
  | NInf => Fin 0
  | NaN => NaN
  end.

(** The greater of two entries, as [torch.max] reduces: [nan] wins. *)
Definition xmax2 (a b : xval) : xval :=
  match a, b with
  | NaN, _ | _, NaN => NaN
  | PInf, _ | _, PInf => PInf
  | NInf, x | x, NInf => x
  | Fin x, Fin y => Fin (Rmax x y)
  end.

Fixpoint xsum (l : list xval) : xval :=
  match l with [] => Fin 0 | a :: t => xadd a (xsum t) end.

(** [torch.max(t)] over all entries; an empty tensor raises. *)
Definition xmax_all (m : list (list xval)) : option xval :=
  match flatten2 m with
  | [] => None
  | a :: t => Some (fold_left xmax2 t a)
  end.

(** [torch.from_numpy] on an array of finite numbers. *)
Definition from_numpy (t : tensor4) : xtensor4 := map4 Fin t.

(** [torch.sum(t, dim=1)]: the channels of each sample are added up. *)
Definition sum_dim1 (t : xtensor4) : xtensor3 :=
  map (fun chans =>
         let h := length (hd [] chans) in
         let w := length (hd [] (hd [] chans)) in
         tab h (fun i => tab w (fun j =>
           xsum (map (fun m => get2 (Fin 0) m i j) chans)))) t.

(** [t.unsqueeze(1).repeat(1, n, 1, 1)]. *)
Definition unsqueeze_repeat (n : nat) (t : xtensor3) : xtensor4 :=
  map (fun m => repeat m n) t.

(** [torch.ones_like(t)]. *)
Definition ones_like (t : xtensor4) : xtensor4 := map4 (fun _ => Fin 1) t.

(** [m / torch.max(m)] on one slice. *)
Definition div_by_max (m : list (list xval)) : option (list (list xval)) :=
  bind (xmax_all m) (fun mx => Some (map (map (fun v => xdiv v mx)) m)).

(** [[torch.stack([t[k][j] / torch.max(t[k][j]) for j in range(c)])
      for k in range(b)]], stacked. *)
Definition normalize_channels (b c : nat) (t : xtensor4) : option xtensor4 :=
  mapM (fun k =>
          mapM (fun j =>
                  bind (nth_error t k) (fun tk =>
                  bind (nth_error tk j) div_by_max))
               (seq 0 c))
       (seq 0 b).

(** [[t[k] / torch.max(t[k]) for k in range(b)]], stacked. *)
Definition normalize_samples (b : nat) (t : xtensor3) : option xtensor3 :=
  mapM (fun k => bind (nth_error t k) div_by_max) (seq 0 b).

End X.
Import X.

(** ** The template banks: [PseudoLabelGenerator*.__init__] *)

(** The fields of a generator object. *)
Record generator : Type := mk_generator {
  height : Z;
  width : Z;
  sigma : Z;
  heatmaps : bank;
  false_matrix : image
}.

(** [x = np.arange(0, size, 1); y = x[:, np.newaxis];
     g = np.exp(- ((x - x0) ** 2 + (y - y0) ** 2) / (2 * sigma ** 2))],
    for an [arange] of [n] entries.  With [sigma = 0] NumPy divides by
    zero; that case is outside this model. *)
Definition gaussian (n : nat) (x0 y0 : R) (sigma : Z) : image :=
  tab n (fun i => tab n (fun j =>
    exp (- ((INR j - x0) ^ 2 + (INR i - y0) ^ 2) / IZR (2 * sigma ^ 2)))).

(** The last lines of the loop body: the usable range of the Gaussian,
    the range of the image, and the assignment of the one into the
    other inside [heatmaps[mu_x][mu_y]]. *)
Definition paste (hm : bank) (width height : Z) (ul br : Z * Z) (g : image)
  (mu_x mu_y : Z) : option bank :=
  let g_x := (Z.max 0 (- fst ul), Z.min (fst br) width - fst ul)%Z in
  let g_y := (Z.max 0 (- snd ul), Z.min (snd br) height - snd ul)%Z in
  let img_x := (Z.max 0 (fst ul), Z.min (fst br) width)%Z in
  let img_y := (Z.max 0 (snd ul), Z.min (snd br) height)%Z in
  bind (py_index hm mu_x) (fun col =>
  bind (py_index col mu_y) (fun e =>
  bind (assign_slice2 e img_y img_x (slice2 g g_y g_x)) (fun e' =>
  Some (upd2 hm (Z.to_nat mu_x) (Z.to_nat mu_y) e')))).

(** The loop body when [tmp_size] is an integer ([sigma * 3],
    [sigma * 2]): [int] is the identity and [size // 2] is integer
    division. *)
Definition template_step (width height sigma tmp_size : Z) (hm : bank)
  (mu_x mu_y : Z) : option bank :=
  let ul := (mu_x - tmp_size, mu_y - tmp_size)%Z in
  let br := (mu_x + tmp_size + 1, mu_y + tmp_size + 1)%Z in
  let size := (2 * tmp_size + 1)%Z in
  let x0 := (size / 2)%Z in
  let g := gaussian (Z.to_nat size) (IZR x0) (IZR x0) sigma in
  paste hm width height ul br g mu_x mu_y.

(** [int(q)] on a fraction: truncation towards zero. *)
Definition py_int (q : Q) : Z := Z.quot (Qnum q) (Zpos (Qden q)).

(** The loop body when [tmp_size] is a fraction ([sigma * 1.5]):
    [int] truncates, [np.arange(0, size, 1)] has [ceil(size)] entries
    and [size // 2] is the floor of the quotient. *)
Definition template_step_frac (width height sigma : Z) (tmp_size : Q)
  (hm : bank) (mu_x mu_y : Z) : option bank :=
  let ul := (py_int (inject_Z mu_x - tmp_size),
             py_int (inject_Z mu_y - tmp_size))%Q in
  let br := (py_int (inject_Z mu_x + tmp_size + 1),
             py_int (inject_Z mu_y + tmp_size + 1))%Q in
  let size := (2 * tmp_size + 1)%Q in
  let x0 := Qfloor (size / 2)%Q in
  let g := gaussian (Z.to_nat (Qceiling size)) (IZR x0) (IZR x0) sigma in
  paste hm width height ul br g mu_x mu_y.

(** [for mu_x in range(width): for mu_y in range(height): ...], the
    bank threaded through the iterations. *)
Definition init_loops (step : bank -> Z -> Z -> option bank)
  (width height : Z) (hm0 : bank) : option bank :=
  fold_left
    (fun acc mu_x =>
       fold_left (fun acc' mu_y => bind acc' (fun hm => step hm mu_x mu_y))
                 (py_range height) acc)
    (py_range width) (Some hm0).

(** The common shape of the constructors. *)
Definition build_generator (step : bank -> Z -> Z -> option bank)
  (num_keypoints height width sigma : Z) : option generator :=
  bind (np_zeros4 width height height width) (fun hm0 =>
  bind (init_loops step width height hm0) (fun hm =>
  bind (np_eye num_keypoints) (fun eye =>
  Some {| height := height; width := width; sigma := sigma;
          heatmaps := hm;
          false_matrix := map (map (fun v => 1 - v)) eye |}))).

(** [PseudoLabelGenerator(num_keypoints, height, width, sigma)]:
    [tmp_size = sigma * 3]. *)
Definition PseudoLabelGenerator_init (num_keypoints height width sigma : Z)
  : option generator :=
  build_generator (template_step width height sigma (sigma * 3))
                  num_keypoints height width sigma.

(** [PseudoLabelGenerator01(...)]: [tmp_size = sigma * 1.5]. *)
Definition PseudoLabelGenerator01_init (num_keypoints height width sigma : Z)
  : option generator :=
  build_generator
    (template_step_frac width height sigma (inject_Z sigma * (3 # 2))%Q)
    num_keypoints height width sigma.

(** [PseudoLabelGenerator03(...)]: [tmp_size = sigma * 2]. *)
Definition PseudoLabelGenerator03_init (num_keypoints height width sigma : Z)
  : option generator :=
  build_generator (template_step width height sigma (sigma * 2))
                  num_keypoints height width sigma.

(** ** The peak decoder *)

(** Modelled from the spec: [get_max_preds] of [utils.keypoint_detection],
    which is not part of the sources.  For every sample and keypoint it
    returns the [(x, y)] position of the maximum of the heat map,
    [x] being the column and [y] the row, and the maximum itself; ties
    go to the first position in row-major scan order. *)
Definition decode_image (w : nat) (m : image) : option ((Z * Z) * R) :=
  bind (argmax (flatten2 m)) (fun iv =>
    Some ((Z.of_nat (fst iv mod w), Z.of_nat (fst iv / w)), snd iv)).

Definition get_max_preds (y : tensor4)
  : option (list (list (Z * Z)) * list (list R)) :=
  let '(_, _, _, W) := shape4 y in
  bind (mapM (mapM (decode_image W)) y) (fun r =>
  Some (map (map fst) r, map (map snd) r)).

(** ** The forward passes of the generators *)

(** [self.heatmaps[preds[:, 0], preds[:, 1], :, :]]. *)
Definition gather (hm : bank) (preds : list (Z * Z)) : option (list image) :=
  mapM (fun p => bind (py_index hm (fst p)) (fun col => py_index col (snd p)))
       preds.

(** The cross-suppression of [forward]:
    [ground_truth.reshape(B, K, -1).transpose((0, 2, 1))], then
    [.dot(false_matrix).clip(max=1., min=0.).transpose((0, 2, 1))
     .reshape(B, K, H, W)]. *)
Definition cross_suppression (B K H W : nat) (false_matrix : image)
  (ground_truth : tensor4) : option tensor4 :=
  bind (reshape3_infer B K (flatten4 ground_truth)) (fun flat =>
  let ground_false := map (transpose K (length (hd [] (hd [] flat)))) flat in
  bind (dot3 K ground_false false_matrix) (fun prod =>
  let clipped := map3 clip01 prod in
  let back :=
    map (transpose (length (hd [] prod)) (length (hd [] (hd [] prod))))
        clipped in
  reshape4 B K H W (flatten3 back))).

(** The NumPy part of [PseudoLabelGenerator.forward]. *)
Definition PseudoLabelGenerator_forward_np (self : generator) (y : tensor4)
  : option (tensor4 * tensor4) :=
  let '(B, K, H, W) := shape4 y in
  bind (get_max_preds y) (fun pm =>
  let preds := concat (fst pm) in
  bind (gather (heatmaps self) preds) (fun picked =>
  bind (reshape4 B K H W (flatten3 picked)) (fun ground_truth =>
  bind (cross_suppression B K H W (false_matrix self) ground_truth)
       (fun ground_false =>
  Some (ground_truth, ground_false))))).

(** [PseudoLabelGenerator.forward]: both arrays leave as tensors. *)
Definition PseudoLabelGenerator_forward (self : generator) (y : tensor4)
  : option (xtensor4 * xtensor4) :=
  bind (PseudoLabelGenerator_forward_np self y) (fun r =>
  Some (from_numpy (fst r), from_numpy (snd r))).

(** [ground_false = np.ones_like(ground_truth)], then
    [(ground_false - ground_truth * 10).clip(max=1., min=0.)]. *)
Definition np_complement (ground_truth : tensor4) : tensor4 :=
  let ground_false := map4 (fun _ => 1) ground_truth in
  map4 clip01 (zip4 (fun a b => a - b * 10) ground_false ground_truth).

(** The forward pass of the low-resolution generators: the decoded
    coordinates are divided by [divisor] and truncated, the templates
    are reshaped to [out] by [out], and the ground false is the
    complement of the ground truth. *)
Definition lowres_forward_np (divisor : Z) (out : nat) (self : generator)
  (y : tensor4) : option (tensor4 * tensor4) :=
  let '(B, K, _, _) := shape4 y in
  bind (get_max_preds y) (fun pm =>
  let preds := concat (fst pm) in
  let preds := map (fun p => (Z.quot (fst p) divisor, Z.quot (snd p) divisor))
                   preds in
  bind (gather (heatmaps self) preds) (fun picked =>
  bind (reshape4 B K out out (flatten3 picked)) (fun ground_truth =>
  Some (ground_truth, np_complement ground_truth)))).

(** [PseudoLabelGenerator01.forward]: [preds / 4], shape [(B, K, 16, 16)]. *)
Definition PseudoLabelGenerator01_forward (self : generator) (y : tensor4)
  : option (xtensor4 * xtensor4) :=
  bind (lowres_forward_np 4 16 self y) (fun r =>
  Some (from_numpy (fst r), from_numpy (snd r))).

(** [PseudoLabelGenerator03.forward]: [preds / 2], shape [(B, K, 32, 32)]. *)
Definition PseudoLabelGenerator03_forward (self : generator) (y : tensor4)
  : option (xtensor4 * xtensor4) :=
  bind (lowres_forward_np 2 32 self y) (fun r =>
  Some (from_numpy (fst r), from_numpy (snd r))).

(** ** The regression-disparity loss selectors *)

(** What a [forward] call does: return a value, fail its [assert], or
    raise from the tensor operations. *)
Inductive result (A : Type) : Type :=
| Ok (a : A)
| AssertionError
| Raised.
Arguments Ok {A} a.
Arguments AssertionError {A}.
Arguments Raised {A}.

(** A loss-selector object: the criterion and the generator it was
    built with, and the pair it keeps from its last call.  [L] is what
    the criterion returns and [W] the type of instance weights. *)
Record disparity (L W : Type) : Type := mk_disparity {
  criterion : tensor4 -> xtensor4 -> option W -> L;
  pseudo_label_generator : tensor4 -> option (xtensor4 * xtensor4);
  ground_truth : option xtensor4;
  ground_false : option xtensor4
}.

(** [mode in ['min', 'max']]. *)
Definition mode_ok (mode : string) : bool :=
  (String.eqb mode "min" || String.eqb mode "max")%bool.

(** The common end of every [forward]: keep the pair, then pick the
    target by [mode]. *)
Definition select_loss {L W : Type} (self : disparity L W) (y_adv : tensor4)
  (gt gf : xtensor4) (weight : option W) (mode : string)
  : result L * disparity L W :=
  let self' := {| criterion := criterion self;
                  pseudo_label_generator := pseudo_label_generator self;
                  ground_truth := Some gt;
                  ground_false := Some gf |} in
  if String.eqb mode "min"
  then (Ok (criterion self y_adv gt weight), self')
  else (Ok (criterion self y_adv gf weight), self').

(** [RegressionDisparity.forward]. *)
Definition RegressionDisparity_forward {L W : Type} (self : disparity L W)
  (y y_adv : tensor4) (weight : option W) (mode : string)
  : result L * disparity L W :=
  if mode_ok mode then
    match pseudo_label_generator self y with
    | Some (gt, gf) => select_loss self y_adv gt gf weight mode
    | None => (Raised, self)
    end
  else (AssertionError, self).

(** [(label_p - ground_truth*10).clip(max=1., min=0.)], the subtraction
    broadcasting. *)
Definition minus_ten_clip (label_p gt : xtensor4) : option xtensor4 :=
  bind (bcast4 xsub label_p (map4 (xscale 10) gt)) (fun d =>
  Some (map4 xclip01 d)).

(** The ground false of [RegressionDisparity4.forward]. *)
Definition RegressionDisparity4_ground_false (gt : xtensor4)
  : option xtensor4 :=
  let label_p := map3 xclip01 (sum_dim1 gt) in
  let label_p := unsqueeze_repeat 21 label_p in
  minus_ten_clip label_p gt.

Definition RegressionDisparity4_forward {L W : Type} (self : disparity L W)
  (y y_adv : tensor4) (weight : option W) (mode : string)
  : result L * disparity L W :=
  if mode_ok mode then
    match pseudo_label_generator self y with
    | Some (gt, _) =>
        match RegressionDisparity4_ground_false gt with
        | Some gf => select_loss self y_adv gt gf weight mode
        | None => (Raised, self)
        end
    | None => (Raised, self)
    end
  else (AssertionError, self).

(** The ground false of [RegressionDisparity2.forward]; [b] is the
    batch size read from [y.shape]. *)
Definition RegressionDisparity2_ground_false (b : nat)
  (gt gt1 gt2 : xtensor4) : option xtensor4 :=
  let label_p1 := sum_dim1 gt in
  let label_p2 := sum_dim1 gt1 in
  let label_p3 := sum_dim1 gt2 in
  bind (bcast3 xadd label_p2 label_p1) (fun s =>
  bind (bcast3 xadd s label_p3) (fun label_p =>
  bind (normalize_samples b label_p) (fun label_p =>
  let label_p := unsqueeze_repeat 21 label_p in
  minus_ten_clip label_p gt))).

(** The ground false of [RegressionDisparity3.forward]. *)
Definition RegressionDisparity3_ground_false (b : nat)
  (gt gt1 gt2 : xtensor4) : option xtensor4 :=
  let label_p1 := map3 xclip01 (sum_dim1 gt) in
  let label_p2 := map3 xclip01 (sum_dim1 gt1) in
  let label_p3 := map3 xclip01 (sum_dim1 gt2) in
  bind (bcast3 xadd label_p1 label_p2) (fun s =>
  bind (bcast3 xadd s label_p3) (fun label_p =>
  bind (normalize_samples b label_p) (fun label_p =>
  let label_p := unsqueeze_repeat 21 label_p in
  minus_ten_clip label_p gt))).

(** [RegressionDisparity2.forward] and [RegressionDisparity3.forward]
    differ in the ground-false construction only. *)
Definition aux_forward {L W : Type}
  (build : nat -> xtensor4 -> xtensor4 -> xtensor4 -> option xtensor4)
  (self : disparity L W) (y y_adv label_1 label_2 : tensor4)
  (weight : option W) (mode : string) : result L * disparity L W :=
  if mode_ok mode then
    let '(b, _, _, _) := shape4 y in
    match pseudo_label_generator self y,
          pseudo_label_generator self label_1,
          pseudo_label_generator self label_2 with
    | Some (gt, _), Some (gt1, _), Some (gt2, _) =>
        match build b gt gt1 gt2 with
        | Some gf => select_loss self y_adv gt gf weight mode
        | None => (Raised, self)
        end
    | _, _, _ => (Raised, self)
    end
  else (AssertionError, self).

Definition RegressionDisparity2_forward {L W : Type} :=
  @aux_forward L W RegressionDisparity2_ground_false.
Definition RegressionDisparity3_forward {L W : Type} :=
  @aux_forward L W RegressionDisparity3_ground_false.

(** The complement of [RegressionDisparityx1.forward]:
    [(torch.ones_like(ground_truth) - ground_truth * 10).clip(max=1., min=0.)]. *)
Definition complement_ground_false (gt : xtensor4) : option xtensor4 :=
  minus_ten_clip (ones_like gt) gt.

Definition RegressionDisparityx1_forward {L W : Type} (self : disparity L W)
  (y y_adv : tensor4) (weight : option W) (mode : string)
  : result L * disparity L W :=
  if mode_ok mode then
    match pseudo_label_generator self y with
    | Some (gt, _) =>
        match complement_ground_false gt with
        | Some gf => select_loss self y_adv gt gf weight mode
        | None => (Raised, self)
        end
    | None => (Raised, self)
    end
  else (AssertionError, self).

(** [b, c, _, _ = ground_false.shape] and the division of every channel
    slice by its maximum. *)
Definition normalize_by_shape (gf : xtensor4) : option xtensor4 :=
  let '(b, c, _, _) := shape4 gf in normalize_channels b c gf.

(** [if y_adv2:] on an optional tensor: [None] is false, a tensor of one
    entry is true when the entry is not zero, any other tensor raises. *)
Definition truthy (y_adv2 : option tensor4) : option bool :=
  match y_adv2 with
  | None => Some false
  | Some t =>
      match flatten4 t with
      | [v] => Some (if Req_dec_T v 0 then false else true)
      | _ => None
      end
  end.

(** The ground false of [RegressionDisparityx4.forward]; [gf_gen] is the
    ground false of the generator, which is what is normalised when the
    branch is not taken. *)
Definition RegressionDisparityx4_ground_false (gt gf_gen : xtensor4)
  (y_adv2 : option tensor4) : option xtensor4 :=
  bind (complement_ground_false gt) (fun ground_false1 =>
  bind (truthy y_adv2) (fun taken =>
  bind (match taken, y_adv2 with
        | true, Some t => bcast4 xadd ground_false1 (from_numpy t)
        | _, _ => Some gf_gen
        end) normalize_by_shape)).

Definition RegressionDisparityx4_forward {L W : Type} (self : disparity L W)
  (y y_adv : tensor4) (weight : option W) (y_adv2 : option tensor4)
  (mode : string) : result L * disparity L W :=
  if mode_ok mode then
    match pseudo_label_generator self y with
    | Some (gt, gf_gen) =>
        match RegressionDisparityx4_ground_false gt gf_gen y_adv2 with
        | Some gf => select_loss self y_adv gt gf weight mode
        | None => (Raised, self)
        end
    | None => (Raised, self)
    end
  else (AssertionError, self).

(** [RegressionDisparityx6.forward] up to the normalisation: the
    construction of [RegressionDisparity4] and, when [y_adv2] is given,
    [ground_false + y_adv2] and
    [(ground_false - ground_truth * 100).clip(max=1., min=0.)]. *)
Definition RegressionDisparityx6_combined (gt : xtensor4)
  (y_adv2 : option tensor4) : option xtensor4 :=
  bind (RegressionDisparity4_ground_false gt) (fun ground_false =>
  match y_adv2 with
  | Some t =>
      bind (bcast4 xadd ground_false (from_numpy t)) (fun s =>
      bind (bcast4 xsub s (map4 (xscale 100) gt)) (fun d =>
      Some (map4 xclip01 d)))
  | None => Some ground_false
  end).

(** The ground false of [RegressionDisparityx6.forward]. *)
Definition RegressionDisparityx6_ground_false (gt : xtensor4)
  (y_adv2 : option tensor4) : option xtensor4 :=
  bind (RegressionDisparityx6_combined gt y_adv2) normalize_by_shape.

Definition RegressionDisparityx6_forward {L W : Type} (self : disparity L W)
  (y y_adv : tensor4) (y_adv2 : option tensor4) (weight : option W)
  (mode : string) : result L * disparity L W :=
  if mode_ok mode then
    match pseudo_label_generator self y with
    | Some (gt, _) =>
        match RegressionDisparityx6_ground_false gt y_adv2 with
        | Some gf => select_loss self y_adv gt gf weight mode
        | None => (Raised, self)
        end
    | None => (Raised, self)
    end
  else (AssertionError, self).

(** ** The combination rule as the specification words it *)

(** "sum -> clip[0,1]": the presence map of a sample at one pixel, the
    ground-truth maps of all [sources] added up over their channels. *)
Definition spec_presence (sources : list xtensor4) (b i j : nat) : xval :=
  xclip01
    (xsum (map (fun s : xtensor4 =>
                  xsum (map (fun m => get2 (Fin 0) m i j) (nth b s [])))
               sources)).

(** "broadcast-repeat across K -> subtract (ground_truth x 10) ->
    clip[0,1]". *)
Definition spec_combined (sources : list xtensor4) (gt : xtensor4)
  : xtensor4 :=
  let '(B, K, H, W) := shape4 gt in
  tab B (fun b => tab K (fun k => tab H (fun i => tab W (fun j =>
    xclip01 (xsub (spec_presence sources b i j)
                  (xscale 10 (get4 (Fin 0) gt b k i j))))))).

(** "optional per-channel renormalize by max". *)
Definition spec_renormalize (t : xtensor4) : xtensor4 :=
  map (map (fun m =>
              match xmax_all m with
              | Some mx => map (map (fun v => xdiv v mx)) m
              | None => m
              end)) t.

Definition spec_ground_false (renorm : bool) (sources : list xtensor4)
  (gt : xtensor4) : xtensor4 :=
  if renorm then spec_renormalize (spec_combined sources gt)
  else spec_combined sources gt.

(** The cross-suppression of the specification, entry by entry:
    [clip (sum over k of gt[b][k][i][j] * M[k][k'])]. *)
Definition spec_cross_suppression (m : image) (gt : tensor4)
  (b k' i j : nat) : R :=
  clip01 (sumR (tab (length (nth b gt []))
                    (fun k => at4 gt b k i j * at2 m k k'))).

(** ** Inputs used in the examples *)

(** One sample with 21 channels on a 1 by 4 grid, every channel with its
    peak in column 0. *)
Definition y_row : tensor4 :=
  [ tab 21 (fun _ => [[1; 0; 0; 0]]) ].

(** An adversarial output of the same shape that is [-1] everywhere. *)
Definition y_adv2_neg : tensor4 :=
  [ tab 21 (fun _ => [[-1; -1; -1; -1]]) ].

(** One sample with [k] channels on a 64 by 64 grid, all zero. *)
Definition y_zero64 (k : nat) : tensor4 := [ tab k (fun _ => zeros 64 64) ].

(** A criterion that returns the target it is given. *)
Definition echo_criterion (y_adv : tensor4) (target : xtensor4)
  (weight : option unit) : xtensor4 := target.

(** A loss selector around a generator, before its first call. *)
Definition new_disparity {L W : Type}
  (crit : tensor4 -> xtensor4 -> option W -> L)
  (plg : tensor4 -> option (xtensor4 * xtensor4)) : disparity L W :=
  {| criterion := crit; pseudo_label_generator := plg;
     ground_truth := None; ground_false := None |}.

(** ** Closed forms used in the proofs *)

(** The image that [paste] leaves in a slot that held [e]. *)
Definition pasted (e : image) (width height : Z) (ul br : Z * Z) (g : image)
  : image :=
  tab (length e) (fun i => tab (length (nth i e [])) (fun j =>
    if ((Z.max 0 (snd ul) <=? Z.of_nat i) &&
        (Z.of_nat i <? Z.min (snd br) height) &&
        (Z.max 0 (fst ul) <=? Z.of_nat j) &&
        (Z.of_nat j <? Z.min (fst br) width))%bool%Z
    then at2 g (Z.to_nat (Z.of_nat i - snd ul)) (Z.to_nat (Z.of_nat j - fst ul))
    else at2 e i j)).

(** The value of the template of peak [(mu_x, mu_y)] at row [iy] and
    column [ix], for an integer half-width [tmp_size]. *)
Definition template_value (sigma tmp_size mu_x mu_y iy ix : Z) : R :=
  if ((Z.abs (ix - mu_x) <=? tmp_size) &&
      (Z.abs (iy - mu_y) <=? tmp_size))%bool%Z
  then exp (- IZR ((ix - mu_x) ^ 2 + (iy - mu_y) ^ 2) / IZR (2 * sigma ^ 2))
  else 0.

Definition template (width height sigma tmp_size mu_x mu_y : Z) : image :=
  tab (Z.to_nat height) (fun i => tab (Z.to_nat width) (fun j =>
    template_value sigma tmp_size mu_x mu_y (Z.of_nat i) (Z.of_nat j))).

(** The bank of all templates. *)
Definition template_bank (width height sigma tmp_size : Z) : bank :=
  tab (Z.to_nat width) (fun mx => tab (Z.to_nat height) (fun my =>
    template width height sigma tmp_size (Z.of_nat mx) (Z.of_nat my))).

(** The bank after the loops have handled every peak before
    [(i, j)] in iteration order: those slots hold [E], the others still
    hold what [hm0] had. *)
Definition loop_state (hm0 : bank) (E : nat -> nat -> image) (W H i j : nat)
  : bank :=
  tab W (fun mx => tab H (fun my =>
    if (Nat.ltb mx i || (Nat.eqb mx i && Nat.ltb my j))%bool
    then E mx my
    else nth my (nth mx hm0 []) [])).

(** The suppression matrix, entry by entry: [1 - eye]. *)
Definition suppression_matrix (K : nat) : image :=
  tab K (fun i => tab K (fun j => 1 - (if Nat.eqb i j then 1 else 0))).

(** The generator whose bank holds the templates of half-width
    [tmp_size]. *)
Definition template_generator (num_keypoints height width sigma tmp_size : Z)
  : generator :=
  {| height := height; width := width; sigma := sigma;
     heatmaps := template_bank width height sigma tmp_size;
     false_matrix := suppression_matrix (Z.to_nat num_keypoints) |}.

(** Squared Euclidean distance of pixel [(iy, ix)] to the peak
    [(mu_x, mu_y)], and the square window of half-width [t] around it. *)
Definition sq_dist (mu_x mu_y iy ix : Z) : Z :=
  ((ix - mu_x) ^ 2 + (iy - mu_y) ^ 2)%Z.

Definition in_window (t mu_x mu_y iy ix : Z) : Prop :=
  (Z.abs (ix - mu_x) <= t)%Z /\ (Z.abs (iy - mu_y) <= t)%Z.

(** [bank[x][y][iy][ix]] for indices counted from zero. *)
Definition bank_at (hm : bank) (x y iy ix : Z) : option R :=
  entry4 hm (Z.to_nat x) (Z.to_nat y) (Z.to_nat iy) (Z.to_nat ix).

(** The decoded peak of one heat map, [(0, 0)] standing in when the
    decoder raises. *)
Definition peak_of (w : nat) (m : image) : Z * Z :=
  match decode_image w m with
  | Some (p, _) => p
  | None => (0, 0)%Z
  end.

(** The ground truth that [forward] gathers: the template of the
    decoded peak of every channel; [rescale] is applied to the decoded
    coordinates first, and the templates are [h] by [w]. *)
Definition gathered_truth (hm : bank) (rescale : Z -> Z) (h w : nat)
  (y : tensor4) : tensor4 :=
  let '(B, K, _, W) := shape4 y in
  tab B (fun b => tab K (fun k =>
    let p := peak_of W (nth k (nth b y []) []) in
    let tpl := nth (Z.to_nat (rescale (snd p)))
                   (nth (Z.to_nat (rescale (fst p))) hm []) [] in
    tab h (fun i => tab w (fun j => at2 tpl i j)))).

(** The cross-suppression of a ground truth, entry by entry. *)
Definition cross_suppressed (m : image) (gt : tensor4) : tensor4 :=
  let '(B, K, H, W) := shape4 gt in
  tab B (fun b => tab K (fun k' => tab H (fun i => tab W (fun j =>
    spec_cross_suppression m gt b k' i j)))).

(** The complement of a ground truth, entry by entry. *)
Definition complemented (gt : tensor4) : tensor4 :=
  map4 (fun v => clip01 (1 - v * 10)) gt.

(** Entries between 0 and 1. *)
Definition in01 (v : R) : Prop := 0 <= v <= 1.
Definition xin01 (v : xval) : Prop := exists r, v = Fin r /\ 0 <= r <= 1.

Definition all2 {A : Type} (P : A -> Prop) (m : list (list A)) : Prop :=
  Forall (Forall P) m.
Definition all4 {A : Type} (P : A -> Prop) (t : list (list (list (list A))))
  : Prop := Forall (Forall (all2 P)) t.

(** The window and the Gaussian of the loop body for a fractional
    [tmp_size], and the template it leaves in a slot that held zeros. *)
Definition frac_ul (tmp_size : Q) (mu_x mu_y : Z) : Z * Z :=
  (py_int (inject_Z mu_x - tmp_size), py_int (inject_Z mu_y - tmp_size))%Q.

Definition frac_br (tmp_size : Q) (mu_x mu_y : Z) : Z * Z :=
  (py_int (inject_Z mu_x + tmp_size + 1),
   py_int (inject_Z mu_y + tmp_size + 1))%Q.

Definition frac_gaussian (tmp_size : Q) (sigma : Z) : image :=
  gaussian (Z.to_nat (Qceiling (2 * tmp_size + 1)%Q))
           (IZR (Qfloor ((2 * tmp_size + 1) / 2)%Q))
           (IZR (Qfloor ((2 * tmp_size + 1) / 2)%Q)) sigma.

Definition frac_template (width height sigma : Z) (tmp_size : Q)
  (mu_x mu_y : Z) : image :=
  pasted (zeros (Z.to_nat height) (Z.to_nat width)) width height
         (frac_ul tmp_size mu_x mu_y) (frac_br tmp_size mu_x mu_y)
         (frac_gaussian tmp_size sigma).

Definition frac_generator (num_keypoints height width sigma : Z)
  (tmp_size : Q) : generator :=
  {| height := height; width := width; sigma := sigma;
     heatmaps :=
       tab (Z.to_nat width) (fun mx => tab (Z.to_nat height) (fun my =>
         frac_template width height sigma tmp_size
                       (Z.of_nat mx) (Z.of_nat my)));
     false_matrix := suppression_matrix (Z.to_nat num_keypoints) |}.

(** The three generator classes with a forward pass of their own. *)
Inductive variant : Type := Base | Low01 | Low03.

Definition init_of (v : variant) : Z -> Z -> Z -> Z -> option generator :=
  match v with
  | Base => PseudoLabelGenerator_init
  | Low01 => PseudoLabelGenerator01_init
  | Low03 => PseudoLabelGenerator03_init
  end.

Definition forward_of (v : variant)
  : generator -> tensor4 -> option (xtensor4 * xtensor4) :=
  match v with
  | Base => PseudoLabelGenerator_forward
  | Low01 => PseudoLabelGenerator01_forward
  | Low03 => PseudoLabelGenerator03_forward
  end.

(** The height and width of what [forward] returns for an input of
    height [h] and width [w]. *)
Definition output_size (v : variant) (h w : nat) : nat * nat :=
  match v with
  | Base => (h, w)
  | Low01 => (16, 16)%nat
  | Low03 => (32, 32)%nat
  end.

(** The presence of a sample at one pixel before clipping: its
    ground-truth maps added up over the channels. *)
Definition presence (gt : xtensor4) (n i j : nat) : xval :=
  xsum (map (fun m => get2 (Fin 0) m i j) (nth n gt [])).

(** The channel that a broadcast reads on the side with [k] channels. *)
Definition chan (k c : nat) : nat := if Nat.eqb k 1 then 0%nat else c.

(** [torch.max] of the [h] by [w] slice with entries [f i j], [nan]
    standing in when the slice is empty and [torch.max] raises. *)
Definition slice_max (f : nat -> nat -> xval) (h w : nat) : xval :=
  match xmax_all (tab h (fun i => tab w (f i))) with
  | Some m => m
  | None => NaN
  end.

(** The summed presence maps of [RegressionDisparity2] and of
    [RegressionDisparity3] at one pixel, before the division. *)
Definition summed2 (gt gt1 gt2 : xtensor4) (n i j : nat) : xval :=
  xadd (xadd (presence gt1 n i j) (presence gt n i j)) (presence gt2 n i j).

Definition summed3 (gt gt1 gt2 : xtensor4) (n i j : nat) : xval :=
  xadd (xadd (xclip01 (presence gt n i j)) (xclip01 (presence gt1 n i j)))
       (xclip01 (presence gt2 n i j)).

(** What [RegressionDisparity2] and [RegressionDisparity3] build from a
    summed presence map [S]: each sample of [S] divided by its own
    maximum, then repeated over 21 channels, then
    [(label_p - ground_truth*10).clip]. *)
Definition normalized_first (S : nat -> nat -> nat -> xval) (gt : xtensor4)
  (b h w : nat) : xtensor4 :=
  tab b (fun n => tab 21 (fun c => tab h (fun i => tab w (fun j =>
    xclip01 (xsub (xdiv (S n i j) (slice_max (S n) h w))
                  (xscale 10 (get4 (Fin 0) gt n c i j))))))).

(** The ground truth that the base generator of a 1 by 4 grid with
    [sigma = 1] gathers from [y_row]: in every channel the template of
    the peak [(0, 0)]. *)
Definition row_truth : tensor4 :=
  tab 1 (fun _ => tab 21 (fun _ => tab 1 (fun i => tab 4 (fun j =>
    template_value 1 3 0 0 (Z.of_nat i) (Z.of_nat j))))).

(** A tensor of one sample with 21 channels on a 1 by 4 grid that holds
    [v] everywhere. *)
Definition row_const (v : xval) : xtensor4 :=
  tab 1 (fun _ => tab 21 (fun _ => tab 1 (fun _ => tab 4 (fun _ => v)))).

(** ** The other generators and loss selectors of the module *)

(** [PseudoLabelGenerator02]: its constructor and its [forward] are,
    line for line, those of [PseudoLabelGenerator]. *)
Definition PseudoLabelGenerator02_init (num_keypoints height width sigma : Z)
  : option generator :=
  build_generator (template_step width height sigma (sigma * 3))
                  num_keypoints height width sigma.

Definition PseudoLabelGenerator02_forward (self : generator) (y : tensor4)
  : option (xtensor4 * xtensor4) :=
  bind (PseudoLabelGenerator_forward_np self y) (fun r =>
  Some (from_numpy (fst r), from_numpy (snd r))).

(** The ground false of [RegressionDisparity5.forward]: the clipped
    presence of the primary ground truth, plus what each of the two
    other presences has beyond it. *)
Definition RegressionDisparity5_ground_false (gt gt1 gt2 : xtensor4)
  : option xtensor4 :=
  let label_p1 := map3 xclip01 (sum_dim1 gt) in
  let label_p2 := map3 xclip01 (sum_dim1 gt1) in
  let label_p3 := map3 xclip01 (sum_dim1 gt2) in
  bind (bcast3 xsub label_p2 label_p1) (fun d1 =>
  let labelx1 := map3 xclip01 d1 in
  bind (bcast3 xsub label_p3 label_p1) (fun d2 =>
  let labelx2 := map3 xclip01 d2 in
  bind (bcast3 xadd label_p1 labelx1) (fun s1 =>
  bind (bcast3 xadd s1 labelx2) (fun s2 =>
  let label_p := map3 xclip01 s2 in
  let label_p := unsqueeze_repeat 21 label_p in
  minus_ten_clip label_p gt)))).

(** The ground false of [RegressionDisparity6.forward]: as
    [RegressionDisparity5] with one other label. *)
Definition RegressionDisparity6_ground_false (gt gt1 : xtensor4)
  : option xtensor4 :=
  let label_p1 := map3 xclip01 (sum_dim1 gt) in
  let label_p2 := map3 xclip01 (sum_dim1 gt1) in
  bind (bcast3 xsub label_p2 label_p1) (fun d1 =>
  let labelx1 := map3 xclip01 d1 in
  bind (bcast3 xadd label_p1 labelx1) (fun s1 =>
  let label_p := map3 xclip01 s1 in
  let label_p := unsqueeze_repeat 21 label_p in
  minus_ten_clip label_p gt)).

(** The ground false of [RegressionDisparity7.forward]: the two clipped
    presences added, each sample divided by its maximum. *)
Definition RegressionDisparity7_ground_false (b : nat) (gt gt1 : xtensor4)
  : option xtensor4 :=
  let label_p1 := map3 xclip01 (sum_dim1 gt) in
  let label_p2 := map3 xclip01 (sum_dim1 gt1) in
  bind (bcast3 xadd label_p2 label_p1) (fun label_p =>
  bind (normalize_samples b label_p) (fun label_p =>
  let label_p := unsqueeze_repeat 21 label_p in
  minus_ten_clip label_p gt)).

(** The ground false of [RegressionDisparity8.forward]: the excess of
    the other ground truths is taken channel by channel,
    [(ground_truth1 - ground_truth).clip(max=1., min=0.)], before the
    sum over the channels. *)
Definition RegressionDisparity8_ground_false (gt gt1 gt2 : xtensor4)
  : option xtensor4 :=
  let label_p1 := map3 xclip01 (sum_dim1 gt) in
  bind (bcast4 xsub gt1 gt) (fun e1 =>
  let labelx1 := map3 xclip01 (sum_dim1 (map4 xclip01 e1)) in
  bind (bcast4 xsub gt2 gt) (fun e2 =>
  let labelx2 := map3 xclip01 (sum_dim1 (map4 xclip01 e2)) in
  bind (bcast3 xadd label_p1 labelx1) (fun s1 =>
  bind (bcast3 xadd s1 labelx2) (fun s2 =>
  let label_p := map3 xclip01 s2 in
  let label_p := unsqueeze_repeat 21 label_p in
  minus_ten_clip label_p gt)))).

(** The [forward] of the selectors with one other label. *)
Definition aux1_forward {L W : Type}
  (build : nat -> xtensor4 -> xtensor4 -> option xtensor4)
  (self : disparity L W) (y y_adv label_1 : tensor4)
  (weight : option W) (mode : string) : result L * disparity L W :=
  if mode_ok mode then
    let '(b, _, _, _) := shape4 y in
    match pseudo_label_generator self y,
          pseudo_label_generator self label_1 with
    | Some (gt, _), Some (gt1, _) =>
        match build b gt gt1 with
        | Some gf => select_loss self y_adv gt gf weight mode
        | None => (Raised, self)
        end
    | _, _ => (Raised, self)
    end
  else (AssertionError, self).

Definition RegressionDisparity5_forward {L W : Type} :=
  @aux_forward L W (fun _ => RegressionDisparity5_ground_false).
Definition RegressionDisparity6_forward {L W : Type} :=
  @aux1_forward L W (fun _ => RegressionDisparity6_ground_false).
Definition RegressionDisparity7_forward {L W : Type} :=
  @aux1_forward L W RegressionDisparity7_ground_false.
Definition RegressionDisparity8_forward {L W : Type} :=
  @aux_forward L W (fun _ => RegressionDisparity8_ground_false).

(** [RegressionDisparityx2.forward]: the summed ground truth is
    repeated 21 times into [label_p], which is not used afterwards;
    the ground false is the complement of [RegressionDisparityx1]. *)
Definition RegressionDisparityx2_forward {L W : Type} (self : disparity L W)
  (y y_adv : tensor4) (weight : option W) (mode : string)
  : result L * disparity L W :=
  if mode_ok mode then
    match pseudo_label_generator self y with
    | Some (gt, _) =>
        let label_p := sum_dim1 gt in
        let label_p := unsqueeze_repeat 21 label_p in
        match complement_ground_false gt with
        | Some gf => select_loss self y_adv gt gf weight mode
        | None => (Raised, self)
        end
    | None => (Raised, self)
    end
  else (AssertionError, self).

(** A [forward] that returns: its construction [built] gave a ground
    false of shape [(b, c, h, w)], and its result [out] is the loss
    selected on the ground truth [gt] and that ground false. *)
Definition returns_loss_on {L W : Type} (self : disparity L W)
  (y_adv : tensor4) (gt : xtensor4) (weight : option W) (mode : string)
  (b c h w : nat) (built : option xtensor4)
  (out : result L * disparity L W) : Prop :=
  exists gf,
    built = Some gf /\ has_shape4 b c h w gf /\
    out = select_loss self y_adv gt gf weight mode.

(** The ground false of [RegressionDisparityx5.forward]: the complement
    is used when [y_adv2] is given; otherwise the ground false of the
    generator is what gets normalised. *)
Definition RegressionDisparityx5_combined (gt gf_gen : xtensor4)
  (y_adv2 : option tensor4) : option xtensor4 :=
  bind (complement_ground_false gt) (fun ground_false1 =>
  match y_adv2 with
  | Some t =>
      bind (bcast4 xadd ground_false1 (from_numpy t)) (fun s =>
      bind (bcast4 xsub s (map4 (xscale 100) gt)) (fun d =>
      Some (map4 xclip01 d)))
  | None => Some gf_gen
  end).

Definition RegressionDisparityx5_ground_false (gt gf_gen : xtensor4)
  (y_adv2 : option tensor4) : option xtensor4 :=
  bind (RegressionDisparityx5_combined gt gf_gen y_adv2) normalize_by_shape.

Definition RegressionDisparityx5_forward {L W : Type} (self : disparity L W)
  (y y_adv : tensor4) (y_adv2 : option tensor4) (weight : option W)
  (mode : string) : result L * disparity L W :=
  if mode_ok mode then
    match pseudo_label_generator self y with
    | Some (gt, gf_gen) =>
        match RegressionDisparityx5_ground_false gt gf_gen y_adv2 with
        | Some gf => select_loss self y_adv gt gf weight mode
        | None => (Raised, self)
        end
    | None => (Raised, self)
    end
  else (AssertionError, self).

(** ** Closed forms used for the further properties *)

(** The sum of the ground-truth maps of the channels other than [c]. *)
Definition sum_others (gt : tensor4) (n c i j : nat) : R :=
  sumR (tab (length (nth n gt []))
            (fun k => if Nat.eqb k c then 0 else at4 gt n k i j)).

(** A slice of finite entries. *)
Definition fin_slice (a : nat -> nat -> R) (h w : nat) : list (list xval) :=
  tab h (fun i => tab w (fun j => Fin (a i j))).

(** The presence of a sample at one pixel on an array of numbers, and
    the labels that the loss selectors repeat over the channels, as
    functions of sample and pixel. *)
Definition presence_np (g : tensor4) (n i j : nat) : R :=
  sumR (map (fun m => at2 m i j) (nth n g [])).

Definition label4 (g : tensor4) (n i j : nat) : R :=
  clip01 (presence_np g n i j).

Definition label5 (g g1 g2 : tensor4) (n i j : nat) : R :=
  clip01 (label4 g n i j
          + clip01 (label4 g1 n i j - label4 g n i j)
          + clip01 (label4 g2 n i j - label4 g n i j)).

Definition label6 (g g1 : tensor4) (n i j : nat) : R :=
  clip01 (label4 g n i j + clip01 (label4 g1 n i j - label4 g n i j)).


(** What the channels of [g1] have beyond those of [g], added up over
    the 21 channels and clipped. *)
Definition excess (g1 g : tensor4) (n i j : nat) : R :=
  clip01 (sumR (tab 21 (fun c =>
            clip01 (at4 g1 n c i j - at4 g n c i j)))).

Definition label8 (g g1 g2 : tensor4) (n i j : nat) : R :=
  clip01 (label4 g n i j + excess g1 g n i j + excess g2 g n i j).

(** [(label_p - ground_truth*10).clip(max=1., min=0.)] for a label
    repeated over the 21 channels, entry by entry. *)
Definition ground_false_of (lab : nat -> nat -> nat -> R) (g : tensor4)
  (b h w : nat) : xtensor4 :=
  tab b (fun n => tab 21 (fun c => tab h (fun i => tab w (fun j =>
    Fin (clip01 (lab n i j - at4 g n c i j * 10)))))).

(** What each [forward] does to a decoded coordinate before it indexes
    the bank, and the batches and generators that fit together: the
    base generator wants the channels, height and width of the batch
    to be its own; the low-resolution ones want their own grid and a
    batch of at most 64 by 64. *)
Definition rescale_of (v : variant) (z : Z) : Z :=
  match v with
  | Base => z
  | Low01 => Z.quot z 4
  | Low03 => Z.quot z 2
  end.

Definition fits (v : variant) (K ht wd : Z) (k hy wy : nat) : Prop :=
  match v with
  | Base => k = Z.to_nat K /\ hy = Z.to_nat ht /\ wy = Z.to_nat wd
  | Low01 => ht = 16%Z /\ wd = 16%Z /\ (hy <= 64)%nat /\ (wy <= 64)%nat
  | Low03 => ht = 32%Z /\ wd = 32%Z /\ (hy <= 64)%nat /\ (wy <= 64)%nat
  end.
(** ** Basic facts about the primitives *)

Section ArrFacts.

Context {A : Type}.

Lemma length_tab (n : nat) (f : nat -> A) : length (tab n f) = n.
Proof. unfold tab. now rewrite length_map, length_seq. Qed.

Lemma nth_tab (n : nat) (f : nat -> A) (i : nat) (d : A) :
  (i < n)%nat -> nth i (tab n f) d = f i.
Proof.
  intros Hi. unfold tab.
  rewrite (nth_indep _ d (f 0%nat)) by (rewrite length_map, length_seq; exact Hi).
  rewrite map_nth. now rewrite seq_nth.
Qed.

Lemma nth_error_tab (n : nat) (f : nat -> A) (i : nat) :
  (i < n)%nat -> nth_error (tab n f) i = Some (f i).
Proof.
  intros Hi. unfold tab.
  rewrite nth_error_map, nth_error_seq.
  destruct (Nat.ltb_spec i n) as [_|Hge]; [reflexivity | lia].
Qed.

Lemma tab_ext (n : nat) (f g : nat -> A) :
  (forall i, (i < n)%nat -> f i = g i) -> tab n f = tab n g.
Proof.
  intros H. unfold tab. apply map_ext_in.
  intros i Hi. apply in_seq in Hi. apply H. lia.
Qed.

Lemma tab_nth (l : list A) (d : A) : tab (length l) (fun i => nth i l d) = l.
Proof.
  apply (nth_ext _ _ d d).
  - apply length_tab.
  - intros i Hi. rewrite length_tab in Hi. now apply nth_tab.
Qed.

Lemma Forall_tab (P : A -> Prop) (n : nat) (f : nat -> A) :
  (forall i, (i < n)%nat -> P (f i)) -> Forall P (tab n f).
Proof.
  intros H. unfold tab. apply Forall_forall.
  intros x Hx. apply in_map_iff in Hx. destruct Hx as [i [<- Hi]].
  apply in_seq in Hi. apply H. lia.
Qed.

Lemma Forall_nth_in (P : A -> Prop) (l : list A) (i : nat) (d : A) :
  Forall P l -> (i < length l)%nat -> P (nth i l d).
Proof.
  intros HF Hi. rewrite Forall_forall in HF. apply HF. now apply nth_In.
Qed.

End ArrFacts.

(** ** Facts about the option monad and updates *)

Lemma mapM_length {A B : Type} (f : A -> option B) (l : list A) (r : list B) :
  mapM f l = Some r -> length r = length l.
Proof.
  revert r. induction l as [|a t IH]; intros r H; simpl in H.
  - now inversion H.
  - destruct (f a) as [b|]; [|discriminate].
    destruct (mapM f t) as [bs|]; [|discriminate].
    inversion H; subst. simpl. f_equal. now apply IH.
Qed.

Lemma mapM_nth_error {A B : Type} (f : A -> option B) (l : list A) (r : list B)
  (i : nat) (a : A) :
  mapM f l = Some r -> nth_error l i = Some a ->
  exists b, f a = Some b /\ nth_error r i = Some b.
Proof.
  revert r i. induction l as [|x t IH]; intros r i H Hi; simpl in H.
  - destruct i; discriminate.
  - destruct (f x) as [b|] eqn:Hfx; [|discriminate].
    destruct (mapM f t) as [bs|] eqn:Ht; [|discriminate].
    inversion H; subst. destruct i as [|i]; simpl in *.
    + inversion Hi; subst. now exists b.
    + now apply IH.
Qed.

Lemma mapM_total {A B : Type} (f : A -> option B) (g : A -> B) (l : list A) :
  (forall a, In a l -> f a = Some (g a)) -> mapM f l = Some (map g l).
Proof.
  induction l as [|x t IH]; intros H; simpl.
  - reflexivity.
  - rewrite (H x (or_introl eq_refl)), IH; [reflexivity|].
    intros a Ha. apply H. now right.
Qed.

Lemma mapM_Forall {A B : Type} (P : B -> Prop) (f : A -> option B)
  (l : list A) (r : list B) :
  mapM f l = Some r -> (forall a b, In a l -> f a = Some b -> P b) ->
  Forall P r.
Proof.
  revert r. induction l as [|x t IH]; intros r H HP; simpl in H.
  - inversion H. constructor.
  - destruct (f x) as [b|] eqn:Hfx; [|discriminate].
    destruct (mapM f t) as [bs|] eqn:Ht; [|discriminate].
    inversion H; subst. constructor.
    + apply (HP x); [now left | exact Hfx].
    + apply IH; [reflexivity|]. intros a b' Ha. apply HP. now right.
Qed.

Lemma length_upd {A : Type} (l : list A) (i : nat) (v : A) :
  length (upd l i v) = length l.
Proof.
  revert i. induction l as [|a t IH]; intros [|i]; simpl; auto.
Qed.

Lemma nth_upd_same {A : Type} (l : list A) (i : nat) (v d : A) :
  (i < length l)%nat -> nth i (upd l i v) d = v.
Proof.
  revert i. induction l as [|a t IH]; intros [|i] H; simpl in *; try lia; auto.
  apply IH. lia.
Qed.

Lemma nth_upd_other {A : Type} (l : list A) (i j : nat) (v d : A) :
  i <> j -> nth j (upd l i v) d = nth j l d.
Proof.
  revert i j. induction l as [|a t IH]; intros [|i] [|j] H; simpl; auto; try lia.
Qed.

Lemma upd_as_tab {A : Type} (l : list A) (i : nat) (v d : A) :
  upd l i v = tab (length l) (fun j => if Nat.eqb j i then v else nth j l d).
Proof.
  apply (nth_ext _ _ d d).
  - now rewrite length_upd, length_tab.
  - intros j Hj. rewrite length_upd in Hj. rewrite nth_tab by exact Hj.
    destruct (Nat.eqb_spec j i) as [->|Hne].
    + now apply nth_upd_same.
    + apply nth_upd_other. congruence.
Qed.

Lemma py_index_nat {A : Type} (l : list A) (i : nat) :
  (i < length l)%nat -> py_index l (Z.of_nat i) = nth_error l i.
Proof.
  intros Hi. unfold py_index.
  destruct (Z.leb_spec 0 (Z.of_nat i)); [|lia].
  destruct (Z.ltb_spec (Z.of_nat i) (Z.of_nat (length l))); [|lia].
  simpl. now rewrite Nat2Z.id.
Qed.

Lemma py_index_Some_nonneg {A : Type} (l : list A) (i : Z) :
  (0 <= i < Z.of_nat (length l))%Z ->
  forall d, py_index l i = Some (nth (Z.to_nat i) l d).
Proof.
  intros Hi d. unfold py_index.
  destruct (Z.leb_spec 0 i); [|lia].
  destruct (Z.ltb_spec i (Z.of_nat (length l))); [|lia].
  simpl. apply nth_error_nth'. lia.
Qed.

Lemma nth_error_Some_nth {A : Type} (l : list A) (i : nat) (d : A) :
  (i < length l)%nat -> nth_error l i = Some (nth i l d).
Proof. intros. now apply nth_error_nth'. Qed.

(** ** Slices and slice assignment *)

Lemma clamp_idx_id (n i : Z) : (0 <= i <= n)%Z -> clamp_idx n i = i.
Proof.
  intros H. unfold clamp_idx.
  destruct (Z.ltb_spec i 0); lia.
Qed.

Lemma length_slice {A : Type} (l : list A) (a b : Z) :
  (0 <= a <= b)%Z -> (b <= Z.of_nat (length l))%Z ->
  length (slice l (a, b)) = Z.to_nat (b - a).
Proof.
  intros Hab Hb. unfold slice. simpl fst; simpl snd.
  rewrite !clamp_idx_id by lia.
  rewrite length_firstn, length_skipn. lia.
Qed.

Lemma nth_slice {A : Type} (l : list A) (a b : Z) (k : nat) (d : A) :
  (0 <= a <= b)%Z -> (b <= Z.of_nat (length l))%Z ->
  (k < Z.to_nat (b - a))%nat ->
  nth k (slice l (a, b)) d = nth (Z.to_nat a + k) l d.
Proof.
  intros Hab Hb Hk. unfold slice. simpl fst; simpl snd.
  rewrite !clamp_idx_id by lia.
  rewrite nth_firstn.
  destruct (Nat.ltb_spec k (Z.to_nat (b - a))); [|lia].
  now rewrite nth_skipn.
Qed.

Lemma In_slice {A : Type} (l : list A) (ab : Z * Z) (x : A) :
  In x (slice l ab) -> In x l.
Proof.
  unfold slice. intros H.
  set (k := Z.to_nat (clamp_idx (Z.of_nat (length l)) (fst ab))) in *.
  set (n := Z.to_nat _) in H.
  rewrite <- (firstn_skipn k l). apply in_or_app. right.
  rewrite <- (firstn_skipn n (skipn k l)). apply in_or_app. now left.
Qed.

Lemma has_shape2_row {A : Type} (h w : nat) (m : list (list A)) (i : nat) :
  has_shape2 h w m -> (i < h)%nat -> length (nth i m []) = w.
Proof.
  intros [Hl HF] Hi.
  apply (@Forall_nth_in _ (fun r => length r = w) m i [] HF). lia.
Qed.

Lemma has_shape2_hd {A : Type} (h w : nat) (m : list (list A)) :
  has_shape2 h w m -> (0 < h)%nat -> length (hd [] m) = w.
Proof.
  intros Hs Hh. rewrite <- (has_shape2_row (i := 0) Hs Hh).
  destruct m; reflexivity.
Qed.

Lemma has_shape2_tab {A : Type} (h w : nat) (f : nat -> nat -> A) :
  has_shape2 h w (tab h (fun i => tab w (f i))).
Proof.
  split; [apply length_tab|].
  apply Forall_tab. intros. apply length_tab.
Qed.

Lemma has_shape2_zeros (h w : nat) : has_shape2 h w (zeros h w).
Proof. apply (has_shape2_tab h w (fun _ _ => 0)). Qed.

Lemma at2_tab (h w : nat) (f : nat -> nat -> R) (i j : nat) :
  (i < h)%nat -> (j < w)%nat ->
  at2 (tab h (fun i => tab w (f i))) i j = f i j.
Proof.
  intros Hi Hj. unfold at2, get2.
  rewrite nth_tab by exact Hi. now rewrite nth_tab.
Qed.

Lemma has_shape2_slice2 (n : nat) (g : image) (a b c d : Z) :
  has_shape2 n n g ->
  (0 <= a <= b)%Z -> (b <= Z.of_nat n)%Z ->
  (0 <= c <= d)%Z -> (d <= Z.of_nat n)%Z ->
  has_shape2 (Z.to_nat (b - a)) (Z.to_nat (d - c)) (slice2 g (a, b) (c, d)).
Proof.
  intros Hg Hab Hb Hcd Hd. pose proof Hg as [Hl HF].
  unfold slice2. split.
  - rewrite length_map. apply length_slice; lia.
  - apply Forall_forall. intros r Hr. apply in_map_iff in Hr.
    destruct Hr as [r0 [<- Hr0]].
    assert (Hlen : length r0 = n).
    { rewrite Forall_forall in HF. apply HF.
      now apply In_slice in Hr0. }
    apply length_slice; lia.
Qed.

Lemma at2_slice2 (n : nat) (g : image) (a b c d : Z) (i j : nat) :
  has_shape2 n n g ->
  (0 <= a <= b)%Z -> (b <= Z.of_nat n)%Z ->
  (0 <= c <= d)%Z -> (d <= Z.of_nat n)%Z ->
  (i < Z.to_nat (b - a))%nat -> (j < Z.to_nat (d - c))%nat ->
  at2 (slice2 g (a, b) (c, d)) i j = at2 g (Z.to_nat a + i) (Z.to_nat c + j).
Proof.
  intros Hg Hab Hb Hcd Hd Hi Hj. pose proof Hg as [Hl HF].
  unfold at2, get2, slice2.
  assert (Hsl : length (slice g (a, b)) = Z.to_nat (b - a))
    by (apply length_slice; lia).
  rewrite (nth_indep _ [] (slice [] (c, d)))
    by (rewrite length_map; lia).
  rewrite (map_nth (fun r => slice r (c, d))).
  rewrite (@nth_slice _ g a b i []) by lia.
  rewrite nth_slice; [reflexivity | lia | | lia].
  rewrite (has_shape2_row (i := Z.to_nat a + i) Hg); lia.
Qed.

Lemma forallb_length_ok (w : nat) (m : image) :
  Forall (fun r => length r = w) m ->
  forallb (fun r => Nat.eqb (length r) w) m = true.
Proof.
  intros H. apply forallb_forall. intros r Hr.
  rewrite Forall_forall in H. apply Nat.eqb_eq. now apply H.
Qed.

Lemma assign_slice2_closed (h w : nat) (e patch : image) (y0 y1 x0 x1 : Z) :
  has_shape2 h w e -> (0 < h)%nat ->
  (0 <= y0 <= y1)%Z -> (y1 <= Z.of_nat h)%Z ->
  (0 <= x0 <= x1)%Z -> (x1 <= Z.of_nat w)%Z ->
  has_shape2 (Z.to_nat (y1 - y0)) (Z.to_nat (x1 - x0)) patch ->
  assign_slice2 e (y0, y1) (x0, x1) patch =
  Some (tab h (fun i => tab w (fun j =>
          if ((y0 <=? Z.of_nat i) && (Z.of_nat i <? y1) &&
              (x0 <=? Z.of_nat j) && (Z.of_nat j <? x1))%bool%Z
          then at2 patch (i - Z.to_nat y0) (j - Z.to_nat x0)
          else at2 e i j))).
Proof.
  intros He Hh Hy Hy1 Hx Hx1 [Hpl HpF].
  pose proof He as [Hel HeF].
  unfold assign_slice2. simpl fst; simpl snd.
  rewrite Hel, (has_shape2_hd He Hh).
  rewrite !clamp_idx_id by lia.
  rewrite Hpl, Nat.eqb_refl, (forallb_length_ok HpF). simpl.
  f_equal. apply tab_ext. intros i Hi.
  rewrite (has_shape2_row He Hi). reflexivity.
Qed.

Lemma paste_closed (hm : bank) (wd ht : Z) (ul br : Z * Z) (g : image)
  (n : nat) (mu_x mu_y : Z) (e : image) :
  (0 < wd)%Z -> (0 < ht)%Z ->
  has_shape2 n n g ->
  (0 <= mu_x < Z.of_nat (length hm))%Z ->
  (0 <= mu_y < Z.of_nat (length (nth (Z.to_nat mu_x) hm [])))%Z ->
  nth (Z.to_nat mu_y) (nth (Z.to_nat mu_x) hm []) [] = e ->
  has_shape2 (Z.to_nat ht) (Z.to_nat wd) e ->
  (fst ul <= mu_x < fst br)%Z -> (snd ul <= mu_y < snd br)%Z ->
  (mu_x < wd)%Z -> (mu_y < ht)%Z ->
  (fst br - fst ul <= Z.of_nat n)%Z -> (snd br - snd ul <= Z.of_nat n)%Z ->
  paste hm wd ht ul br g mu_x mu_y =
  Some (upd2 hm (Z.to_nat mu_x) (Z.to_nat mu_y) (pasted e wd ht ul br g)).
Proof.
  intros Hw Hh Hg Hmx Hmy He Hes Hux Huy Hxw Hyh Hnx Hny.
  destruct ul as [ux uy], br as [bx by_]. simpl fst in *; simpl snd in *.
  unfold paste. simpl fst; simpl snd.
  rewrite (py_index_Some_nonneg hm Hmx []). simpl bind.
  rewrite (py_index_Some_nonneg _ Hmy []). simpl bind. rewrite He.
  rewrite (@assign_slice2_closed (Z.to_nat ht) (Z.to_nat wd)); try lia; try exact Hes.
  2:{ replace (Z.min by_ ht - Z.max 0 uy)%Z
        with ((Z.min by_ ht - uy) - Z.max 0 (- uy))%Z by lia.
      replace (Z.min bx wd - Z.max 0 ux)%Z
        with ((Z.min bx wd - ux) - Z.max 0 (- ux))%Z by lia.
      apply (has_shape2_slice2 Hg); lia. }
  simpl bind. do 2 f_equal.
  unfold pasted. pose proof Hes as [Hel HeF]. rewrite Hel.
  apply tab_ext. intros i Hi. rewrite (has_shape2_row Hes Hi).
  apply tab_ext. intros j Hj. simpl fst; simpl snd.
  destruct ((Z.max 0 uy <=? Z.of_nat i)%Z && (Z.of_nat i <? Z.min by_ ht)%Z &&
            (Z.max 0 ux <=? Z.of_nat j)%Z && (Z.of_nat j <? Z.min bx wd)%Z)%bool
    eqn:Hin; [|reflexivity].
  apply andb_prop in Hin. destruct Hin as [Hin Hj1].
  apply andb_prop in Hin. destruct Hin as [Hin Hj0].
  apply andb_prop in Hin. destruct Hin as [Hi0 Hi1].
  apply Z.leb_le in Hi0, Hj0. apply Z.ltb_lt in Hi1, Hj1.
  rewrite (at2_slice2 Hg); try lia.
  f_equal; lia.
Qed.

(** ** The construction loops *)

Section Loops.

Variable step : bank -> Z -> Z -> option bank.
Variable hm0 : bank.
Variable E : nat -> nat -> image.
Variables W H : nat.

Hypothesis hm0_len : length hm0 = W.
Hypothesis hm0_cols : forall k, (k < W)%nat -> length (nth k hm0 []) = H.
Hypothesis step_spec :
  forall hm i j, (i < W)%nat -> (j < H)%nat ->
    length hm = W ->
    (forall k, (k < W)%nat -> length (nth k hm []) = H) ->
    nth j (nth i hm []) [] = nth j (nth i hm0 []) [] ->
    step hm (Z.of_nat i) (Z.of_nat j) = Some (upd2 hm i j (E i j)).

Lemma loop_state_len i j : length (loop_state hm0 E W H i j) = W.
Proof. apply length_tab. Qed.

Lemma loop_state_cols i j k :
  (k < W)%nat -> length (nth k (loop_state hm0 E W H i j) []) = H.
Proof.
  intros Hk. unfold loop_state. rewrite nth_tab by exact Hk. apply length_tab.
Qed.

Lemma loop_state_start : loop_state hm0 E W H 0 0 = hm0.
Proof.
  unfold loop_state.
  apply eq_trans with (tab (length hm0) (fun i => nth i hm0 []));
    [| apply tab_nth].
  rewrite hm0_len. apply tab_ext. intros mx Hmx.
  apply eq_trans with (tab (length (nth mx hm0 []))
                           (fun i => nth i (nth mx hm0 []) []));
    [| apply tab_nth].
  rewrite (hm0_cols Hmx). apply tab_ext. intros my Hmy.
  destruct (Nat.ltb_spec mx 0); [lia|].
  destruct (Nat.ltb_spec my 0); [lia|].
  now rewrite andb_false_r.
Qed.

Lemma loop_state_next_row i :
  loop_state hm0 E W H i H = loop_state hm0 E W H (S i) 0.
Proof.
  unfold loop_state. apply tab_ext. intros mx Hmx.
  apply tab_ext. intros my Hmy.
  destruct (Nat.ltb_spec mx i), (Nat.eqb_spec mx i), (Nat.ltb_spec my H),
    (Nat.ltb_spec mx (S i)), (Nat.eqb_spec mx (S i)), (Nat.ltb_spec my 0);
    simpl; try reflexivity; lia.
Qed.

Lemma loop_state_upd i j :
  (i < W)%nat -> (j < H)%nat ->
  upd2 (loop_state hm0 E W H i j) i j (E i j) = loop_state hm0 E W H i (S j).
Proof.
  intros Hi Hj. unfold upd2.
  rewrite (upd_as_tab _ _ _ []). rewrite loop_state_len.
  unfold loop_state at 3. apply tab_ext. intros mx Hmx.
  destruct (Nat.eqb_spec mx i) as [->|Hne].
  - rewrite (@upd_as_tab image _ _ _ []). rewrite (loop_state_cols _ _ Hi).
    apply tab_ext. intros my Hmy.
    unfold loop_state. rewrite nth_tab by exact Hi. rewrite nth_tab by exact Hmy.
    destruct (Nat.eqb_spec my j) as [->|Hnej].
    + destruct (Nat.ltb_spec j (S j)); [|lia].
      now rewrite orb_true_r.
    + rewrite Nat.eqb_refl.
      destruct (Nat.ltb_spec i i); [lia|].
      destruct (Nat.ltb_spec my j), (Nat.ltb_spec my (S j));
        simpl; try reflexivity; lia.
  - unfold loop_state. rewrite nth_tab by exact Hmx.
    apply tab_ext. intros my Hmy.
    destruct (Nat.eqb_spec mx i); [contradiction|]. reflexivity.
Qed.

Lemma inner_loop i j :
  (i < W)%nat -> (j <= H)%nat ->
  fold_left (fun acc' mu_y => bind acc' (fun hm => step hm (Z.of_nat i) mu_y))
            (map Z.of_nat (seq 0 j)) (Some (loop_state hm0 E W H i 0))
  = Some (loop_state hm0 E W H i j).
Proof.
  intros Hi. induction j as [|j IH]; intros Hj.
  - reflexivity.
  - rewrite seq_S, map_app, fold_left_app, IH by lia. simpl.
    rewrite step_spec; try lia.
    + now rewrite loop_state_upd by lia.
    + apply loop_state_len.
    + intros k Hk. now apply loop_state_cols.
    + unfold loop_state. rewrite !nth_tab by lia.
      destruct (Nat.ltb_spec i i); [lia|].
      destruct (Nat.ltb_spec j j); [lia|].
      now rewrite andb_false_r.
Qed.

Lemma outer_loop i :
  (i <= W)%nat ->
  fold_left
    (fun acc mu_x =>
       fold_left (fun acc' mu_y => bind acc' (fun hm => step hm mu_x mu_y))
                 (map Z.of_nat (seq 0 H)) acc)
    (map Z.of_nat (seq 0 i)) (Some (loop_state hm0 E W H 0 0))
  = Some (loop_state hm0 E W H i 0).
Proof.
  induction i as [|i IH]; intros Hi.
  - reflexivity.
  - rewrite seq_S, map_app, fold_left_app, IH by lia. simpl.
    rewrite inner_loop by lia. now rewrite loop_state_next_row.
Qed.

Lemma loop_state_final :
  loop_state hm0 E W H W 0 = tab W (fun mx => tab H (fun my => E mx my)).
Proof.
  unfold loop_state. apply tab_ext. intros mx Hmx.
  apply tab_ext. intros my Hmy.
  destruct (Nat.ltb_spec mx W); [reflexivity | lia].
Qed.

End Loops.

Lemma init_loops_closed (step : bank -> Z -> Z -> option bank) (hm0 : bank)
  (E : nat -> nat -> image) (wd ht : Z) :
  length hm0 = Z.to_nat wd ->
  (forall k, (k < Z.to_nat wd)%nat -> length (nth k hm0 []) = Z.to_nat ht) ->
  (forall hm i j, (i < Z.to_nat wd)%nat -> (j < Z.to_nat ht)%nat ->
     length hm = Z.to_nat wd ->
     (forall k, (k < Z.to_nat wd)%nat -> length (nth k hm []) = Z.to_nat ht) ->
     nth j (nth i hm []) [] = nth j (nth i hm0 []) [] ->
     step hm (Z.of_nat i) (Z.of_nat j) = Some (upd2 hm i j (E i j))) ->
  init_loops step wd ht hm0 =
  Some (tab (Z.to_nat wd) (fun mx => tab (Z.to_nat ht) (fun my => E mx my))).
Proof.
  intros Hl Hc Hs. unfold init_loops, py_range.
  rewrite <- (@loop_state_start hm0 E (Z.to_nat wd) (Z.to_nat ht) Hl Hc) at 1.
  rewrite outer_loop; [| assumption | assumption | lia].
  now rewrite loop_state_final.
Qed.

(** ** The closed form of the bank *)

Lemma has_shape2_gaussian (n : nat) (x0 y0 : R) (s : Z) :
  has_shape2 n n (gaussian n x0 y0 s).
Proof. unfold gaussian. apply has_shape2_tab. Qed.

Lemma gaussian_at (n : nat) (x0 y0 : R) (s : Z) (i j : nat) :
  (i < n)%nat -> (j < n)%nat ->
  at2 (gaussian n x0 y0 s) i j =
  exp (- ((INR j - x0) ^ 2 + (INR i - y0) ^ 2) / IZR (2 * s ^ 2)).
Proof. intros Hi Hj. unfold gaussian. now rewrite at2_tab. Qed.

Lemma INR_to_nat (z : Z) : (0 <= z)%Z -> INR (Z.to_nat z) = IZR z.
Proof. intros Hz. rewrite INR_IZR_INZ. now rewrite Z2Nat.id. Qed.

Lemma sq_dist_IZR (a b : Z) :
  IZR a ^ 2 + IZR b ^ 2 = IZR (a ^ 2 + b ^ 2).
Proof.
  rewrite plus_IZR. rewrite !Z.pow_2_r, !mult_IZR. ring.
Qed.

Lemma half_size (t : Z) : (0 <= t)%Z -> ((2 * t + 1) / 2 = t)%Z.
Proof.
  intros Ht. symmetry. apply (Z.div_unique (2 * t + 1) 2 t 1); lia.
Qed.

Lemma pasted_zeros_template (wd ht s t : Z) (i j : nat) :
  (0 < wd)%Z -> (0 < ht)%Z -> (0 <= t)%Z ->
  (i < Z.to_nat wd)%nat -> (j < Z.to_nat ht)%nat ->
  pasted (zeros (Z.to_nat ht) (Z.to_nat wd)) wd ht
         (Z.of_nat i - t, Z.of_nat j - t)%Z
         (Z.of_nat i + t + 1, Z.of_nat j + t + 1)%Z
         (gaussian (Z.to_nat (2 * t + 1)) (IZR ((2 * t + 1) / 2))
                   (IZR ((2 * t + 1) / 2)) s)
  = template wd ht s t (Z.of_nat i) (Z.of_nat j).
Proof.
  intros Hw Hh Ht Hi Hj.
  unfold pasted, template.
  pose proof (has_shape2_zeros (Z.to_nat ht) (Z.to_nat wd)) as Hz.
  destruct Hz as [Hzl HzF]. rewrite Hzl.
  apply tab_ext. intros a Ha.
  rewrite (has_shape2_row (conj Hzl HzF) Ha).
  apply tab_ext. intros b Hb. simpl fst; simpl snd.
  unfold template_value.
  destruct ((Z.max 0 (Z.of_nat j - t) <=? Z.of_nat a)%Z &&
            (Z.of_nat a <? Z.min (Z.of_nat j + t + 1) ht)%Z &&
            (Z.max 0 (Z.of_nat i - t) <=? Z.of_nat b)%Z &&
            (Z.of_nat b <? Z.min (Z.of_nat i + t + 1) wd)%Z)%bool eqn:Hin.
  - apply andb_prop in Hin. destruct Hin as [Hin Hb1].
    apply andb_prop in Hin. destruct Hin as [Hin Hb0].
    apply andb_prop in Hin. destruct Hin as [Ha0 Ha1].
    apply Z.leb_le in Ha0, Hb0. apply Z.ltb_lt in Ha1, Hb1.
    destruct (Z.leb_spec (Z.abs (Z.of_nat b - Z.of_nat i)) t); [|lia].
    destruct (Z.leb_spec (Z.abs (Z.of_nat a - Z.of_nat j)) t); [|lia].
    simpl andb. cbv iota.
    rewrite gaussian_at by lia.
    rewrite half_size by lia.
    rewrite !INR_to_nat by lia.
    rewrite <- !minus_IZR.
    replace (Z.of_nat b - (Z.of_nat i - t) - t)%Z
      with (Z.of_nat b - Z.of_nat i)%Z by lia.
    replace (Z.of_nat a - (Z.of_nat j - t) - t)%Z
      with (Z.of_nat a - Z.of_nat j)%Z by lia.
    now rewrite sq_dist_IZR.
  - assert (Hout : ((Z.abs (Z.of_nat b - Z.of_nat i) <=? t)%Z &&
                    (Z.abs (Z.of_nat a - Z.of_nat j) <=? t)%Z)%bool = false).
    { apply not_true_is_false. intros Htrue.
      apply andb_prop in Htrue. destruct Htrue as [H1 H2].
      apply Z.leb_le in H1, H2.
      destruct (Z.leb_spec (Z.max 0 (Z.of_nat j - t)) (Z.of_nat a));
        [|lia].
      destruct (Z.ltb_spec (Z.of_nat a) (Z.min (Z.of_nat j + t + 1) ht));
        [|lia].
      destruct (Z.leb_spec (Z.max 0 (Z.of_nat i - t)) (Z.of_nat b));
        [|lia].
      destruct (Z.ltb_spec (Z.of_nat b) (Z.min (Z.of_nat i + t + 1) wd));
        [|lia].
      discriminate Hin. }
    rewrite Hout. unfold zeros. now rewrite at2_tab.
Qed.

Lemma template_step_closed (wd ht s t : Z) (hm : bank) (i j : nat) :
  (0 < wd)%Z -> (0 < ht)%Z -> (0 <= t)%Z ->
  (i < Z.to_nat wd)%nat -> (j < Z.to_nat ht)%nat ->
  length hm = Z.to_nat wd ->
  (forall k, (k < Z.to_nat wd)%nat -> length (nth k hm []) = Z.to_nat ht) ->
  nth j (nth i hm []) [] = zeros (Z.to_nat ht) (Z.to_nat wd) ->
  template_step wd ht s t hm (Z.of_nat i) (Z.of_nat j) =
  Some (upd2 hm i j (template wd ht s t (Z.of_nat i) (Z.of_nat j))).
Proof.
  intros Hw Hh Ht Hi Hj Hl Hc He.
  unfold template_step.
  rewrite (@paste_closed hm wd ht _ _ _ (Z.to_nat (2 * t + 1))
             (Z.of_nat i) (Z.of_nat j) (zeros (Z.to_nat ht) (Z.to_nat wd)));
    simpl fst; simpl snd; rewrite ?Nat2Z.id; try lia.
  - now rewrite pasted_zeros_template.
  - apply has_shape2_gaussian.
  - rewrite Hc; lia.
  - exact He.
  - apply has_shape2_zeros.
Qed.

Lemma map_tab {A B : Type} (f : A -> B) (n : nat) (g : nat -> A) :
  map f (tab n g) = tab n (fun i => f (g i)).
Proof. unfold tab. now rewrite map_map. Qed.

Lemma build_template_generator (K ht wd s t : Z) :
  (0 <= K)%Z -> (0 < ht)%Z -> (0 < wd)%Z -> (0 <= t)%Z ->
  build_generator (template_step wd ht s t) K ht wd s =
  Some (template_generator K ht wd s t).
Proof.
  intros HK Hh Hw Ht. unfold build_generator, np_zeros4, np_eye.
  destruct (Z.leb_spec 0 wd); [|lia].
  destruct (Z.leb_spec 0 ht); [|lia].
  destruct (Z.leb_spec 0 K); [|lia].
  simpl andb. cbv iota. simpl bind.
  rewrite (@init_loops_closed _ _
             (fun mx my => template wd ht s t (Z.of_nat mx) (Z.of_nat my))).
  - simpl bind. unfold template_generator, template_bank, suppression_matrix.
    f_equal. f_equal.
    rewrite map_tab. apply tab_ext. intros i _. now rewrite map_tab.
  - apply length_tab.
  - intros k Hk. rewrite nth_tab by exact Hk. apply length_tab.
  - intros hm i j Hi Hj Hl Hc He.
    apply template_step_closed; try assumption.
    eapply eq_trans; [exact He|]. rewrite nth_tab by exact Hi. now rewrite nth_tab.
Qed.

Lemma PseudoLabelGenerator_init_closed (K ht wd s : Z) :
  (0 <= K)%Z -> (0 < ht)%Z -> (0 < wd)%Z -> (0 < s)%Z ->
  PseudoLabelGenerator_init K ht wd s =
  Some (template_generator K ht wd s (s * 3)).
Proof.
  intros. unfold PseudoLabelGenerator_init.
  apply build_template_generator; lia.
Qed.

Lemma PseudoLabelGenerator03_init_closed (K ht wd s : Z) :
  (0 <= K)%Z -> (0 < ht)%Z -> (0 < wd)%Z -> (0 < s)%Z ->
  PseudoLabelGenerator03_init K ht wd s =
  Some (template_generator K ht wd s (s * 2)).
Proof.
  intros. unfold PseudoLabelGenerator03_init.
  apply build_template_generator; lia.
Qed.

(** ** Values of the templates *)

Lemma template_value_range (s t mx my iy ix : Z) :
  0 <= template_value s t mx my iy ix <= 1.
Proof.
  unfold template_value.
  destruct (_ && _)%bool; [|lra].
  split; [left; apply exp_pos|].
  rewrite <- exp_0.
  set (d := ((ix - mx) ^ 2 + (iy - my) ^ 2)%Z).
  set (q := (2 * s ^ 2)%Z).
  assert (Hd : (0 <= d)%Z) by (unfold d; nia).
  assert (Hq : (0 <= q)%Z) by (unfold q; nia).
  assert (Harg : - IZR d / IZR q <= 0).
  { apply IZR_le in Hd. apply IZR_le in Hq.
    destruct (Req_dec (IZR q) 0) as [Hz|Hnz].
    - rewrite Hz. unfold Rdiv. rewrite Rinv_0. lra.
    - unfold Rdiv. assert (0 < / IZR q) by (apply Rinv_0_lt_compat; lra).
      nra. }
  destruct Harg as [Hlt|Heq].
  - left. now apply exp_increasing.
  - rewrite Heq. lra.
Qed.

Lemma template_value_peak (s t mx my : Z) :
  (0 <= t)%Z -> template_value s t mx my my mx = 1.
Proof.
  intros Ht. unfold template_value.
  rewrite !Z.sub_diag. change (Z.abs 0) with 0%Z.
  destruct (Z.leb_spec 0 t); [|lia]. simpl andb. cbv iota.
  change (0 ^ 2 + 0 ^ 2)%Z with 0%Z.
  replace (- 0 / IZR (2 * s ^ 2)) with 0 by (unfold Rdiv; ring).
  apply exp_0.
Qed.

Lemma template_value_outside (s t mx my iy ix : Z) :
  (t < Z.abs (ix - mx) \/ t < Z.abs (iy - my))%Z ->
  template_value s t mx my iy ix = 0.
Proof.
  intros H. unfold template_value.
  destruct (Z.leb_spec (Z.abs (ix - mx)) t);
    destruct (Z.leb_spec (Z.abs (iy - my)) t); simpl; try reflexivity; lia.
Qed.

Lemma template_value_inside (s t mx my iy ix : Z) :
  (Z.abs (ix - mx) <= t)%Z -> (Z.abs (iy - my) <= t)%Z ->
  template_value s t mx my iy ix =
  exp (- IZR ((ix - mx) ^ 2 + (iy - my) ^ 2) / IZR (2 * s ^ 2)).
Proof.
  intros H1 H2. unfold template_value.
  destruct (Z.leb_spec (Z.abs (ix - mx)) t); [|lia].
  destruct (Z.leb_spec (Z.abs (iy - my)) t); [|lia]. reflexivity.
Qed.

(** Inside the window the value falls strictly as the squared distance
    to the peak grows. *)
Lemma gauss_strict_decreasing (s d1 d2 : Z) :
  (0 < s)%Z -> (d1 < d2)%Z ->
  exp (- IZR d2 / IZR (2 * s ^ 2)) < exp (- IZR d1 / IZR (2 * s ^ 2)).
Proof.
  intros Hs Hd. apply exp_increasing.
  assert (Hq : (0 < 2 * s ^ 2)%Z) by nia.
  apply IZR_lt in Hq. apply IZR_lt in Hd.
  unfold Rdiv. apply Rmult_lt_compat_r; [now apply Rinv_0_lt_compat | lra].
Qed.

Lemma template_value_below_peak (s t mx my iy ix : Z) :
  (0 < s)%Z -> (ix <> mx \/ iy <> my) ->
  template_value s t mx my iy ix < 1.
Proof.
  intros Hs Hne. unfold template_value.
  destruct (_ && _)%bool; [|lra].
  apply Rlt_le_trans with (exp (- IZR 0 / IZR (2 * s ^ 2))).
  - apply gauss_strict_decreasing; [exact Hs | nia].
  - right. rewrite <- exp_0. f_equal. unfold Rdiv. ring.
Qed.

Lemma pixel_tab {A : Type} (h w : nat) (f : nat -> nat -> A) (i j : nat) :
  (i < h)%nat -> (j < w)%nat ->
  pixel (tab h (fun i => tab w (f i))) i j = Some (f i j).
Proof.
  intros Hi Hj. unfold pixel.
  rewrite nth_error_tab by exact Hi. simpl. now apply nth_error_tab.
Qed.

Lemma template_bank_at (wd ht s t x y iy ix : Z) :
  (0 <= x < wd)%Z -> (0 <= y < ht)%Z -> (0 <= iy < ht)%Z -> (0 <= ix < wd)%Z ->
  bank_at (template_bank wd ht s t) x y iy ix =
  Some (template_value s t x y iy ix).
Proof.
  intros Hx Hy Hiy Hix. unfold bank_at, entry4, template_bank.
  rewrite nth_error_tab by lia. simpl.
  rewrite nth_error_tab by lia. simpl.
  unfold template. rewrite pixel_tab by lia.
  now rewrite !Z2Nat.id by lia.
Qed.

(** C7: every entry of the bank of [PseudoLabelGenerator] is
    non-negative, is 1 at the pixel of its peak, does not grow (and in
    fact falls strictly) as the Euclidean distance to the peak grows
    inside the truncation window of half-width [3 * sigma], and is 0
    beyond the radius of that window. *)
Theorem bank_invariant (K ht wd s : Z) :
  (0 <= K)%Z -> (0 < ht)%Z -> (0 < wd)%Z -> (0 < s)%Z ->
  exists gen,
    PseudoLabelGenerator_init K ht wd s = Some gen /\
    forall x y iy ix : Z,
      (0 <= x < wd)%Z -> (0 <= y < ht)%Z ->
      (0 <= iy < ht)%Z -> (0 <= ix < wd)%Z ->
      exists v,
        bank_at (heatmaps gen) x y iy ix = Some v /\
        0 <= v /\
        bank_at (heatmaps gen) x y y x = Some 1 /\
        ((2 * (s * 3) ^ 2 < sq_dist x y iy ix)%Z -> v = 0) /\
        forall iy' ix' v',
          (0 <= iy' < ht)%Z -> (0 <= ix' < wd)%Z ->
          bank_at (heatmaps gen) x y iy' ix' = Some v' ->
          in_window (s * 3) x y iy ix -> in_window (s * 3) x y iy' ix' ->
          ((sq_dist x y iy ix <= sq_dist x y iy' ix')%Z -> v' <= v) /\
          ((sq_dist x y iy ix < sq_dist x y iy' ix')%Z -> v' < v).
Proof.
  intros HK Hh Hw Hs.
  exists (template_generator K ht wd s (s * 3)). split.
  - now apply PseudoLabelGenerator_init_closed.
  - intros x y iy ix Hx Hy Hiy Hix. simpl heatmaps.
    exists (template_value s (s * 3) x y iy ix).
    split; [now apply template_bank_at|].
    split; [apply template_value_range|].
    split.
    { rewrite template_bank_at by lia. f_equal.
      apply template_value_peak. lia. }
    split.
    { intros Hfar. apply template_value_outside. unfold sq_dist in Hfar.
      destruct (Z.lt_ge_cases (s * 3) (Z.abs (ix - x))) as [Hl|Hge];
        [now left|].
      right. nia. }
    intros iy' ix' v' Hiy' Hix' Hv' [Hwx Hwy] [Hwx' Hwy'].
    rewrite template_bank_at in Hv' by lia. inversion Hv'; subst v'.
    rewrite !template_value_inside by assumption.
    fold (sq_dist x y iy ix). fold (sq_dist x y iy' ix').
    split; intros Hd.
    + destruct (Z.eq_dec (sq_dist x y iy ix) (sq_dist x y iy' ix')) as [->|Hne].
      * lra.
      * left. apply gauss_strict_decreasing; lia.
    + apply gauss_strict_decreasing; lia.
Qed.

Lemma bank_invariant_witness :
  ((0 <= 21)%Z /\ (0 < 64)%Z /\ (0 < 64)%Z /\ (0 < 2)%Z) /\
  exists gen,
    PseudoLabelGenerator_init 21 64 64 2 = Some gen /\
    forall x y iy ix : Z,
      (0 <= x < 64)%Z -> (0 <= y < 64)%Z ->
      (0 <= iy < 64)%Z -> (0 <= ix < 64)%Z ->
      exists v,
        bank_at (heatmaps gen) x y iy ix = Some v /\
        0 <= v /\
        bank_at (heatmaps gen) x y y x = Some 1 /\
        ((2 * (2 * 3) ^ 2 < sq_dist x y iy ix)%Z -> v = 0) /\
        forall iy' ix' v',
          (0 <= iy' < 64)%Z -> (0 <= ix' < 64)%Z ->
          bank_at (heatmaps gen) x y iy' ix' = Some v' ->
          in_window (2 * 3) x y iy ix -> in_window (2 * 3) x y iy' ix' ->
          ((sq_dist x y iy ix <= sq_dist x y iy' ix')%Z -> v' <= v) /\
          ((sq_dist x y iy ix < sq_dist x y iy' ix')%Z -> v' < v).
Proof.
  split; [lia|].
  apply (@bank_invariant 21%Z 64%Z 64%Z 2%Z); lia.
Defined.

(** ** The arg-max decoder *)

Lemma argmax_from_keep (l : list R) (besti : nat) (best : R) (i : nat) :
  (forall x, In x l -> x <= best) ->
  argmax_from besti best i l = (besti, best).
Proof.
  revert i. induction l as [|x t IH]; intros i H; simpl.
  - reflexivity.
  - destruct (Rlt_dec best x) as [Hlt|_].
    + specialize (H x (or_introl eq_refl)). lra.
    + apply IH. intros z Hz. apply H. now right.
Qed.

Lemma argmax_from_first (l : list R) (besti : nat) (best : R) (i p : nat)
  (v : R) :
  (p < length l)%nat -> nth p l 0 = v -> best < v ->
  (forall j, (j < p)%nat -> nth j l 0 < v) ->
  (forall j, (j < length l)%nat -> nth j l 0 <= v) ->
  argmax_from besti best i l = ((i + p)%nat, v).
Proof.
  revert besti best i p. induction l as [|x t IH];
    intros besti best i p Hp Hv Hbest Hbefore Hall; simpl in Hp; [lia|].
  simpl argmax_from. destruct p as [|p].
  - simpl in Hv. subst x.
    destruct (Rlt_dec best v) as [_|Hn]; [|contradiction].
    rewrite Nat.add_0_r. apply argmax_from_keep.
    intros z Hz. destruct (In_nth _ _ 0 Hz) as [j [Hj Hjz]].
    rewrite <- Hjz. apply (Hall (S j)). simpl. lia.
  - assert (Hx : x < v) by (apply (Hbefore 0%nat); lia).
    assert (Hb' : forall j, (j < p)%nat -> nth j t 0 < v)
      by (intros j Hj; apply (Hbefore (S j)); lia).
    assert (Ha' : forall j, (j < length t)%nat -> nth j t 0 <= v)
      by (intros j Hj; apply (Hall (S j)); simpl; lia).
    simpl in Hv.
    destruct (Rlt_dec best x).
    + rewrite (IH i x (S i) p) by (assumption || lia). f_equal. lia.
    + rewrite (IH besti best (S i) p) by (assumption || lia). f_equal. lia.
Qed.

Lemma argmax_first (l : list R) (p : nat) (v : R) :
  (p < length l)%nat -> nth p l 0 = v ->
  (forall j, (j < p)%nat -> nth j l 0 < v) ->
  (forall j, (j < length l)%nat -> nth j l 0 <= v) ->
  argmax l = Some (p, v).
Proof.
  intros Hp Hv Hbefore Hall. destruct l as [|x t]; simpl in Hp; [lia|].
  unfold argmax. f_equal. destruct p as [|p].
  - simpl in Hv. subst x. apply argmax_from_keep.
    intros z Hz. destruct (In_nth _ _ 0 Hz) as [j [Hj Hjz]].
    rewrite <- Hjz. apply (Hall (S j)). simpl. lia.
  - rewrite (@argmax_from_first t 0%nat x 1%nat p v).
    + reflexivity.
    + lia.
    + exact Hv.
    + apply (Hbefore 0%nat). lia.
    + intros j Hj. apply (Hbefore (S j)). lia.
    + intros j Hj. apply (Hall (S j)). simpl. lia.
Qed.

(** ** Row-major flattening *)

Lemma length_concat_uniform {A : Type} (w : nat) (m : list (list A)) :
  Forall (fun r => length r = w) m -> length (concat m) = (length m * w)%nat.
Proof.
  induction 1 as [|r t Hr _ IH]; simpl; [reflexivity|].
  rewrite length_app, IH, Hr. reflexivity.
Qed.

Lemma nth_concat_uniform {A : Type} (w : nat) (m : list (list A))
  (i j : nat) (d : A) :
  Forall (fun r => length r = w) m -> (j < w)%nat ->
  nth (i * w + j) (concat m) d = nth j (nth i m []) d.
Proof.
  intros HF Hj. revert i. induction HF as [|r t Hr _ IH]; intros i.
  - simpl concat. destruct i; simpl nth at 2; destruct j;
      now destruct (_ + _)%nat.
  - simpl concat. destruct i as [|i].
    + simpl. rewrite app_nth1 by lia. reflexivity.
    + rewrite app_nth2 by (rewrite Hr; simpl; lia).
      replace (S i * w + j - length r)%nat with (i * w + j)%nat
        by (rewrite Hr; simpl; lia).
      simpl nth. apply IH.
Qed.

Lemma flat_index_split (w q : nat) :
  (0 < w)%nat -> q = (q / w * w + q mod w)%nat /\ (q mod w < w)%nat.
Proof.
  intros Hw. split.
  - rewrite (Nat.div_mod_eq q w) at 1. lia.
  - apply Nat.mod_upper_bound. lia.
Qed.

Lemma flat_index_join (w i j : nat) :
  (j < w)%nat -> ((i * w + j) / w = i /\ (i * w + j) mod w = j)%nat.
Proof.
  intros Hj. split.
  - rewrite Nat.div_add_l by lia. rewrite Nat.div_small by lia. lia.
  - rewrite Nat.add_comm, Nat.Div0.mod_add. now apply Nat.mod_small.
Qed.

Lemma nth_flatten_tab (h w : nat) (f : nat -> nat -> R) (q : nat) :
  (q < h * w)%nat ->
  nth q (flatten2 (tab h (fun i => tab w (f i)))) 0 = f (q / w)%nat (q mod w)%nat.
Proof.
  intros Hq. assert (Hw : (0 < w)%nat) by nia.
  destruct (flat_index_split q Hw) as [Hsplit Hmod].
  rewrite Hsplit at 1. unfold flatten2.
  rewrite (@nth_concat_uniform _ w).
  - rewrite nth_tab.
    + now rewrite nth_tab.
    + apply Nat.Div0.div_lt_upper_bound. lia.
  - apply Forall_tab. intros. apply length_tab.
  - exact Hmod.
Qed.

Lemma length_flatten_tab {A : Type} (h w : nat) (f : nat -> nat -> A) :
  length (flatten2 (tab h (fun i => tab w (f i)))) = (h * w)%nat.
Proof.
  unfold flatten2. rewrite (@length_concat_uniform _ w).
  - now rewrite length_tab.
  - apply Forall_tab. intros. apply length_tab.
Qed.

Lemma decode_template (wd ht s t x y : Z) :
  (0 < wd)%Z -> (0 < ht)%Z -> (0 < s)%Z -> (0 <= t)%Z ->
  (0 <= x < wd)%Z -> (0 <= y < ht)%Z ->
  decode_image (Z.to_nat wd) (template wd ht s t x y) = Some ((x, y), 1).
Proof.
  intros Hw Hh Hs Ht Hx Hy. unfold decode_image, template.
  set (W := Z.to_nat wd). set (H := Z.to_nat ht).
  set (p := (Z.to_nat y * W + Z.to_nat x)%nat).
  assert (HxW : (Z.to_nat x < W)%nat) by (unfold W; lia).
  assert (HyH : (Z.to_nat y < H)%nat) by (unfold H; lia).
  assert (HpHW : (p < H * W)%nat) by (unfold p; nia).
  destruct (flat_index_join (Z.to_nat y) HxW) as [Hdiv Hmod].
  rewrite (@argmax_first _ p 1).
  - cbn [bind fst snd]. unfold p. rewrite Hdiv, Hmod.
    now rewrite !Z2Nat.id by lia.
  - now rewrite length_flatten_tab.
  - rewrite nth_flatten_tab by exact HpHW. unfold p. rewrite Hdiv, Hmod.
    rewrite !Z2Nat.id by lia. now apply template_value_peak.
  - intros j Hj. rewrite nth_flatten_tab by lia.
    apply template_value_below_peak; [exact Hs|].
    assert (HW0 : (0 < W)%nat) by lia.
    destruct (flat_index_split j HW0) as [Hsplit Hm].
    destruct (Nat.eq_dec (j mod W) (Z.to_nat x)) as [He|Hne]; [|left; lia].
    right. intros Hc. assert ((j / W)%nat = Z.to_nat y) by lia.
    unfold p in Hj. rewrite Hsplit in Hj. rewrite He, H0 in Hj. lia.
  - intros j Hj. rewrite length_flatten_tab in Hj.
    rewrite nth_flatten_tab by exact Hj. apply template_value_range.
Qed.

Lemma py_index_tab {A : Type} (n : nat) (f : nat -> A) (i : Z) :
  (0 <= i < Z.of_nat n)%Z -> py_index (tab n f) i = Some (f (Z.to_nat i)).
Proof.
  intros Hi. unfold py_index. rewrite length_tab.
  destruct (Z.leb_spec 0 i); [|lia].
  destruct (Z.ltb_spec i (Z.of_nat n)); [|lia].
  simpl. apply nth_error_tab. lia.
Qed.

(** C4: the template of every peak location decodes back to that
    location: the arg-max decoder, on the one-entry batch made of
    [heatmaps[mu_x][mu_y]], returns [(mu_x, mu_y)] with the value 1. *)
Theorem decode_template_roundtrip (K ht wd s mu_x mu_y : Z) :
  (0 <= K)%Z -> (0 < ht)%Z -> (0 < wd)%Z -> (0 < s)%Z ->
  (0 <= mu_x < wd)%Z -> (0 <= mu_y < ht)%Z ->
  exists gen tpl,
    PseudoLabelGenerator_init K ht wd s = Some gen /\
    bind (py_index (heatmaps gen) mu_x) (fun col => py_index col mu_y)
      = Some tpl /\
    get_max_preds [[tpl]] = Some ([[(mu_x, mu_y)]], [[1]]).
Proof.
  intros HK Hh Hw Hs Hx Hy.
  exists (template_generator K ht wd s (s * 3)).
  exists (template wd ht s (s * 3) mu_x mu_y).
  split; [now apply PseudoLabelGenerator_init_closed|]. split.
  - simpl heatmaps. unfold template_bank.
    rewrite py_index_tab by lia. cbn [bind].
    rewrite py_index_tab by lia. now rewrite !Z2Nat.id by lia.
  - unfold get_max_preds, shape4. simpl hd.
    assert (HW : length (hd [] (template wd ht s (s * 3) mu_x mu_y))
                 = Z.to_nat wd).
    { apply (@has_shape2_hd _ (Z.to_nat ht)); [|lia].
      unfold template. apply has_shape2_tab. }
    rewrite HW. simpl mapM.
    rewrite decode_template by lia. reflexivity.
Qed.

Lemma decode_template_roundtrip_witness :
  ((0 <= 21)%Z /\ (0 < 64)%Z /\ (0 < 64)%Z /\ (0 < 2)%Z /\
   (0 <= 63 < 64)%Z /\ (0 <= 0 < 64)%Z) /\
  exists gen tpl,
    PseudoLabelGenerator_init 21 64 64 2 = Some gen /\
    bind (py_index (heatmaps gen) 63) (fun col => py_index col 0)
      = Some tpl /\
    get_max_preds [[tpl]] = Some ([[(63, 0)%Z]], [[1]]).
Proof.
  split; [lia|].
  apply (@decode_template_roundtrip 21%Z 64%Z 64%Z 2%Z 63%Z 0%Z); lia.
Defined.

(** ** Shapes and entrywise properties *)

Lemma has_shape3_tab {A : Type} (k h w : nat) (f : nat -> nat -> nat -> A) :
  has_shape3 k h w (tab k (fun c => tab h (fun i => tab w (f c i)))).
Proof.
  split; [apply length_tab|]. apply Forall_tab. intros.
  apply has_shape2_tab.
Qed.

Lemma has_shape4_tab {A : Type} (b k h w : nat)
  (f : nat -> nat -> nat -> nat -> A) :
  has_shape4 b k h w
    (tab b (fun s => tab k (fun c => tab h (fun i => tab w (f s c i))))).
Proof.
  split; [apply length_tab|]. apply Forall_tab. intros.
  apply has_shape3_tab.
Qed.

Lemma get4_tab {A : Type} (d : A) (b k h w : nat)
  (f : nat -> nat -> nat -> nat -> A) (s c i j : nat) :
  (s < b)%nat -> (c < k)%nat -> (i < h)%nat -> (j < w)%nat ->
  get4 d (tab b (fun s => tab k (fun c => tab h (fun i => tab w (f s c i)))))
       s c i j = f s c i j.
Proof.
  intros Hs Hc Hi Hj. unfold get4, get3, get2.
  now rewrite !nth_tab by assumption.
Qed.

Lemma has_shape4_sample {A : Type} (b k h w : nat)
  (t : list (list (list (list A)))) (s : nat) :
  has_shape4 b k h w t -> (s < b)%nat -> has_shape3 k h w (nth s t []).
Proof.
  intros [Hl HF] Hs.
  apply (@Forall_nth_in _ (has_shape3 k h w) t s [] HF). lia.
Qed.

Lemma has_shape3_channel {A : Type} (k h w : nat)
  (t : list (list (list A))) (c : nat) :
  has_shape3 k h w t -> (c < k)%nat -> has_shape2 h w (nth c t []).
Proof.
  intros [Hl HF] Hc.
  apply (@Forall_nth_in _ (has_shape2 h w) t c [] HF). lia.
Qed.

Lemma shape4_of {A : Type} (b k h w : nat) (t : list (list (list (list A)))) :
  has_shape4 b k h w t -> (0 < b)%nat -> (0 < k)%nat -> (0 < h)%nat ->
  shape4 t = (b, k, h, w).
Proof.
  intros Ht Hb Hk Hh. unfold shape4.
  pose proof (has_shape4_sample Ht Hb) as H3.
  pose proof (has_shape3_channel H3 Hk) as H2.
  pose proof (has_shape2_row H2 Hh) as H1.
  destruct Ht as [Hl _]. destruct H3 as [Hl3 _]. destruct H2 as [Hl2 _].
  destruct t as [|t0 t]; simpl in *; [lia|].
  destruct t0 as [|c0 t0]; simpl in *; [lia|].
  destruct c0 as [|r0 c0]; simpl in *; [lia|].
  now subst.
Qed.

Lemma shaped4_as_tab {A : Type} (d : A) (b k h w : nat)
  (t : list (list (list (list A)))) :
  has_shape4 b k h w t ->
  t = tab b (fun s => tab k (fun c => tab h (fun i => tab w (fun j =>
        get4 d t s c i j)))).
Proof.
  intros Ht. pose proof Ht as [Hl _].
  apply eq_trans with (tab (length t) (fun s => nth s t []));
    [symmetry; apply tab_nth|].
  rewrite Hl. apply tab_ext. intros s Hs.
  pose proof (has_shape4_sample Ht Hs) as H3. pose proof H3 as [Hl3 _].
  apply eq_trans with (tab (length (nth s t [])) (fun c => nth c (nth s t []) []));
    [symmetry; apply tab_nth|].
  rewrite Hl3. apply tab_ext. intros c Hc.
  pose proof (has_shape3_channel H3 Hc) as H2. pose proof H2 as [Hl2 _].
  apply eq_trans with (tab (length (nth c (nth s t []) []))
                           (fun i => nth i (nth c (nth s t []) []) []));
    [symmetry; apply tab_nth|].
  rewrite Hl2. apply tab_ext. intros i Hi.
  pose proof (has_shape2_row H2 Hi) as H1.
  apply eq_trans with (tab (length (nth i (nth c (nth s t []) []) []))
                           (fun j => nth j (nth i (nth c (nth s t []) []) []) d));
    [symmetry; apply tab_nth|].
  rewrite H1. reflexivity.
Qed.

Lemma all2_at2 (P : R -> Prop) (m : image) (i j : nat) :
  P 0 -> all2 P m -> P (at2 m i j).
Proof.
  intros P0 Hm. unfold at2, get2.
  destruct (Nat.lt_ge_cases i (length m)) as [Hi|Hi].
  - pose proof (@Forall_nth_in _ (Forall P) m i [] Hm Hi) as Hr.
    destruct (Nat.lt_ge_cases j (length (nth i m []))) as [Hj|Hj].
    + now apply Forall_nth_in.
    + now rewrite nth_overflow.
  - rewrite (nth_overflow m [] Hi). now destruct j.
Qed.

Lemma all2_tab {A : Type} (P : A -> Prop) (h w : nat) (f : nat -> nat -> A) :
  (forall i j, (i < h)%nat -> (j < w)%nat -> P (f i j)) ->
  all2 P (tab h (fun i => tab w (f i))).
Proof.
  intros H. apply Forall_tab. intros i Hi.
  apply Forall_tab. intros j Hj. now apply H.
Qed.

Lemma all4_tab {A : Type} (P : A -> Prop) (b k h w : nat)
  (f : nat -> nat -> nat -> nat -> A) :
  (forall s c i j, (s < b)%nat -> (c < k)%nat -> (i < h)%nat -> (j < w)%nat ->
     P (f s c i j)) ->
  all4 P (tab b (fun s => tab k (fun c => tab h (fun i => tab w (f s c i))))).
Proof.
  intros H. apply Forall_tab. intros s Hs.
  apply Forall_tab. intros c Hc. apply all2_tab. intros. now apply H.
Qed.

Lemma all4_map4 {A B : Type} (P : A -> Prop) (Q : B -> Prop) (f : A -> B)
  (t : list (list (list (list A)))) :
  (forall a, P a -> Q (f a)) -> all4 P t -> all4 Q (map4 f t).
Proof.
  intros H Ht. unfold all4, all2, map4, map3 in *.
  apply Forall_map. eapply Forall_impl; [|exact Ht]. intros s Hs.
  apply Forall_map. eapply Forall_impl; [|exact Hs]. intros c Hc.
  apply Forall_map. eapply Forall_impl; [|exact Hc]. intros r Hr.
  apply Forall_map. eapply Forall_impl; [|exact Hr]. exact H.
Qed.

Lemma has_shape4_map4 {A B : Type} (f : A -> B) (b k h w : nat)
  (t : list (list (list (list A)))) :
  has_shape4 b k h w t -> has_shape4 b k h w (map4 f t).
Proof.
  intros [Hl HF]. unfold map4, map3. split; [now rewrite length_map|].
  apply Forall_map. eapply Forall_impl; [|exact HF].
  intros s [Hl3 HF3]. split; [now rewrite length_map|].
  apply Forall_map. eapply Forall_impl; [|exact HF3].
  intros c [Hl2 HF2]. split; [now rewrite length_map|].
  apply Forall_map. eapply Forall_impl; [|exact HF2].
  intros r Hr. now rewrite length_map.
Qed.

Lemma clip01_range (x : R) : 0 <= clip01 x <= 1.
Proof.
  unfold clip01, Rmin, Rmax.
  destruct (Rle_dec x 0); destruct (Rle_dec _ 1); lra.
Qed.

Lemma clip01_id (x : R) : 0 <= x <= 1 -> clip01 x = x.
Proof.
  intros H. unfold clip01, Rmin, Rmax.
  destruct (Rle_dec x 0); destruct (Rle_dec _ 1); lra.
Qed.

Lemma clip01_low (x : R) : x <= 0 -> clip01 x = 0.
Proof.
  intros H. unfold clip01, Rmin, Rmax.
  destruct (Rle_dec x 0); destruct (Rle_dec _ 1); lra.
Qed.

Lemma clip01_high (x : R) : 1 <= x -> clip01 x = 1.
Proof.
  intros H. unfold clip01, Rmin, Rmax.
  destruct (Rle_dec x 0); destruct (Rle_dec _ 1); lra.
Qed.

(** ** Flattening and reshaping of shaped arrays *)

Lemma length_flatten2 {A : Type} (h w : nat) (m : list (list A)) :
  has_shape2 h w m -> length (flatten2 m) = (h * w)%nat.
Proof.
  intros [Hl HF]. unfold flatten2.
  now rewrite (length_concat_uniform HF), Hl.
Qed.

Lemma length_flatten3 {A : Type} (k h w : nat) (t : list (list (list A))) :
  has_shape3 k h w t -> length (flatten3 t) = (k * (h * w))%nat.
Proof.
  intros [Hl HF]. unfold flatten3.
  rewrite (@length_concat_uniform _ (h * w)%nat).
  - now rewrite length_map, Hl.
  - apply Forall_map. eapply Forall_impl; [|exact HF].
    intros m Hm. now apply length_flatten2.
Qed.

Lemma length_flatten4 {A : Type} (b k h w : nat)
  (t : list (list (list (list A)))) :
  has_shape4 b k h w t -> length (flatten4 t) = (b * (k * (h * w)))%nat.
Proof.
  intros [Hl HF]. unfold flatten4.
  rewrite (@length_concat_uniform _ (k * (h * w))%nat).
  - now rewrite length_map, Hl.
  - apply Forall_map. eapply Forall_impl; [|exact HF].
    intros m Hm. now apply length_flatten3.
Qed.

Lemma nth_flatten2 {A : Type} (d : A) (h w : nat) (m : list (list A))
  (i j : nat) :
  has_shape2 h w m -> (j < w)%nat ->
  nth (i * w + j) (flatten2 m) d = get2 d m i j.
Proof.
  intros [Hl HF] Hj. unfold flatten2, get2.
  now apply nth_concat_uniform.
Qed.

Lemma nth_flatten3 {A : Type} (d : A) (k h w : nat)
  (t : list (list (list A))) (c i j : nat) :
  has_shape3 k h w t -> (c < k)%nat -> (i < h)%nat -> (j < w)%nat ->
  nth ((c * h + i) * w + j) (flatten3 t) d = get3 d t c i j.
Proof.
  intros Ht Hc Hi Hj. pose proof Ht as [Hl HF]. unfold flatten3, get3.
  replace ((c * h + i) * w + j)%nat with (c * (h * w) + (i * w + j))%nat
    by nia.
  rewrite (@nth_concat_uniform _ (h * w)%nat).
  - rewrite (nth_indep _ [] (flatten2 [])) by (rewrite length_map; lia).
    rewrite (map_nth flatten2).
    apply (@nth_flatten2 _ d h w). now apply (has_shape3_channel Ht).
    exact Hj.
  - apply Forall_map. eapply Forall_impl; [|exact HF].
    intros m Hm. now apply length_flatten2.
  - nia.
Qed.

Lemma nth_flatten4 {A : Type} (d : A) (b k h w : nat)
  (t : list (list (list (list A)))) (s c i j : nat) :
  has_shape4 b k h w t ->
  (s < b)%nat -> (c < k)%nat -> (i < h)%nat -> (j < w)%nat ->
  nth (((s * k + c) * h + i) * w + j) (flatten4 t) d = get4 d t s c i j.
Proof.
  intros Ht Hs Hc Hi Hj. pose proof Ht as [Hl HF]. unfold flatten4, get4.
  replace (((s * k + c) * h + i) * w + j)%nat
    with (s * (k * (h * w)) + ((c * h + i) * w + j))%nat by nia.
  rewrite (@nth_concat_uniform _ (k * (h * w))%nat).
  - rewrite (nth_indep _ [] (flatten3 [])) by (rewrite length_map; lia).
    rewrite (map_nth flatten3).
    apply (@nth_flatten3 _ d k h w); try assumption.
    now apply (has_shape4_sample Ht).
  - apply Forall_map. eapply Forall_impl; [|exact HF].
    intros m Hm. now apply length_flatten3.
  - assert (H1 : (c * h + i + 1 <= k * h)%nat) by nia.
    assert (H2 : ((c * h + i + 1) * w <= k * h * w)%nat)
      by (apply Nat.mul_le_mono_r; exact H1).
    nia.
Qed.

Lemma reshape4_shape (b k h w : nat) (flat : list R) (t : tensor4) :
  reshape4 b k h w flat = Some t -> has_shape4 b k h w t.
Proof.
  unfold reshape4. destruct (Nat.eqb _ _); [|discriminate].
  intros H. inversion H. apply has_shape4_tab.
Qed.

Lemma reshape4_all (P : R -> Prop) (b k h w : nat) (flat : list R)
  (t : tensor4) :
  P 0 -> Forall P flat -> reshape4 b k h w flat = Some t -> all4 P t.
Proof.
  intros P0 HF. unfold reshape4. destruct (Nat.eqb _ _); [|discriminate].
  intros H. inversion H. apply all4_tab. intros s c i j _ _ _ _.
  destruct (Nat.lt_ge_cases (((s * k + c) * h + i) * w + j) (length flat)).
  - now apply Forall_nth_in.
  - now rewrite nth_overflow.
Qed.

Lemma Forall_concat {A : Type} (P : A -> Prop) (m : list (list A)) :
  Forall (Forall P) m -> Forall P (concat m).
Proof.
  induction 1 as [|r t Hr _ IH]; simpl; [constructor|].
  apply Forall_app. now split.
Qed.

Lemma Forall_flatten3 {A : Type} (P : A -> Prop) (t : list (list (list A))) :
  Forall (all2 P) t -> Forall P (flatten3 t).
Proof.
  intros H. unfold flatten3. apply Forall_concat.
  apply Forall_map. eapply Forall_impl; [|exact H].
  intros m Hm. now apply Forall_concat.
Qed.

(** ** The decoder on shaped input *)

Lemma argmax_from_bound (l : list R) (besti : nat) (best : R) (i : nat) :
  fst (argmax_from besti best i l) = besti \/
  (i <= fst (argmax_from besti best i l) < i + length l)%nat.
Proof.
  revert besti best i. induction l as [|x t IH]; intros besti best i; simpl.
  - now left.
  - destruct (Rlt_dec best x).
    + destruct (IH i x (S i)) as [->|H]; right; lia.
    + destruct (IH besti best (S i)) as [->|H]; [now left | right; lia].
Qed.

Lemma argmax_some (l : list R) :
  (0 < length l)%nat ->
  exists p v, argmax l = Some (p, v) /\ (p < length l)%nat.
Proof.
  intros Hl. destruct l as [|x t]; simpl in Hl; [lia|].
  unfold argmax.
  destruct (argmax_from 0 x 1 t) as [p v] eqn:He.
  exists p, v. split; [reflexivity|].
  pose proof (argmax_from_bound t 0 x 1) as Hb. rewrite He in Hb.
  simpl in *. lia.
Qed.

Lemma decode_image_some (h w : nat) (m : image) :
  has_shape2 h w m -> (0 < h)%nat -> (0 < w)%nat ->
  exists x y v, decode_image w m = Some ((x, y), v) /\
    (0 <= x < Z.of_nat w)%Z /\ (0 <= y < Z.of_nat h)%Z.
Proof.
  intros Hm Hh Hw. unfold decode_image.
  destruct (@argmax_some (flatten2 m)) as [p [v [Hp Hlt]]].
  { rewrite (length_flatten2 Hm). nia. }
  rewrite Hp. cbn [bind fst snd].
  rewrite (length_flatten2 Hm) in Hlt.
  exists (Z.of_nat (p mod w)), (Z.of_nat (p / w)), v.
  split; [reflexivity|]. split.
  - pose proof (Nat.mod_upper_bound p w). lia.
  - assert ((p / w < h)%nat) by (apply Nat.Div0.div_lt_upper_bound; nia). lia.
Qed.

Lemma peak_of_range (h w : nat) (m : image) :
  has_shape2 h w m -> (0 < h)%nat -> (0 < w)%nat ->
  (0 <= fst (peak_of w m) < Z.of_nat w)%Z /\
  (0 <= snd (peak_of w m) < Z.of_nat h)%Z.
Proof.
  intros Hm Hh Hw. unfold peak_of.
  destruct (decode_image_some Hm Hh Hw) as [x [y [v [-> [Hx Hy]]]]].
  now split.
Qed.

Lemma get_max_preds_closed (b k h w : nat) (y : tensor4) :
  has_shape4 b k h w y ->
  (0 < b)%nat -> (0 < k)%nat -> (0 < h)%nat -> (0 < w)%nat ->
  exists mv, get_max_preds y = Some (map (map (peak_of w)) y, mv).
Proof.
  intros Hy Hb Hk Hh Hw. unfold get_max_preds.
  rewrite (shape4_of Hy Hb Hk Hh).
  set (g := fun m => match decode_image w m with
                     | Some r => r
                     | None => ((0, 0)%Z, 0)
                     end).
  rewrite (@mapM_total _ _ (mapM (decode_image w)) (map g)).
  - cbn [bind]. eexists. f_equal. f_equal. rewrite map_map.
    apply map_ext. intros s. rewrite map_map. apply map_ext. intros m.
    unfold g, peak_of. destruct (decode_image w m) as [[p v]|]; reflexivity.
  - intros s Hs. apply mapM_total. intros m Hm.
    destruct Hy as [_ HF]. rewrite Forall_forall in HF.
    destruct (HF s Hs) as [_ HF3]. rewrite Forall_forall in HF3.
    destruct (decode_image_some (HF3 m Hm) Hh Hw) as [x [yy [v [He _]]]].
    unfold g. now rewrite He.
Qed.

Lemma transpose_tab (r c : nat) (f : nat -> nat -> R) :
  transpose r c (tab r (fun i => tab c (f i))) =
  tab c (fun j => tab r (fun i => f i j)).
Proof.
  unfold transpose. apply tab_ext. intros j Hj.
  apply tab_ext. intros i Hi. now apply at2_tab.
Qed.

Lemma hd_tab {A : Type} (d : A) (n : nat) (f : nat -> A) :
  (0 < n)%nat -> hd d (tab n f) = f 0%nat.
Proof.
  intros Hn. destruct n; [lia|]. reflexivity.
Qed.

Lemma reshape3_infer_shaped (b k h w : nat) (t : tensor4) :
  has_shape4 b k h w t ->
  (0 < b)%nat -> (0 < k)%nat -> (0 < w)%nat ->
  reshape3_infer b k (flatten4 t) =
  Some (tab b (fun s => tab k (fun c => tab (h * w) (fun p =>
          at4 t s c (p / w) (p mod w))))).
Proof.
  intros Ht Hb Hk Hw. unfold reshape3_infer.
  rewrite (length_flatten4 Ht).
  destruct (Nat.eqb_spec (b * k) 0) as [H0|_]; [nia|].
  replace (b * (k * (h * w)))%nat with (h * w * (b * k))%nat by nia.
  rewrite Nat.Div0.mod_mul, Nat.eqb_refl.
  rewrite Nat.div_mul by nia.
  f_equal. apply tab_ext. intros s Hs. apply tab_ext. intros c Hc.
  apply tab_ext. intros p Hp.
  destruct (flat_index_split p Hw) as [Hsplit Hmod].
  rewrite Hsplit at 1.
  replace ((s * k + c) * (h * w) + (p / w * w + p mod w))%nat
    with (((s * k + c) * h + p / w) * w + p mod w)%nat by nia.
  apply (nth_flatten4 0 Ht); try assumption.
  apply Nat.Div0.div_lt_upper_bound. nia.
Qed.

(** ** The cross-suppression, entry by entry *)

Lemma map_map_tab {A B : Type} (f : A -> B) (n m : nat) (g : nat -> nat -> A) :
  map (map f) (tab n (fun i => tab m (g i))) =
  tab n (fun i => tab m (fun j => f (g i j))).
Proof.
  rewrite map_tab. apply tab_ext. intros i _. now rewrite map_tab.
Qed.

Lemma length_hd_tab {A : Type} (b n : nat) (F : nat -> nat -> A) :
  (0 < b)%nat ->
  length (hd [] (tab b (fun s => tab n (F s)))) = n.
Proof.
  intros Hb. destruct b; [lia|]. cbn [tab seq map hd]. apply length_tab.
Qed.

Lemma length_hd_hd_tab {A : Type} (b k n : nat) (F : nat -> nat -> nat -> A) :
  (0 < b)%nat -> (0 < k)%nat ->
  length (hd [] (hd [] (tab b (fun s => tab k (fun c => tab n (F s c))))))
  = n.
Proof.
  intros Hb Hk. destruct b; [lia|]. destruct k; [lia|].
  cbn [tab seq map hd]. apply length_tab.
Qed.

Lemma cross_suppression_closed (b k h w : nat) (m : image) (gt : tensor4) :
  has_shape4 b k h w gt -> has_shape2 k k m ->
  (0 < b)%nat -> (0 < k)%nat -> (0 < h)%nat -> (0 < w)%nat ->
  cross_suppression b k h w m gt = Some (cross_suppressed m gt).
Proof.
  intros Hgt Hm Hb Hk Hh Hw. unfold cross_suppression.
  rewrite (reshape3_infer_shaped Hgt Hb Hk Hw). cbn [bind].
  assert (HL : (0 < h * w)%nat) by nia.
  rewrite length_hd_hd_tab by assumption.
  rewrite map_tab.
  rewrite (@tab_ext _ b _
    (fun s => tab (h * w) (fun p => tab k (fun c =>
                at4 gt s c (p / w) (p mod w)))))
    by (intros s Hs; apply transpose_tab).
  unfold dot3. destruct Hm as [Hml HmF].
  rewrite Hml, Nat.eqb_refl. cbn [bind].
  rewrite (has_shape2_hd (conj Hml HmF) Hk).
  rewrite map_map_tab. unfold map3.
  rewrite length_hd_tab by assumption.
  rewrite length_hd_hd_tab by assumption.
  rewrite map_tab. rewrite map_tab.
  rewrite (@tab_ext _ b _
    (fun s => tab k (fun c' => tab (h * w) (fun p =>
       clip01 (sumR (tab k (fun c =>
         nth c (tab k (fun c0 => at4 gt s c0 (p / w) (p mod w))) 0
         * at2 m c c'))))))).
  2:{ intros s Hs. rewrite map_map_tab. apply transpose_tab. }
  set (back := tab b _).
  assert (Hback : has_shape3 b k (h * w) back) by apply has_shape3_tab.
  unfold reshape4. rewrite (length_flatten3 Hback).
  replace (b * (k * (h * w)))%nat with (b * k * h * w)%nat by nia.
  rewrite Nat.eqb_refl. f_equal.
  unfold cross_suppressed. rewrite (shape4_of Hgt Hb Hk Hh).
  apply tab_ext. intros s Hs. apply tab_ext. intros c' Hc'.
  apply tab_ext. intros i Hi. apply tab_ext. intros j Hj.
  replace (((s * k + c') * h + i) * w + j)%nat
    with ((s * k + c') * (h * w) + (i * w + j))%nat by nia.
  assert (Hp : (i * w + j < h * w)%nat) by nia.
  rewrite (nth_flatten3 0 Hback Hs Hc' Hp).
  unfold back, get3, get2. rewrite !nth_tab by assumption.
  unfold spec_cross_suppression.
  pose proof (has_shape4_sample Hgt Hs) as [Hl3 _].
  replace (length (nth s gt [])) with k by (symmetry; exact Hl3).
  destruct (flat_index_join i Hj) as [Hdiv Hmod]. rewrite Hdiv, Hmod.
  f_equal. f_equal. apply tab_ext. intros c Hc.
  now rewrite nth_tab by exact Hc.
Qed.

(** ** The gathered ground truth *)

Lemma in_concat_map_map {A B : Type} (f : A -> B) (t : list (list A)) (p : B) :
  In p (concat (map (map f) t)) ->
  exists row a, In row t /\ In a row /\ p = f a.
Proof.
  intros H. apply in_concat in H. destruct H as [r [Hr Hp]].
  apply in_map_iff in Hr. destruct Hr as [row [<- Hrow]].
  apply in_map_iff in Hp. destruct Hp as [a [<- Ha]].
  now exists row, a.
Qed.

Lemma py_index_in {A : Type} (l : list A) (n : nat) (i : Z) (d : A) :
  length l = n -> (0 <= i < Z.of_nat n)%Z ->
  py_index l i = Some (nth (Z.to_nat i) l d).
Proof.
  intros <- Hi. now apply py_index_Some_nonneg.
Qed.

Lemma gather_reshape_closed (hm : bank) (r : Z -> Z) (wb hb h w : nat)
  (b k hy wy : nat) (y : tensor4) :
  has_shape4 b k hy wy y -> has_shape4 wb hb h w hm ->
  (0 < b)%nat -> (0 < k)%nat -> (0 < hy)%nat -> (0 < wy)%nat ->
  (forall x, (0 <= x < Z.of_nat wy)%Z -> (0 <= r x < Z.of_nat wb)%Z) ->
  (forall x, (0 <= x < Z.of_nat hy)%Z -> (0 <= r x < Z.of_nat hb)%Z) ->
  bind (gather hm (map (fun p => (r (fst p), r (snd p)))
                       (concat (map (map (peak_of wy)) y))))
       (fun picked => reshape4 b k h w (flatten3 picked))
  = Some (gathered_truth hm r h w y).
Proof.
  intros Hy Hhm Hb Hk Hhy Hwy Hrx Hry.
  set (look := fun p : Z * Z =>
                 nth (Z.to_nat (snd p)) (nth (Z.to_nat (fst p)) hm []) []).
  set (preds := map (fun p => (r (fst p), r (snd p)))
                    (concat (map (map (peak_of wy)) y))).
  assert (Hrange : forall p, In p preds ->
            (0 <= fst p < Z.of_nat wb)%Z /\ (0 <= snd p < Z.of_nat hb)%Z).
  { intros p Hp. unfold preds in Hp. apply in_map_iff in Hp.
    destruct Hp as [q [<- Hq]]. cbn [fst snd].
    apply in_concat_map_map in Hq. destruct Hq as [row [m [Hrow [Hm ->]]]].
    destruct Hy as [_ HF]. rewrite Forall_forall in HF.
    destruct (HF row Hrow) as [_ HF3]. rewrite Forall_forall in HF3.
    destruct (peak_of_range (HF3 m Hm) Hhy Hwy) as [H1 H2].
    split; [now apply Hrx | now apply Hry]. }
  pose proof Hhm as [Hhml HhmF].
  assert (Hgather : gather hm preds = Some (map look preds)).
  { unfold gather. apply mapM_total. intros p Hp.
    destruct (Hrange p Hp) as [H1 H2].
    rewrite (py_index_in hm [] Hhml H1).
    cbn [bind].
    assert (Hcol : has_shape3 hb h w (nth (Z.to_nat (fst p)) hm []))
      by (apply (has_shape4_sample Hhm); lia).
    destruct Hcol as [Hcl _].
    exact (py_index_in _ [] Hcl H2). }
  rewrite Hgather. cbn [bind].
  assert (Hrows : Forall (fun row => length row = k) (map (map (peak_of wy)) y)).
  { apply Forall_map. destruct Hy as [_ HF]. eapply Forall_impl; [|exact HF].
    intros row [Hl _]. now rewrite length_map. }
  assert (Hplen : length preds = (b * k)%nat).
  { unfold preds. rewrite length_map, (length_concat_uniform Hrows).
    rewrite length_map. destruct Hy as [Hyl _]. f_equal. exact Hyl. }
  assert (Hpicked : has_shape3 (b * k) h w (map look preds)).
  { split; [now rewrite length_map|].
    apply Forall_map. apply Forall_forall. intros p Hp.
    destruct (Hrange p Hp) as [H1 H2]. unfold look.
    apply (@has_shape3_channel _ hb); [|lia].
    apply (has_shape4_sample Hhm). lia. }
  unfold reshape4. rewrite (length_flatten3 Hpicked).
  replace (b * k * (h * w))%nat with (b * k * h * w)%nat by nia.
  rewrite Nat.eqb_refl. f_equal.
  unfold gathered_truth. rewrite (shape4_of Hy Hb Hk Hhy).
  apply tab_ext. intros s Hs. apply tab_ext. intros c Hc.
  apply tab_ext. intros i Hi. apply tab_ext. intros j Hj.
  assert (Hsc : (s * k + c < b * k)%nat) by nia.
  rewrite (nth_flatten3 0 Hpicked Hsc Hi Hj).
  unfold get3. unfold at2. f_equal.
  rewrite (nth_indep _ [] (look (0, 0)%Z)) by (rewrite length_map; lia).
  rewrite (map_nth look). unfold look at 1. unfold preds.
  rewrite (nth_indep _ (0, 0)%Z
             ((fun p => (r (fst p), r (snd p))) (0, 0)%Z))
    by (fold preds; lia).
  rewrite (map_nth (fun p => (r (fst p), r (snd p)))).
  rewrite (nth_concat_uniform _ _ Hrows Hc). cbn [fst snd].
  rewrite (nth_indep _ [] (map (peak_of wy) []))
    by (rewrite length_map; destruct Hy as [Hyl _];
        apply (Nat.lt_le_trans _ b); [exact Hs | apply Nat.eq_le_incl;
        symmetry; exact Hyl]).
  rewrite (map_nth (map (peak_of wy))).
  rewrite (nth_indep _ (0, 0)%Z (peak_of wy []))
    by (rewrite length_map;
        pose proof (has_shape4_sample Hy Hs) as [Hl3 _];
        apply (Nat.lt_le_trans _ k); [exact Hc | apply Nat.eq_le_incl;
        symmetry; exact Hl3]).
  rewrite (map_nth (peak_of wy)). reflexivity.
Qed.

(** ** The forward passes on shaped input *)

Lemma map_pair_id (l : list (Z * Z)) :
  map (fun p => ((fun z : Z => z) (fst p), (fun z : Z => z) (snd p))) l = l.
Proof.
  induction l as [|[a b] t IH]; simpl; [reflexivity | now rewrite IH].
Qed.

Lemma has_shape4_gathered (hm : bank) (r : Z -> Z) (h w b k hy wy : nat)
  (y : tensor4) :
  has_shape4 b k hy wy y -> (0 < b)%nat -> (0 < k)%nat -> (0 < hy)%nat ->
  has_shape4 b k h w (gathered_truth hm r h w y).
Proof.
  intros Hy Hb Hk Hh. unfold gathered_truth.
  rewrite (shape4_of Hy Hb Hk Hh).
  apply (has_shape4_tab b k h w
           (fun s c i j =>
              at2 (nth (Z.to_nat (r (snd (peak_of wy (nth c (nth s y []) [])))))
                     (nth (Z.to_nat (r (fst (peak_of wy (nth c (nth s y []) [])))))
                        hm []) []) i j)).
Qed.

(** On a batch of the resolution of the bank, with as many channels as
    the generator has keypoints, [forward] returns the gathered
    templates and their cross-suppression. *)
Lemma PseudoLabelGenerator_forward_np_closed (self : generator)
  (b k h w : nat) (y : tensor4) :
  has_shape4 b k h w y -> has_shape4 w h h w (heatmaps self) ->
  has_shape2 k k (false_matrix self) ->
  (0 < b)%nat -> (0 < k)%nat -> (0 < h)%nat -> (0 < w)%nat ->
  PseudoLabelGenerator_forward_np self y =
  Some (gathered_truth (heatmaps self) (fun z => z) h w y,
        cross_suppressed (false_matrix self)
          (gathered_truth (heatmaps self) (fun z => z) h w y)).
Proof.
  intros Hy Hhm Hm Hb Hk Hh Hw.
  unfold PseudoLabelGenerator_forward_np.
  rewrite (shape4_of Hy Hb Hk Hh).
  destruct (get_max_preds_closed Hy Hb Hk Hh Hw) as [mv ->].
  cbn [bind fst].
  rewrite <- (map_pair_id (concat (map (map (peak_of w)) y))).
  pose proof (@gather_reshape_closed (heatmaps self) (fun z => z)
                w h h w b k h w y Hy Hhm Hb Hk Hh Hw
                (fun x Hx => Hx) (fun x Hx => Hx)) as Hg.
  destruct (gather (heatmaps self) _) as [picked|]; [|discriminate Hg].
  cbn [bind] in *. rewrite Hg. cbn [bind].
  rewrite (@cross_suppression_closed b k h w); try assumption.
  - reflexivity.
  - now apply (has_shape4_gathered _ _ _ _ Hy).
Qed.

Lemma zip1_tab {A B C : Type} (f : A -> B -> C) (n : nat)
  (g : nat -> A) (g' : nat -> B) :
  zip1 f (tab n g) (tab n g') = tab n (fun i => f (g i) (g' i)).
Proof.
  unfold zip1, tab.
  generalize (seq 0 n). intros l. induction l as [|a t IH]; simpl;
    [reflexivity | now rewrite IH].
Qed.

Lemma complement_closed (b k h w : nat) (gt : tensor4) :
  has_shape4 b k h w gt -> np_complement gt = complemented gt.
Proof.
  intros Hgt. unfold np_complement, complemented.
  rewrite (shaped4_as_tab 0 Hgt). unfold map4, map3, zip4.
  rewrite !map_tab. rewrite zip1_tab. rewrite map_tab.
  apply tab_ext. intros s _.
  rewrite !map_tab. rewrite zip1_tab. rewrite map_tab.
  apply tab_ext. intros c _.
  rewrite !map_tab. rewrite zip1_tab. rewrite map_tab.
  apply tab_ext. intros i _.
  rewrite !map_tab. rewrite zip1_tab. rewrite map_tab.
  reflexivity.
Qed.

(** On a batch whose decoded coordinates, once divided, fall inside the
    bank, the low-resolution [forward] returns the gathered templates
    and their complement. *)
Lemma lowres_forward_np_closed (divisor : Z) (out : nat) (self : generator)
  (b k hy wy : nat) (y : tensor4) :
  has_shape4 b k hy wy y -> has_shape4 out out out out (heatmaps self) ->
  (0 < divisor)%Z ->
  (Z.of_nat hy <= Z.of_nat out * divisor)%Z ->
  (Z.of_nat wy <= Z.of_nat out * divisor)%Z ->
  (0 < b)%nat -> (0 < k)%nat -> (0 < hy)%nat -> (0 < wy)%nat ->
  lowres_forward_np divisor out self y =
  Some (gathered_truth (heatmaps self) (fun z => Z.quot z divisor) out out y,
        complemented
          (gathered_truth (heatmaps self) (fun z => Z.quot z divisor)
                          out out y)).
Proof.
  intros Hy Hhm Hd Hhy Hwy Hb Hk Hh Hw.
  unfold lowres_forward_np.
  rewrite (shape4_of Hy Hb Hk Hh).
  destruct (get_max_preds_closed Hy Hb Hk Hh Hw) as [mv ->].
  cbn [bind fst].
  assert (Hq : forall n x, (Z.of_nat n <= Z.of_nat out * divisor)%Z ->
             (0 <= x < Z.of_nat n)%Z ->
             (0 <= Z.quot x divisor < Z.of_nat out)%Z).
  { intros n x Hn Hx. rewrite Z.quot_div_nonneg by lia. split.
    - apply Z.div_pos; lia.
    - apply Z.div_lt_upper_bound; lia. }
  pose proof (@gather_reshape_closed (heatmaps self)
                (fun z => Z.quot z divisor)
                out out out out b k hy wy y Hy Hhm Hb Hk Hh Hw
                (fun x Hx => Hq wy x Hwy Hx) (fun x Hx => Hq hy x Hhy Hx)) as Hg.
  destruct (gather (heatmaps self) _) as [picked|]; [|discriminate Hg].
  cbn [bind] in *. rewrite Hg. cbn [bind].
  rewrite (@complement_closed b k out out); [reflexivity|].
  now apply (has_shape4_gathered _ _ _ _ Hy).
Qed.

(** ** Every bank holds values between 0 and 1 *)

Lemma in01_zero : in01 0.
Proof. unfold in01. lra. Qed.

Lemma gaussian_in01 (n : nat) (x0 y0 : R) (s : Z) :
  all2 in01 (gaussian n x0 y0 s).
Proof.
  unfold gaussian. apply all2_tab. intros i j _ _. unfold in01.
  split; [left; apply exp_pos|].
  rewrite <- exp_0.
  set (d := (INR j - x0) ^ 2 + (INR i - y0) ^ 2).
  assert (Hd : 0 <= d)
    by (unfold d; apply Rplus_le_le_0_compat; apply pow2_ge_0).
  assert (Hq : 0 <= IZR (2 * s ^ 2)) by (apply IZR_le; nia).
  assert (Harg : - d / IZR (2 * s ^ 2) <= 0).
  { destruct (Req_dec (IZR (2 * s ^ 2)) 0) as [Hz|Hnz].
    - rewrite Hz. unfold Rdiv. rewrite Rinv_0. lra.
    - unfold Rdiv.
      assert (0 < / IZR (2 * s ^ 2)) by (apply Rinv_0_lt_compat; lra).
      nra. }
  destruct Harg as [Hlt|Heq].
  - left. now apply exp_increasing.
  - rewrite Heq. lra.
Qed.

Lemma all2_slice2 (P : R -> Prop) (g : image) (ys xs : Z * Z) :
  all2 P g -> all2 P (slice2 g ys xs).
Proof.
  intros Hg. unfold slice2, all2 in *. apply Forall_map.
  apply Forall_forall. intros r Hr. apply In_slice in Hr.
  rewrite Forall_forall in Hg. specialize (Hg r Hr).
  apply Forall_forall. intros v Hv. apply In_slice in Hv.
  rewrite Forall_forall in Hg. now apply Hg.
Qed.

Lemma assign_slice2_all (P : R -> Prop) (e patch e' : image) (ys xs : Z * Z) :
  P 0 -> all2 P e -> all2 P patch ->
  assign_slice2 e ys xs patch = Some e' -> all2 P e'.
Proof.
  intros P0 He Hp. unfold assign_slice2.
  destruct (_ && _)%bool; [|discriminate].
  intros H. inversion H. apply Forall_tab. intros i Hi.
  apply Forall_tab. intros j Hj.
  destruct (_ && _)%bool; now apply all2_at2.
Qed.

Lemma Forall_upd {A : Type} (P : A -> Prop) (l : list A) (i : nat) (v : A) :
  Forall P l -> P v -> Forall P (upd l i v).
Proof.
  intros Hl Hv. revert i. induction Hl as [|a t Ha Ht IH]; intros [|i]; simpl;
    try constructor; auto.
Qed.

Lemma Forall_nth_default {A : Type} (P : A -> Prop) (l : list A) (i : nat)
  (d : A) : Forall P l -> P d -> P (nth i l d).
Proof.
  intros Hl Hd. destruct (Nat.lt_ge_cases i (length l)).
  - now apply Forall_nth_in.
  - now rewrite nth_overflow.
Qed.

Lemma py_index_In {A : Type} (l : list A) (i : Z) (x : A) :
  py_index l i = Some x -> In x l.
Proof.
  unfold py_index. destruct (_ && _)%bool.
  - apply nth_error_In.
  - destruct (_ && _)%bool; [apply nth_error_In | discriminate].
Qed.

Lemma paste_all (P : R -> Prop) (hm hm' : bank) (wd ht : Z) (ul br : Z * Z)
  (g : image) (mx my : Z) :
  P 0 -> all4 P hm -> all2 P g ->
  paste hm wd ht ul br g mx my = Some hm' -> all4 P hm'.
Proof.
  intros P0 Hhm Hg. unfold paste.
  destruct (py_index hm mx) as [col|] eqn:Hcol; [|discriminate].
  cbn [bind].
  destruct (py_index col my) as [e|] eqn:He; [|discriminate].
  cbn [bind].
  destruct (assign_slice2 e _ _ _) as [e'|] eqn:Ha; [|discriminate].
  cbn [bind]. intros H. inversion H. unfold upd2, all4 in *.
  apply py_index_In in Hcol. apply py_index_In in He.
  assert (HPcol : Forall (all2 P) col)
    by (rewrite Forall_forall in Hhm; now apply Hhm).
  apply Forall_upd; [exact Hhm|].
  apply Forall_upd.
  - apply Forall_nth_default; [exact Hhm | constructor].
  - eapply assign_slice2_all; [exact P0 | | apply all2_slice2; exact Hg | exact Ha].
    rewrite Forall_forall in HPcol. now apply HPcol.
Qed.

Lemma fold_option_invariant {S X : Type} (Inv : S -> Prop)
  (F : option S -> X -> option S) (l : list X) (a0 : option S) :
  (forall acc x, (forall s, acc = Some s -> Inv s) ->
                 forall s, F acc x = Some s -> Inv s) ->
  (forall s, a0 = Some s -> Inv s) ->
  forall s, fold_left F l a0 = Some s -> Inv s.
Proof.
  intros HF. revert a0. induction l as [|x t IH]; intros a0 H0 s; simpl.
  - apply H0.
  - apply IH. intros s'. now apply HF.
Qed.

Lemma init_loops_invariant (Inv : bank -> Prop)
  (step : bank -> Z -> Z -> option bank) (wd ht : Z) (hm0 hm : bank) :
  (forall h mx my h', Inv h -> step h mx my = Some h' -> Inv h') ->
  Inv hm0 -> init_loops step wd ht hm0 = Some hm -> Inv hm.
Proof.
  intros Hstep H0. unfold init_loops.
  apply (@fold_option_invariant bank Z Inv).
  - intros acc mx Hacc.
    apply (@fold_option_invariant bank Z Inv); [|exact Hacc].
    intros acc' my Hacc' s. destruct acc' as [h|]; [|discriminate].
    cbn [bind]. apply Hstep. now apply Hacc'.
  - intros s Hs. inversion Hs. now subst.
Qed.

Lemma np_zeros4_all (P : R -> Prop) (a b c d : Z) (hm : bank) :
  P 0 -> np_zeros4 a b c d = Some hm -> all4 P hm.
Proof.
  intros P0. unfold np_zeros4. destruct (_ && _)%bool; [|discriminate].
  intros H. inversion H. unfold zeros.
  apply (@all4_tab _ P _ _ _ _ (fun _ _ _ _ => 0)). intros. exact P0.
Qed.

Lemma build_generator_in01 (step : bank -> Z -> Z -> option bank)
  (K ht wd s : Z) (gen : generator) :
  (forall h mx my h', all4 in01 h -> step h mx my = Some h' -> all4 in01 h') ->
  build_generator step K ht wd s = Some gen -> all4 in01 (heatmaps gen).
Proof.
  intros Hstep. unfold build_generator.
  destruct (np_zeros4 wd ht ht wd) as [hm0|] eqn:Hz; [|discriminate].
  cbn [bind].
  destruct (init_loops step wd ht hm0) as [hm|] eqn:Hl; [|discriminate].
  cbn [bind]. destruct (np_eye K); [|discriminate]. cbn [bind].
  intros H. inversion H. cbn [heatmaps].
  apply (@init_loops_invariant (all4 in01) step wd ht hm0 hm Hstep);
    [|exact Hl].
  apply (@np_zeros4_all in01 _ _ _ _ _ in01_zero Hz).
Qed.

Lemma PseudoLabelGenerator_init_in01 (K ht wd s : Z) (gen : generator) :
  PseudoLabelGenerator_init K ht wd s = Some gen -> all4 in01 (heatmaps gen).
Proof.
  apply build_generator_in01. intros h mx my h' Hh. unfold template_step.
  apply paste_all; [exact in01_zero | exact Hh | apply gaussian_in01].
Qed.

Lemma PseudoLabelGenerator01_init_in01 (K ht wd s : Z) (gen : generator) :
  PseudoLabelGenerator01_init K ht wd s = Some gen -> all4 in01 (heatmaps gen).
Proof.
  apply build_generator_in01. intros h mx my h' Hh. unfold template_step_frac.
  apply paste_all; [exact in01_zero | exact Hh | apply gaussian_in01].
Qed.

Lemma PseudoLabelGenerator03_init_in01 (K ht wd s : Z) (gen : generator) :
  PseudoLabelGenerator03_init K ht wd s = Some gen -> all4 in01 (heatmaps gen).
Proof.
  apply build_generator_in01. intros h mx my h' Hh. unfold template_step.
  apply paste_all; [exact in01_zero | exact Hh | apply gaussian_in01].
Qed.

(** ** The bank of the fractional half-width *)

Lemma frac_window_bounds (s mu : Z) :
  (0 < s)%Z -> (0 <= mu)%Z ->
  let tmp := (inject_Z s * (3 # 2))%Q in
  (py_int (inject_Z mu - tmp) <= mu < py_int (inject_Z mu + tmp + 1))%Z /\
  (py_int (inject_Z mu + tmp + 1) - py_int (inject_Z mu - tmp)
   <= Z.of_nat (Z.to_nat (Qceiling (2 * tmp + 1))))%Z.
Proof.
  intros Hs Hmu tmp. unfold tmp, py_int, Qceiling, Qfloor.
  cbn [Qplus Qminus Qmult Qopp Qnum Qden inject_Z Pos.mul Z.opp].
  Z.to_euclidean_division_equations. lia.
Qed.

Lemma template_step_frac_closed (wd ht s : Z) (hm : bank) (i j : nat) :
  (0 < wd)%Z -> (0 < ht)%Z -> (0 < s)%Z ->
  (i < Z.to_nat wd)%nat -> (j < Z.to_nat ht)%nat ->
  length hm = Z.to_nat wd ->
  (forall k, (k < Z.to_nat wd)%nat -> length (nth k hm []) = Z.to_nat ht) ->
  nth j (nth i hm []) [] = zeros (Z.to_nat ht) (Z.to_nat wd) ->
  template_step_frac wd ht s (inject_Z s * (3 # 2))%Q hm
                     (Z.of_nat i) (Z.of_nat j) =
  Some (upd2 hm i j
          (frac_template wd ht s (inject_Z s * (3 # 2))%Q
                         (Z.of_nat i) (Z.of_nat j))).
Proof.
  intros Hw Hh Hs Hi Hj Hl Hc He.
  unfold template_step_frac.
  destruct (@frac_window_bounds s (Z.of_nat i) Hs (Nat2Z.is_nonneg i))
    as [Hx1 Hx2].
  destruct (@frac_window_bounds s (Z.of_nat j) Hs (Nat2Z.is_nonneg j))
    as [Hy1 Hy2].
  rewrite (@paste_closed hm wd ht _ _ _
             (Z.to_nat (Qceiling (2 * (inject_Z s * (3 # 2)) + 1)%Q))
             (Z.of_nat i) (Z.of_nat j) (zeros (Z.to_nat ht) (Z.to_nat wd)));
    cbn [fst snd]; rewrite ?Nat2Z.id; try lia; try assumption.
  - reflexivity.
  - apply has_shape2_gaussian.
  - rewrite Hc; lia.
  - apply has_shape2_zeros.
Qed.

Lemma PseudoLabelGenerator01_init_closed (K ht wd s : Z) :
  (0 <= K)%Z -> (0 < ht)%Z -> (0 < wd)%Z -> (0 < s)%Z ->
  PseudoLabelGenerator01_init K ht wd s =
  Some (frac_generator K ht wd s (inject_Z s * (3 # 2))%Q).
Proof.
  intros HK Hh Hw Hs.
  unfold PseudoLabelGenerator01_init, build_generator, np_zeros4, np_eye.
  destruct (Z.leb_spec 0 wd); [|lia].
  destruct (Z.leb_spec 0 ht); [|lia].
  destruct (Z.leb_spec 0 K); [|lia].
  simpl andb. cbv iota. cbn [bind].
  rewrite (@init_loops_closed _ _
             (fun mx my => frac_template wd ht s (inject_Z s * (3 # 2))%Q
                             (Z.of_nat mx) (Z.of_nat my))).
  - cbn [bind]. unfold frac_generator, suppression_matrix.
    f_equal. f_equal.
    rewrite map_tab. apply tab_ext. intros i _. now rewrite map_tab.
  - apply length_tab.
  - intros k Hk. rewrite nth_tab by exact Hk. apply length_tab.
  - intros hm i j Hi Hj Hl Hc He.
    apply template_step_frac_closed; try assumption.
    eapply eq_trans; [exact He|].
    rewrite nth_tab by exact Hi. now rewrite nth_tab.
Qed.

Lemma pasted_zeros_shape (h w : nat) (wd ht : Z) (ul br : Z * Z) (g : image) :
  has_shape2 h w (pasted (zeros h w) wd ht ul br g).
Proof.
  unfold pasted. pose proof (has_shape2_zeros h w) as Hz.
  destruct Hz as [Hl HF]. rewrite Hl. split; [apply length_tab|].
  apply Forall_tab. intros i Hi.
  rewrite length_tab. apply (has_shape2_row (conj Hl HF) Hi).
Qed.

Lemma pasted_zeros_pixel (h w : nat) (wd ht : Z) (ul br : Z * Z) (g : image)
  (i j : nat) :
  (i < h)%nat -> (j < w)%nat ->
  pixel (pasted (zeros h w) wd ht ul br g) i j =
  Some (if ((Z.max 0 (snd ul) <=? Z.of_nat i) &&
            (Z.of_nat i <? Z.min (snd br) ht) &&
            (Z.max 0 (fst ul) <=? Z.of_nat j) &&
            (Z.of_nat j <? Z.min (fst br) wd))%bool%Z
        then at2 g (Z.to_nat (Z.of_nat i - snd ul))
                   (Z.to_nat (Z.of_nat j - fst ul))
        else 0).
Proof.
  intros Hi Hj. unfold pasted, pixel.
  pose proof (has_shape2_zeros h w) as Hz. pose proof Hz as [Hl HF].
  rewrite Hl. rewrite nth_error_tab by exact Hi. cbn [bind].
  rewrite (has_shape2_row Hz Hi). rewrite nth_error_tab by exact Hj.
  f_equal. destruct (_ && _)%bool; [reflexivity|].
  unfold zeros. now rewrite at2_tab.
Qed.

Lemma has_shape4_template_bank (wd ht s t : Z) :
  has_shape4 (Z.to_nat wd) (Z.to_nat ht) (Z.to_nat ht) (Z.to_nat wd)
             (template_bank wd ht s t).
Proof. unfold template_bank, template. apply has_shape4_tab. Qed.

Lemma has_shape4_frac_bank (K ht wd s : Z) (q : Q) :
  has_shape4 (Z.to_nat wd) (Z.to_nat ht) (Z.to_nat ht) (Z.to_nat wd)
             (heatmaps (frac_generator K ht wd s q)).
Proof.
  cbn [heatmaps frac_generator]. split; [apply length_tab|].
  apply Forall_tab. intros mx _. split; [apply length_tab|].
  apply Forall_tab. intros my _. apply pasted_zeros_shape.
Qed.

Lemma has_shape2_suppression (K : nat) :
  has_shape2 K K (suppression_matrix K).
Proof. unfold suppression_matrix. apply has_shape2_tab. Qed.

(** ** The peak and the support of the templates *)

(** The bank of the base generator has the value 1 at the pixel of the
    peak, for every peak location, and the value 0 at every pixel that
    is farther than [3 * sigma] from the peak along either axis. *)
Lemma base_bank_peak_and_support (K ht wd s : Z) :
  (0 <= K)%Z -> (0 < ht)%Z -> (0 < wd)%Z -> (0 < s)%Z ->
  exists gen,
    PseudoLabelGenerator_init K ht wd s = Some gen /\
    forall mu_x mu_y : Z, (0 <= mu_x < wd)%Z -> (0 <= mu_y < ht)%Z ->
      bank_at (heatmaps gen) mu_x mu_y mu_y mu_x = Some 1 /\
      forall iy ix : Z, (0 <= iy < ht)%Z -> (0 <= ix < wd)%Z ->
        (s * 3 < Z.abs (ix - mu_x) \/ s * 3 < Z.abs (iy - mu_y))%Z ->
        bank_at (heatmaps gen) mu_x mu_y iy ix = Some 0.
Proof.
  intros HK Hh Hw Hs.
  exists (template_generator K ht wd s (s * 3)). split.
  - now apply PseudoLabelGenerator_init_closed.
  - intros mu_x mu_y Hx Hy. cbn [heatmaps template_generator]. split.
    + rewrite template_bank_at by lia. f_equal.
      apply template_value_peak. lia.
    + intros iy ix Hiy Hix Hfar.
      rewrite template_bank_at by lia. f_equal.
      now apply template_value_outside.
Qed.

Lemma frac_bank_at (K ht wd s : Z) (q : Q) (x y iy ix : Z) :
  (0 <= x < wd)%Z -> (0 <= y < ht)%Z -> (0 <= iy < ht)%Z -> (0 <= ix < wd)%Z ->
  bank_at (heatmaps (frac_generator K ht wd s q)) x y iy ix =
  Some (if ((Z.max 0 (snd (frac_ul q x y)) <=? iy) &&
            (iy <? Z.min (snd (frac_br q x y)) ht) &&
            (Z.max 0 (fst (frac_ul q x y)) <=? ix) &&
            (ix <? Z.min (fst (frac_br q x y)) wd))%bool%Z
        then at2 (frac_gaussian q s)
                 (Z.to_nat (iy - snd (frac_ul q x y)))
                 (Z.to_nat (ix - fst (frac_ul q x y)))
        else 0).
Proof.
  intros Hx Hy Hiy Hix. unfold bank_at, entry4.
  cbn [heatmaps frac_generator].
  rewrite nth_error_tab by lia. cbn [bind].
  rewrite nth_error_tab by lia. cbn [bind].
  unfold frac_template. rewrite pasted_zeros_pixel by lia.
  now rewrite !Z2Nat.id by lia.
Qed.

(** C1, at the input where the code departs from it: in the bank of
    [PseudoLabelGenerator01(21, 16, 16, sigma=1)] the entry of peak
    [(1, 1)] has [exp(-1)], not 1, at pixel [(1, 1)]; its value 1 sits
    at pixel [(2, 2)]; and the entry of peak [(2, 2)] is not 0 at pixel
    [(2, 0)], two columns away where the half-width is 1.5. *)
Theorem lowres_bank_peak_displaced :
  exists gen,
    PseudoLabelGenerator01_init 21 16 16 1 = Some gen /\
    bank_at (heatmaps gen) 1 1 1 1 = Some (exp (- 1)) /\
    exp (- 1) < 1 /\
    bank_at (heatmaps gen) 1 1 2 2 = Some 1 /\
    bank_at (heatmaps gen) 2 2 2 0 = Some (exp (- 2)) /\
    0 < exp (- 2).
Proof.
  exists (frac_generator 21 16 16 1 (inject_Z 1 * (3 # 2))%Q).
  split; [apply PseudoLabelGenerator01_init_closed; lia|].
  split.
  { rewrite frac_bank_at by lia.
    match goal with |- Some (if ?c then _ else _) = _ =>
      replace c with true by (vm_compute; reflexivity) end.
    f_equal. unfold frac_gaussian.
    rewrite gaussian_at by (vm_compute; lia).
    f_equal.
    replace (Z.to_nat (1 - fst (frac_ul (inject_Z 1 * (3 # 2)) 1 1)))
      with 1%nat by (vm_compute; reflexivity).
    replace (Z.to_nat (1 - snd (frac_ul (inject_Z 1 * (3 # 2)) 1 1)))
      with 1%nat by (vm_compute; reflexivity).
    replace (Qfloor ((2 * (inject_Z 1 * (3 # 2)) + 1) / 2)%Q)
      with 2%Z by (vm_compute; reflexivity).
    simpl. lra. }
  split.
  { rewrite <- exp_0. apply exp_increasing. lra. }
  split.
  { rewrite frac_bank_at by lia.
    match goal with |- Some (if ?c then _ else _) = _ =>
      replace c with true by (vm_compute; reflexivity) end.
    f_equal. unfold frac_gaussian.
    rewrite gaussian_at by (vm_compute; lia).
    rewrite <- exp_0. f_equal.
    replace (Z.to_nat (2 - fst (frac_ul (inject_Z 1 * (3 # 2)) 1 1)))
      with 2%nat by (vm_compute; reflexivity).
    replace (Z.to_nat (2 - snd (frac_ul (inject_Z 1 * (3 # 2)) 1 1)))
      with 2%nat by (vm_compute; reflexivity).
    replace (Qfloor ((2 * (inject_Z 1 * (3 # 2)) + 1) / 2)%Q)
      with 2%Z by (vm_compute; reflexivity).
    simpl. lra. }
  split.
  { rewrite frac_bank_at by lia.
    match goal with |- Some (if ?c then _ else _) = _ =>
      replace c with true by (vm_compute; reflexivity) end.
    f_equal. unfold frac_gaussian.
    rewrite gaussian_at by (vm_compute; lia).
    f_equal.
    replace (Z.to_nat (0 - fst (frac_ul (inject_Z 1 * (3 # 2)) 2 2)))
      with 0%nat by (vm_compute; reflexivity).
    replace (Z.to_nat (2 - snd (frac_ul (inject_Z 1 * (3 # 2)) 2 2)))
      with 2%nat by (vm_compute; reflexivity).
    replace (Qfloor ((2 * (inject_Z 1 * (3 # 2)) + 1) / 2)%Q)
      with 2%Z by (vm_compute; reflexivity).
    simpl. lra. }
  apply exp_pos.
Qed.

(** ** Shape and range of what the forward passes return *)

Lemma gather_all (P : R -> Prop) (hm : bank) (preds : list (Z * Z))
  (picked : list image) :
  all4 P hm -> gather hm preds = Some picked -> Forall (all2 P) picked.
Proof.
  intros Hhm Hg. unfold gather in Hg.
  eapply mapM_Forall; [exact Hg|]. intros p img _ Himg.
  cbn beta in Himg.
  destruct (py_index hm (fst p)) as [col|] eqn:Hcol;
    cbn [bind] in Himg; [|discriminate].
  apply py_index_In in Hcol. apply py_index_In in Himg.
  unfold all4 in Hhm. rewrite Forall_forall in Hhm.
  specialize (Hhm col Hcol). rewrite Forall_forall in Hhm.
  now apply Hhm.
Qed.

Lemma transpose_all (P : R -> Prop) (r c : nat) (m : image) :
  P 0 -> all2 P m -> all2 P (transpose r c m).
Proof.
  intros P0 Hm. unfold transpose. apply all2_tab. intros.
  now apply all2_at2.
Qed.

Lemma cross_suppression_shape_range (b k h w : nat) (m : image)
  (gt gf : tensor4) :
  cross_suppression b k h w m gt = Some gf ->
  has_shape4 b k h w gf /\ all4 in01 gf.
Proof.
  unfold cross_suppression.
  destruct (reshape3_infer b k (flatten4 gt)) as [flat|]; [|discriminate].
  cbn [bind].
  destruct (dot3 k _ m) as [prod|]; [|discriminate]. cbn [bind].
  intros H. split; [eapply reshape4_shape; exact H|].
  eapply reshape4_all; [exact in01_zero | | exact H].
  apply Forall_flatten3. apply Forall_map. unfold map3.
  apply Forall_map. apply Forall_forall. intros x _.
  apply transpose_all; [exact in01_zero|].
  unfold all2. apply Forall_map. apply Forall_forall. intros row _.
  apply Forall_map. apply Forall_forall. intros v _. apply clip01_range.
Qed.

Lemma forward_np_shape_range (self : generator) (y gt gf : tensor4)
  (b k h w : nat) :
  all4 in01 (heatmaps self) -> shape4 y = (b, k, h, w) ->
  PseudoLabelGenerator_forward_np self y = Some (gt, gf) ->
  has_shape4 b k h w gt /\ has_shape4 b k h w gf /\
  all4 in01 gt /\ all4 in01 gf.
Proof.
  intros Hhm Hs. unfold PseudoLabelGenerator_forward_np. rewrite Hs.
  destruct (get_max_preds y) as [pm|]; [|discriminate]. cbn [bind].
  destruct (gather _ _) as [picked|] eqn:Hg; [|discriminate]. cbn [bind].
  destruct (reshape4 b k h w _) as [gt0|] eqn:Hr; [|discriminate].
  cbn [bind].
  destruct (cross_suppression _ _ _ _ _ _) as [gf0|] eqn:Hc; [|discriminate].
  cbn [bind]. intros H. inversion H; subst gt0 gf0.
  destruct (cross_suppression_shape_range _ _ _ _ _ _ Hc) as [H1 H2].
  split; [eapply reshape4_shape; exact Hr|].
  split; [exact H1|]. split; [|exact H2].
  eapply reshape4_all; [exact in01_zero | | exact Hr].
  apply Forall_flatten3. eapply gather_all; [exact Hhm | exact Hg].
Qed.

Lemma complemented_in01 (gt : tensor4) : all4 in01 (complemented gt).
Proof.
  unfold complemented, map4, map3, all4, all2.
  apply Forall_map. apply Forall_forall. intros s _.
  apply Forall_map. apply Forall_forall. intros c _.
  apply Forall_map. apply Forall_forall. intros r _.
  apply Forall_map. apply Forall_forall. intros v _. apply clip01_range.
Qed.

Lemma lowres_forward_np_shape_range (divisor : Z) (out : nat)
  (self : generator) (y gt gf : tensor4) (b k h w : nat) :
  all4 in01 (heatmaps self) -> shape4 y = (b, k, h, w) ->
  lowres_forward_np divisor out self y = Some (gt, gf) ->
  has_shape4 b k out out gt /\ gf = complemented gt /\
  all4 in01 gt.
Proof.
  intros Hhm Hs. unfold lowres_forward_np. rewrite Hs.
  destruct (get_max_preds y) as [pm|]; [|discriminate]. cbn [bind].
  destruct (gather _ _) as [picked|] eqn:Hg; [|discriminate]. cbn [bind].
  destruct (reshape4 b k out out _) as [gt0|] eqn:Hr; [|discriminate].
  cbn [bind]. intros H. inversion H; subst gt0.
  assert (Hshape : has_shape4 b k out out gt)
    by (eapply reshape4_shape; exact Hr).
  split; [exact Hshape|]. split.
  - symmetry. rewrite <- (complement_closed Hshape). reflexivity.
  - eapply reshape4_all; [exact in01_zero | | exact Hr].
    apply Forall_flatten3. eapply gather_all; [exact Hhm | exact Hg].
Qed.

Lemma from_numpy_shape (b k h w : nat) (t : tensor4) :
  has_shape4 b k h w t -> has_shape4 b k h w (from_numpy t).
Proof. apply has_shape4_map4. Qed.

Lemma from_numpy_in01 (t : tensor4) :
  all4 in01 t -> all4 xin01 (from_numpy t).
Proof.
  apply all4_map4. intros r Hr. now exists r.
Qed.

Lemma init_of_in01 (v : variant) (K ht wd s : Z) (gen : generator) :
  init_of v K ht wd s = Some gen -> all4 in01 (heatmaps gen).
Proof.
  destruct v; cbn [init_of].
  - apply PseudoLabelGenerator_init_in01.
  - apply PseudoLabelGenerator01_init_in01.
  - apply PseudoLabelGenerator03_init_in01.
Qed.

Lemma has_shape4_y_zero64 (k : nat) : has_shape4 1 k 64 64 (y_zero64 k).
Proof.
  unfold y_zero64. split; [reflexivity|]. constructor; [|constructor].
  unfold zeros. apply (has_shape3_tab k 64 64 (fun _ _ _ => 0)).
Qed.

Lemma has_shape4_conflict {A : Type} (b k h w h' w' : nat)
  (t : list (list (list (list A)))) :
  (0 < b)%nat -> (0 < k)%nat -> (0 < h)%nat -> (0 < h')%nat ->
  has_shape4 b k h w t -> has_shape4 b k h' w' t -> h = h' /\ w = w'.
Proof.
  intros Hb Hk Hh Hh' H1 H2.
  pose proof (shape4_of H1 Hb Hk Hh) as E1.
  pose proof (shape4_of H2 Hb Hk Hh') as E2.
  rewrite E1 in E2. inversion E2. now split.
Qed.

(** The default [PseudoLabelGenerator01] accepts a batch of 64 by 64
    heat maps. *)
Lemma lowres01_accepts_zero64 :
  exists gen gt gf,
    PseudoLabelGenerator01_init 21 16 16 2 = Some gen /\
    shape4 (y_zero64 21) = (1, 21, 64, 64)%nat /\
    PseudoLabelGenerator01_forward gen (y_zero64 21) = Some (gt, gf) /\
    has_shape4 1 21 16 16 gt /\ has_shape4 1 21 16 16 gf.
Proof.
  set (gen := frac_generator 21 16 16 2 (inject_Z 2 * (3 # 2))%Q).
  set (gt := gathered_truth (heatmaps gen) (fun z => Z.quot z 4) 16 16
                            (y_zero64 21)).
  exists gen, (from_numpy gt), (from_numpy (complemented gt)).
  pose proof (has_shape4_y_zero64 21) as Hy.
  assert (Hgt : has_shape4 1 21 16 16 gt)
    by (apply (has_shape4_gathered _ _ _ _ Hy); lia).
  split; [apply PseudoLabelGenerator01_init_closed; lia|].
  split; [apply (shape4_of Hy); lia|].
  split.
  - unfold PseudoLabelGenerator01_forward.
    rewrite (@lowres_forward_np_closed 4 16 gen 1 21 64 64); try lia.
    + reflexivity.
    + exact Hy.
    + apply (has_shape4_frac_bank 21 16 16 2).
  - split; [now apply from_numpy_shape|].
    apply from_numpy_shape. unfold complemented. now apply has_shape4_map4.
Qed.

(** C2, as the code has it: for a generator built with a positive
    [sigma], the pair returned by [forward] has the batch size and the
    channel count of the input; its height and width are those of the
    input for [PseudoLabelGenerator], 16 by 16 for
    [PseudoLabelGenerator01] and 32 by 32 for [PseudoLabelGenerator03];
    and every entry of both tensors is a number between 0 and 1. *)
Theorem forward_shape_and_range (v : variant) (K ht wd s : Z)
  (gen : generator) (y : tensor4) (gt gf : xtensor4) (b k h w : nat) :
  (0 < s)%Z ->
  init_of v K ht wd s = Some gen ->
  shape4 y = (b, k, h, w) ->
  forward_of v gen y = Some (gt, gf) ->
  has_shape4 b k (fst (output_size v h w)) (snd (output_size v h w)) gt /\
  has_shape4 b k (fst (output_size v h w)) (snd (output_size v h w)) gf /\
  all4 xin01 gt /\ all4 xin01 gf.
Proof.
  intros Hsigma Hinit Hs Hf.
  assert (Hhm : all4 in01 (heatmaps gen))
    by (eapply init_of_in01; exact Hinit).
  assert (Hlow : forall d out,
            bind (lowres_forward_np d out gen y)
                 (fun r => Some (from_numpy (fst r), from_numpy (snd r)))
            = Some (gt, gf) ->
            has_shape4 b k out out gt /\ has_shape4 b k out out gf /\
            all4 xin01 gt /\ all4 xin01 gf).
  { intros d out H.
    destruct (lowres_forward_np d out gen y) as [[g1 g2]|] eqn:Hl;
      [|discriminate].
    cbn [bind fst snd] in H. inversion H; subst gt gf.
    destruct (@lowres_forward_np_shape_range d out gen y g1 g2 b k h w
                Hhm Hs Hl) as [H1 [H2 H3]]. subst g2.
    split; [now apply from_numpy_shape|].
    split; [apply from_numpy_shape; unfold complemented;
            now apply has_shape4_map4|].
    split; apply from_numpy_in01; [exact H3 | apply complemented_in01]. }
  destruct v; cbn [forward_of output_size fst snd] in *.
  - unfold PseudoLabelGenerator_forward in Hf.
    destruct (PseudoLabelGenerator_forward_np gen y) as [[g1 g2]|] eqn:Hn;
      [|discriminate].
    cbn [bind fst snd] in Hf. inversion Hf; subst gt gf.
    destruct (@forward_np_shape_range gen y g1 g2 b k h w Hhm Hs Hn)
      as [H1 [H2 [H3 H4]]].
    split; [now apply from_numpy_shape|].
    split; [now apply from_numpy_shape|].
    split; now apply from_numpy_in01.
  - now apply (Hlow 4%Z 16%nat).
  - now apply (Hlow 2%Z 32%nat).
Qed.

Lemma forward_shape_and_range_witness :
  exists gen gt gf,
    ((0 < 2)%Z /\
     init_of Low01 21 16 16 2 = Some gen /\
     shape4 (y_zero64 21) = (1, 21, 64, 64)%nat /\
     forward_of Low01 gen (y_zero64 21) = Some (gt, gf)) /\
    has_shape4 1 21 16 16 gt /\ has_shape4 1 21 16 16 gf /\
    all4 xin01 gt /\ all4 xin01 gf.
Proof.
  destruct lowres01_accepts_zero64 as [gen [gt [gf [Hi [Hs [Hf _]]]]]].
  assert (Hsigma : (0 < 2)%Z) by lia.
  exists gen, gt, gf. split; [now repeat split|].
  exact (@forward_shape_and_range Low01 21%Z 16%Z 16%Z 2%Z gen (y_zero64 21)
           gt gf 1%nat 21%nat 64%nat 64%nat Hsigma Hi Hs Hf).
Defined.

(** C2 as stated fails: [PseudoLabelGenerator01] accepts a batch of
    shape (1, 21, 64, 64) and returns tensors that do not have that
    shape. *)
Lemma lowres_forward_changes_shape :
  exists gen gt gf,
    PseudoLabelGenerator01_init 21 16 16 2 = Some gen /\
    shape4 (y_zero64 21) = (1, 21, 64, 64)%nat /\
    PseudoLabelGenerator01_forward gen (y_zero64 21) = Some (gt, gf) /\
    ~ has_shape4 1 21 64 64 gt /\ ~ has_shape4 1 21 64 64 gf.
Proof.
  destruct lowres01_accepts_zero64 as [gen [gt [gf [Hi [Hs [Hf [H1 H2]]]]]]].
  exists gen, gt, gf. repeat split; try assumption.
  - intros H.
    assert (E : (16 = 64 /\ 16 = 64)%nat)
      by (eapply has_shape4_conflict; [| | | | exact H1 | exact H]; lia).
    lia.
  - intros H.
    assert (E : (16 = 64 /\ 16 = 64)%nat)
      by (eapply has_shape4_conflict; [| | | | exact H2 | exact H]; lia).
    lia.
Qed.

(** ** Cross-suppression *)

Lemma build_generator_matrix (step : bank -> Z -> Z -> option bank)
  (K ht wd s : Z) (gen : generator) :
  build_generator step K ht wd s = Some gen ->
  false_matrix gen = suppression_matrix (Z.to_nat K).
Proof.
  unfold build_generator.
  destruct (np_zeros4 wd ht ht wd) as [hm0|]; [|discriminate]. cbn [bind].
  destruct (init_loops step wd ht hm0) as [hm|]; [|discriminate].
  cbn [bind]. unfold np_eye. destruct (0 <=? K)%Z; [|discriminate].
  cbn [bind]. intros H. inversion H. cbn [false_matrix].
  unfold suppression_matrix. rewrite map_tab. apply tab_ext. intros i _.
  now rewrite map_tab.
Qed.

Lemma sumR_app (l1 l2 : list R) : sumR (l1 ++ l2) = sumR l1 + sumR l2.
Proof.
  induction l1 as [|x t IH]; simpl; [lra | rewrite IH; lra].
Qed.

Lemma tab_S {A : Type} (n : nat) (f : nat -> A) :
  tab (S n) f = tab n f ++ [f n].
Proof. unfold tab. now rewrite seq_S, map_app. Qed.

Lemma sumR_tab_nonneg (n : nat) (f : nat -> R) :
  (forall i, (i < n)%nat -> 0 <= f i) -> 0 <= sumR (tab n f).
Proof.
  induction n as [|n IH]; intros H.
  - simpl. lra.
  - rewrite tab_S, sumR_app. simpl.
    assert (0 <= sumR (tab n f)) by (apply IH; intros; apply H; lia).
    assert (0 <= f n) by (apply H; lia). lra.
Qed.

Lemma sumR_tab_ge (n : nat) (f : nat -> R) (c : nat) :
  (forall i, (i < n)%nat -> 0 <= f i) -> (c < n)%nat ->
  f c <= sumR (tab n f).
Proof.
  induction n as [|n IH]; intros H Hc; [lia|].
  rewrite tab_S, sumR_app. simpl.
  assert (H0 : 0 <= sumR (tab n f))
    by (apply sumR_tab_nonneg; intros; apply H; lia).
  assert (Hn : 0 <= f n) by (apply H; lia).
  destruct (Nat.eq_dec c n) as [->|Hne].
  - lra.
  - assert (f c <= sumR (tab n f)) by (apply IH; [intros; apply H|]; lia).
    lra.
Qed.

Lemma at4_in01 (t : tensor4) (n c i j : nat) :
  all4 in01 t -> in01 (at4 t n c i j).
Proof.
  intros Ht. unfold at4, get4, get3.
  apply (@all2_at2 in01); [exact in01_zero|].
  apply Forall_nth_default; [|constructor].
  apply (@Forall_nth_default _ (Forall (all2 in01))); [exact Ht | constructor].
Qed.

(** Where one channel of the ground truth is 1, the cross-suppression
    of every other channel is 1. *)
Lemma cross_suppressed_at_one (k : nat) (gt : tensor4) (b h w : nat)
  (n c c' i j : nat) :
  has_shape4 b k h w gt -> all4 in01 gt ->
  (n < b)%nat -> (c < k)%nat -> (c' < k)%nat -> c <> c' ->
  at4 gt n c i j = 1 ->
  spec_cross_suppression (suppression_matrix k) gt n c' i j = 1.
Proof.
  intros Hgt Hin Hn Hc Hc' Hne H1. unfold spec_cross_suppression.
  pose proof (has_shape4_sample Hgt Hn) as [Hl _].
  replace (length (nth n gt [])) with k by (symmetry; exact Hl).
  apply clip01_high.
  set (f := fun c0 => at4 gt n c0 i j * at2 (suppression_matrix k) c0 c').
  assert (Hf : forall c0, (c0 < k)%nat -> 0 <= f c0).
  { intros c0 Hc0. unfold f.
    pose proof (at4_in01 n c0 i j Hin) as [Hlo _].
    unfold suppression_matrix. rewrite at2_tab by assumption.
    destruct (Nat.eqb c0 c'); nra. }
  apply Rle_trans with (f c); [|now apply sumR_tab_ge].
  unfold f. rewrite H1.
  unfold suppression_matrix. rewrite at2_tab by assumption.
  destruct (Nat.eqb_spec c c'); [contradiction | lra].
Qed.

Lemma entry4_get4 {A : Type} (d : A) (b k h w : nat)
  (t : list (list (list (list A)))) (n c i j : nat) :
  has_shape4 b k h w t ->
  (n < b)%nat -> (c < k)%nat -> (i < h)%nat -> (j < w)%nat ->
  entry4 t n c i j = Some (get4 d t n c i j).
Proof.
  intros Ht Hn Hc Hi Hj. unfold entry4, pixel, get4, get3, get2.
  pose proof Ht as [Hl _].
  pose proof (has_shape4_sample Ht Hn) as H3. pose proof H3 as [Hl3 _].
  pose proof (has_shape3_channel H3 Hc) as H2. pose proof H2 as [Hl2 _].
  pose proof (has_shape2_row H2 Hi) as H1.
  rewrite (nth_error_Some_nth t []) by lia. cbn [bind].
  rewrite (nth_error_Some_nth _ []) by lia. cbn [bind].
  rewrite (nth_error_Some_nth _ []) by lia. cbn [bind].
  apply nth_error_Some_nth. lia.
Qed.

Lemma entry4_in_range {A : Type} (b k h w : nat)
  (t : list (list (list (list A)))) (n c i j : nat) (v : A) :
  has_shape4 b k h w t -> entry4 t n c i j = Some v ->
  (n < b)%nat /\ (c < k)%nat /\ (i < h)%nat /\ (j < w)%nat.
Proof.
  intros Ht. unfold entry4, pixel.
  destruct (nth_error t n) as [s|] eqn:Hs; [|discriminate]. cbn [bind].
  destruct (nth_error s c) as [m|] eqn:Hm; [|discriminate]. cbn [bind].
  destruct (nth_error m i) as [r|] eqn:Hr; [|discriminate]. cbn [bind].
  intros Hv.
  assert (Hn : (n < length t)%nat) by (apply nth_error_Some; congruence).
  assert (Hc : (c < length s)%nat) by (apply nth_error_Some; congruence).
  assert (Hi : (i < length m)%nat) by (apply nth_error_Some; congruence).
  assert (Hj : (j < length r)%nat) by (apply nth_error_Some; congruence).
  pose proof Ht as [Hl HF]. rewrite Forall_forall in HF.
  destruct (HF s (nth_error_In _ _ Hs)) as [Hl3 HF3].
  rewrite Forall_forall in HF3.
  destruct (HF3 m (nth_error_In _ _ Hm)) as [Hl2 HF2].
  rewrite Forall_forall in HF2.
  pose proof (HF2 r (nth_error_In _ _ Hr)) as Hl1.
  lia.
Qed.

Lemma get4_map4 {A B : Type} (f : A -> B) (d : A) (b k h w : nat)
  (t : list (list (list (list A)))) (n c i j : nat) :
  has_shape4 b k h w t ->
  (n < b)%nat -> (c < k)%nat -> (i < h)%nat -> (j < w)%nat ->
  get4 (f d) (map4 f t) n c i j = f (get4 d t n c i j).
Proof.
  intros Ht Hn Hc Hi Hj.
  rewrite (shaped4_as_tab d Ht) at 1. unfold map4, map3.
  rewrite map_tab.
  rewrite (@tab_ext _ b _ (fun s => tab k (fun c0 => tab h (fun i0 =>
             tab w (fun j0 => f (get4 d t s c0 i0 j0)))))).
  - now rewrite get4_tab.
  - intros s _. rewrite map_tab. apply tab_ext. intros c0 _.
    rewrite map_tab. apply tab_ext. intros i0 _. now rewrite map_tab.
Qed.

Lemma map_injective {A B : Type} (f : A -> B) :
  (forall a a', f a = f a' -> a = a') ->
  forall l l', map f l = map f l' -> l = l'.
Proof.
  intros Hf l. induction l as [|a t IH]; intros [|a' t'] H; simpl in H;
    try discriminate; [reflexivity|].
  inversion H. f_equal; auto.
Qed.

Lemma from_numpy_injective (t t' : tensor4) :
  from_numpy t = from_numpy t' -> t = t'.
Proof.
  unfold from_numpy, map4, map3.
  apply map_injective, map_injective, map_injective, map_injective.
  intros a a' H. now inversion H.
Qed.

Lemma has_shape4_unique {A : Type} (b k h w b' k' h' w' : nat)
  (t : list (list (list (list A)))) :
  has_shape4 b k h w t -> has_shape4 b' k' h' w' t ->
  (0 < b)%nat -> (0 < k)%nat -> (0 < h)%nat ->
  b' = b /\ k' = k /\ h' = h /\ w' = w.
Proof.
  intros H1 H2 Hb Hk Hh.
  pose proof H1 as [Hl1 _]. pose proof H2 as [Hl2 _].
  assert (Eb : b' = b) by congruence. rewrite Eb in H2. clear Hl2.
  pose proof (has_shape4_sample H1 Hb) as S1.
  pose proof (has_shape4_sample H2 Hb) as S2.
  pose proof S1 as [Hk1 _]. pose proof S2 as [Hk2 _].
  assert (Ek : k' = k) by congruence. rewrite Ek in S2.
  pose proof (has_shape3_channel S1 Hk) as C1.
  pose proof (has_shape3_channel S2 Hk) as C2.
  pose proof C1 as [Hh1 _]. pose proof C2 as [Hh2 _].
  assert (Eh : h' = h) by congruence. rewrite Eh in C2.
  pose proof (has_shape2_row C1 Hh) as R1.
  pose proof (has_shape2_row C2 Hh) as R2.
  repeat split; congruence.
Qed.

Lemma cross_suppression_channels (b k h w : nat) (m : image)
  (gt gf : tensor4) :
  cross_suppression b k h w m gt = Some gf -> k = length m.
Proof.
  unfold cross_suppression.
  destruct (reshape3_infer b k (flatten4 gt)) as [flat|]; [|discriminate].
  cbn [bind]. unfold dot3.
  destruct (Nat.eqb_spec k (length m)) as [E|_]; [|discriminate].
  intros _. exact E.
Qed.

Lemma forward_np_ground_false (K ht wd s : Z) (gen : generator)
  (y gt gf : tensor4) (b k h w : nat) :
  PseudoLabelGenerator_init K ht wd s = Some gen ->
  has_shape4 b k h w y ->
  (0 < b)%nat -> (0 < k)%nat -> (0 < h)%nat -> (0 < w)%nat ->
  PseudoLabelGenerator_forward_np gen y = Some (gt, gf) ->
  has_shape4 b k h w gt /\ all4 in01 gt /\
  cross_suppression b k h w (suppression_matrix k) gt = Some gf /\
  gf = cross_suppressed (suppression_matrix k) gt.
Proof.
  intros Hinit Hy Hb Hk Hh Hw Hf.
  assert (Hhm : all4 in01 (heatmaps gen))
    by (eapply PseudoLabelGenerator_init_in01; exact Hinit).
  assert (Hm : false_matrix gen = suppression_matrix (Z.to_nat K))
    by (eapply build_generator_matrix; exact Hinit).
  destruct (@forward_np_shape_range gen y gt gf b k h w Hhm
              (shape4_of Hy Hb Hk Hh) Hf) as [Hgt [_ [Hin _]]].
  unfold PseudoLabelGenerator_forward_np in Hf.
  rewrite (shape4_of Hy Hb Hk Hh) in Hf.
  destruct (get_max_preds y) as [pm|]; [|discriminate]. cbn [bind] in Hf.
  destruct (gather _ _) as [picked|]; [|discriminate]. cbn [bind] in Hf.
  destruct (reshape4 b k h w _) as [gt0|]; [|discriminate].
  cbn [bind] in Hf.
  destruct (cross_suppression _ _ _ _ _ _) as [gf0|] eqn:Hc; [|discriminate].
  cbn [bind] in Hf. inversion Hf; subst gt0 gf0.
  rewrite Hm in Hc.
  pose proof (cross_suppression_channels _ _ _ _ _ _ Hc) as Ek.
  unfold suppression_matrix in Ek. rewrite length_tab in Ek.
  rewrite <- Ek in Hc.
  split; [exact Hgt|]. split; [exact Hin|]. split; [exact Hc|].
  rewrite (@cross_suppression_closed b k h w) in Hc; try assumption.
  - now inversion Hc.
  - apply has_shape2_suppression.
Qed.

(** C5: in what [PseudoLabelGenerator.forward] returns, wherever the
    ground truth of keypoint [c] is 1 the ground false of every other
    keypoint [c'] is 1; and the ground false is a function of the
    ground truth alone: every call that returns the same ground truth
    returns the same ground false. *)
Theorem cross_suppression_at_peak (K ht wd s : Z) (gen : generator)
  (y : tensor4) (gt gf : xtensor4) (b k h w : nat) :
  PseudoLabelGenerator_init K ht wd s = Some gen ->
  has_shape4 b k h w y ->
  (0 < b)%nat -> (0 < k)%nat -> (0 < h)%nat -> (0 < w)%nat ->
  PseudoLabelGenerator_forward gen y = Some (gt, gf) ->
  (forall n c c' i j,
     c <> c' -> (c' < k)%nat ->
     entry4 gt n c i j = Some (Fin 1) ->
     entry4 gf n c' i j = Some (Fin 1)) /\
  (forall y' b' k' h' w' gf',
     has_shape4 b' k' h' w' y' ->
     (0 < b')%nat -> (0 < k')%nat -> (0 < h')%nat -> (0 < w')%nat ->
     PseudoLabelGenerator_forward gen y' = Some (gt, gf') -> gf' = gf).
Proof.
  intros Hinit Hy Hb Hk Hh Hw Hf.
  unfold PseudoLabelGenerator_forward in Hf.
  destruct (PseudoLabelGenerator_forward_np gen y) as [[g1 g2]|] eqn:Hn;
    [|discriminate].
  cbn [bind fst snd] in Hf. inversion Hf; subst gt gf. clear Hf.
  destruct (@forward_np_ground_false K ht wd s gen y g1 g2 b k h w
              Hinit Hy Hb Hk Hh Hw Hn) as [Hg1 [Hin [Hc Hg2]]].
  assert (Hg2s : has_shape4 b k h w g2).
  { destruct (cross_suppression_shape_range _ _ _ _ _ _ Hc) as [H _].
    exact H. }
  split.
  - intros n c c' i j Hne Hc' He.
    destruct (entry4_in_range n c i j (from_numpy_shape Hg1) He)
      as [Hn' [Hcc [Hi Hj]]].
    rewrite (entry4_get4 (Fin 0) (from_numpy_shape Hg1) Hn' Hcc Hi Hj) in He.
    unfold from_numpy in He.
    rewrite (get4_map4 Fin 0 Hg1 Hn' Hcc Hi Hj) in He.
    inversion He as [He1].
    rewrite (entry4_get4 (Fin 0) (from_numpy_shape Hg2s) Hn' Hc' Hi Hj).
    unfold from_numpy. rewrite (get4_map4 Fin 0 Hg2s Hn' Hc' Hi Hj).
    do 2 f_equal.
    rewrite Hg2. unfold cross_suppressed.
    rewrite (shape4_of Hg1 Hb Hk Hh).
    rewrite get4_tab by assumption.
    rewrite He1.
    now apply (@cross_suppressed_at_one k g1 b h w n c c' i j).
  - intros y' b' k' h' w' gf' Hy' Hb' Hk' Hh' Hw' Hf'.
    unfold PseudoLabelGenerator_forward in Hf'.
    destruct (PseudoLabelGenerator_forward_np gen y') as [[g1' g2']|] eqn:Hn';
      [|discriminate].
    cbn [bind fst snd] in Hf'. inversion Hf' as [[E1 E2]].
    apply from_numpy_injective in E1. subst g1'.
    destruct (@forward_np_ground_false K ht wd s gen y' g1 g2' b' k' h' w'
                Hinit Hy' Hb' Hk' Hh' Hw' Hn') as [Hg1' [_ [_ Hg2']]].
    destruct (has_shape4_unique Hg1 Hg1' Hb Hk Hh) as [_ [Ek _]].
    subst k'. now rewrite Hg2', Hg2.
Qed.

(** On a batch of its own resolution and keypoint count the base
    generator is built and its forward pass returns. *)
Lemma PseudoLabelGenerator_forward_total (K ht wd s : Z) (y : tensor4)
  (b : nat) :
  (0 < K)%Z -> (0 < ht)%Z -> (0 < wd)%Z -> (0 < s)%Z -> (0 < b)%nat ->
  has_shape4 b (Z.to_nat K) (Z.to_nat ht) (Z.to_nat wd) y ->
  exists gen gt gf,
    PseudoLabelGenerator_init K ht wd s = Some gen /\
    PseudoLabelGenerator_forward_np gen y = Some (gt, gf) /\
    PseudoLabelGenerator_forward gen y
      = Some (from_numpy gt, from_numpy gf) /\
    gt = gathered_truth (heatmaps gen) (fun z => z)
                        (Z.to_nat ht) (Z.to_nat wd) y /\
    heatmaps gen = template_bank wd ht s (s * 3).
Proof.
  intros HK Hh Hw Hs Hb Hy.
  set (gen := template_generator K ht wd s (s * 3)).
  assert (Hn : PseudoLabelGenerator_forward_np gen y =
               Some (gathered_truth (heatmaps gen) (fun z => z)
                       (Z.to_nat ht) (Z.to_nat wd) y,
                     cross_suppressed (false_matrix gen)
                       (gathered_truth (heatmaps gen) (fun z => z)
                          (Z.to_nat ht) (Z.to_nat wd) y))).
  { apply (@PseudoLabelGenerator_forward_np_closed gen b (Z.to_nat K));
      try lia.
    - exact Hy.
    - apply has_shape4_template_bank.
    - apply has_shape2_suppression. }
  exists gen. eexists. eexists.
  split; [apply PseudoLabelGenerator_init_closed; lia|].
  split; [exact Hn|]. split; [|split; reflexivity].
  unfold PseudoLabelGenerator_forward. rewrite Hn. reflexivity.
Qed.

Lemma cross_suppression_at_peak_witness :
  exists gen gt gf,
    (PseudoLabelGenerator_init 21 64 64 2 = Some gen /\
     has_shape4 1 21 64 64 (y_zero64 21) /\
     (0 < 1)%nat /\ (0 < 21)%nat /\ (0 < 64)%nat /\ (0 < 64)%nat /\
     PseudoLabelGenerator_forward gen (y_zero64 21) = Some (gt, gf)) /\
    (forall n c c' i j,
       c <> c' -> (c' < 21)%nat ->
       entry4 gt n c i j = Some (Fin 1) ->
       entry4 gf n c' i j = Some (Fin 1)) /\
    (forall y' b' k' h' w' gf',
       has_shape4 b' k' h' w' y' ->
       (0 < b')%nat -> (0 < k')%nat -> (0 < h')%nat -> (0 < w')%nat ->
       PseudoLabelGenerator_forward gen y' = Some (gt, gf') -> gf' = gf).
Proof.
  destruct (@PseudoLabelGenerator_forward_total 21 64 64 2 (y_zero64 21) 1)
    as [gen [gt [gf [Hi [_ [Hf _]]]]]]; try lia.
  { apply has_shape4_y_zero64. }
  exists gen, (from_numpy gt), (from_numpy gf).
  pose proof (has_shape4_y_zero64 21) as Hy.
  split.
  { split; [exact Hi|]. split; [exact Hy|].
    repeat (split; [lia|]). exact Hf. }
  apply (@cross_suppression_at_peak 21%Z 64%Z 64%Z 2%Z gen (y_zero64 21)
           (from_numpy gt) (from_numpy gf) 1%nat 21%nat 64%nat 64%nat);
    try assumption; lia.
Defined.

(** ** Broadcasting *)

Lemma bcast_eq_len {A B C : Type} (f : A -> B -> option C)
  (xs : list A) (ys : list B) :
  length xs = length ys ->
  bcast f xs ys = mapM (fun p => f (fst p) (snd p)) (combine xs ys).
Proof.
  intros H. unfold bcast. now rewrite H, Nat.eqb_refl.
Qed.

Lemma bcast_mismatch {A B C : Type} (f : A -> B -> option C)
  (xs : list A) (ys : list B) :
  length xs <> length ys -> length xs <> 1%nat -> length ys <> 1%nat ->
  bcast f xs ys = None.
Proof.
  intros H Hx Hy. unfold bcast.
  destruct (Nat.eqb_spec (length xs) (length ys)); [contradiction|].
  destruct xs as [|x [|x' xs]]; destruct ys as [|y [|y' ys]];
    simpl in *; try reflexivity; lia.
Qed.

Lemma bcast_right_one {A B C : Type} (f : A -> B -> option C)
  (xs : list A) (y : B) :
  length xs <> 1%nat -> bcast f xs [y] = mapM (fun x => f x y) xs.
Proof.
  intros Hx. unfold bcast.
  destruct (Nat.eqb_spec (length xs) (length [y])) as [E|_];
    [simpl in E; lia|].
  destruct xs as [|x [|x' xs]]; simpl in *; try reflexivity; lia.
Qed.

Lemma mapM_tab {A B : Type} (f : A -> option B) (n : nat)
  (a : nat -> A) (c : nat -> B) :
  (forall i, (i < n)%nat -> f (a i) = Some (c i)) ->
  mapM f (tab n a) = Some (tab n c).
Proof.
  intros H. unfold tab.
  assert (Hl : forall i, In i (seq 0 n) -> f (a i) = Some (c i))
    by (intros i Hi; apply in_seq in Hi; apply H; lia).
  clear H. induction (seq 0 n) as [|i t IH]; simpl; [reflexivity|].
  rewrite (Hl i (or_introl eq_refl)), IH; [reflexivity|].
  intros j Hj. apply Hl. now right.
Qed.

Lemma combine_tab {A B : Type} (n : nat) (a : nat -> A) (b : nat -> B) :
  combine (tab n a) (tab n b) = tab n (fun i => (a i, b i)).
Proof.
  unfold tab. induction (seq 0 n) as [|i t IH]; simpl;
    [reflexivity | now rewrite IH].
Qed.

Lemma bcast_tab {A B C : Type} (f : A -> B -> option C) (n : nat)
  (a : nat -> A) (b : nat -> B) (c : nat -> C) :
  (forall i, (i < n)%nat -> f (a i) (b i) = Some (c i)) ->
  bcast f (tab n a) (tab n b) = Some (tab n c).
Proof.
  intros H. rewrite bcast_eq_len by now rewrite !length_tab.
  rewrite combine_tab. now apply mapM_tab.
Qed.

Lemma bcast2_tab {A B C : Type} (f : A -> B -> C) (h w : nat)
  (a : nat -> nat -> A) (b : nat -> nat -> B) :
  bcast2 f (tab h (fun i => tab w (a i))) (tab h (fun i => tab w (b i)))
  = Some (tab h (fun i => tab w (fun j => f (a i j) (b i j)))).
Proof.
  unfold bcast2. apply bcast_tab. intros i _.
  apply bcast_tab. reflexivity.
Qed.

(** A tensor with [m] channels against one with [k] channels, all
    other axes equal: the pair broadcasts when [k = m] or [k = 1]. *)
Lemma bcast4_channels {A B C : Type} (f : A -> B -> C) (b m k h w : nat)
  (a : nat -> nat -> nat -> nat -> A) (a' : nat -> nat -> nat -> nat -> B) :
  k = m \/ (k = 1%nat /\ m <> 1%nat) ->
  bcast4 f
    (tab b (fun n => tab m (fun c => tab h (fun i => tab w (a n c i)))))
    (tab b (fun n => tab k (fun c => tab h (fun i => tab w (a' n c i)))))
  = Some (tab b (fun n => tab m (fun c => tab h (fun i => tab w (fun j =>
            f (a n c i j) (a' n (chan k c) i j)))))).
Proof.
  intros Hk. unfold bcast4, bcast3. apply bcast_tab. intros n _.
  destruct Hk as [->|[-> Hm]].
  - apply bcast_tab. intros c Hc. rewrite bcast2_tab. f_equal.
    apply tab_ext. intros i _. apply tab_ext. intros j _.
    unfold chan. destruct (Nat.eqb_spec m 1); [|reflexivity].
    now replace c with 0%nat by lia.
  - change (tab 1 (fun c => tab h (fun i => tab w (a' n c i))))
      with [tab h (fun i => tab w (a' n 0%nat i))].
    rewrite bcast_right_one by now rewrite length_tab.
    apply mapM_tab. intros c _. now rewrite bcast2_tab.
Qed.

(** With [m] channels on one side and [k] on the other, neither of
    them 1 and [k <> m], the broadcast raises. *)
Lemma bcast4_channel_mismatch {A B C : Type} (f : A -> B -> C) (m k : nat)
  (xs : list (list (list (list A)))) (ys : list (list (list (list B)))) :
  length xs = length ys -> (0 < length xs)%nat ->
  length (hd [] xs) = m -> length (hd [] ys) = k ->
  k <> m -> k <> 1%nat -> m <> 1%nat ->
  bcast4 f xs ys = None.
Proof.
  intros Hl Hpos Hm Hk Hne Hk1 Hm1. unfold bcast4.
  rewrite bcast_eq_len by exact Hl.
  destruct xs as [|x xs]; [simpl in Hpos; lia|].
  destruct ys as [|y ys]; [simpl in Hl; lia|].
  simpl in Hm, Hk. simpl combine. simpl mapM. cbn [fst snd].
  unfold bcast3 at 1. rewrite bcast_mismatch; [reflexivity | lia..].
Qed.

(** ** Tensor operations on shaped input *)

Lemma map4_shaped {A B : Type} (f : A -> B) (d : A) (b k h w : nat)
  (t : list (list (list (list A)))) :
  has_shape4 b k h w t ->
  map4 f t = tab b (fun n => tab k (fun c => tab h (fun i => tab w (fun j =>
               f (get4 d t n c i j))))).
Proof.
  intros Ht. rewrite (shaped4_as_tab d Ht) at 1. unfold map4, map3.
  rewrite map_tab. apply tab_ext. intros n _.
  rewrite map_tab. apply tab_ext. intros c _.
  rewrite map_tab. apply tab_ext. intros i _. now rewrite map_tab.
Qed.

Lemma from_numpy_get4 (b k h w : nat) (t : tensor4) (n c i j : nat) :
  has_shape4 b k h w t ->
  (n < b)%nat -> (c < k)%nat -> (i < h)%nat -> (j < w)%nat ->
  get4 (Fin 0) (from_numpy t) n c i j = Fin (at4 t n c i j).
Proof.
  intros Ht Hn Hc Hi Hj. unfold from_numpy, at4.
  now rewrite (get4_map4 Fin 0 Ht Hn Hc Hi Hj).
Qed.

Lemma entry4_tab {A : Type} (b k h w : nat)
  (f : nat -> nat -> nat -> nat -> A) (n c i j : nat) :
  (n < b)%nat -> (c < k)%nat -> (i < h)%nat -> (j < w)%nat ->
  entry4 (tab b (fun n => tab k (fun c => tab h (fun i => tab w (f n c i)))))
         n c i j = Some (f n c i j).
Proof.
  intros Hn Hc Hi Hj. unfold entry4.
  rewrite nth_error_tab by exact Hn. cbn [bind].
  rewrite nth_error_tab by exact Hc. cbn [bind].
  now apply pixel_tab.
Qed.

Lemma minus_ten_clip_closed (b m k h w : nat)
  (a : nat -> nat -> nat -> nat -> xval) (gt : xtensor4) :
  has_shape4 b k h w gt ->
  k = m \/ (k = 1%nat /\ m <> 1%nat) ->
  minus_ten_clip
    (tab b (fun n => tab m (fun c => tab h (fun i => tab w (a n c i))))) gt
  = Some (tab b (fun n => tab m (fun c => tab h (fun i => tab w (fun j =>
            xclip01 (xsub (a n c i j)
                          (xscale 10 (get4 (Fin 0) gt n (chan k c) i j)))))))).
Proof.
  intros Hgt Hk. unfold minus_ten_clip.
  rewrite (map4_shaped (xscale 10) (Fin 0) Hgt).
  rewrite (bcast4_channels xsub b h w a _ Hk). cbn [bind]. f_equal.
  unfold map4, map3.
  rewrite map_tab. apply tab_ext. intros n _.
  rewrite map_tab. apply tab_ext. intros c _.
  rewrite map_tab. apply tab_ext. intros i _. now rewrite map_tab.
Qed.

Lemma clip01_complement_zero (r : R) :
  1 / 10 <= r -> clip01 (1 - r * 10) = 0.
Proof. intros H. apply clip01_low. lra. Qed.

(** C6: the complement ground false is [clip(1 - ground_truth * 10)]
    entry by entry, in the NumPy form of [PseudoLabelGenerator01.forward]
    and in the tensor form of [RegressionDisparityx1.forward]; where the
    ground truth is at least 0.1 it is 0, so a ground truth of at least
    0.1 and a positive complement never meet. *)
Theorem complement_rule (gt : tensor4) (b k h w : nat) :
  has_shape4 b k h w gt ->
  exists gf,
    complement_ground_false (from_numpy gt) = Some gf /\
    forall n c i j,
      (n < b)%nat -> (c < k)%nat -> (i < h)%nat -> (j < w)%nat ->
      entry4 (np_complement gt) n c i j
        = Some (clip01 (1 - at4 gt n c i j * 10)) /\
      entry4 gf n c i j = Some (Fin (clip01 (1 - at4 gt n c i j * 10))) /\
      (1 / 10 <= at4 gt n c i j -> clip01 (1 - at4 gt n c i j * 10) = 0) /\
      ~ (1 / 10 <= at4 gt n c i j /\ 0 < clip01 (1 - at4 gt n c i j * 10)).
Proof.
  intros Hgt.
  assert (Hx : has_shape4 b k h w (from_numpy gt))
    by now apply from_numpy_shape.
  unfold complement_ground_false, ones_like.
  rewrite (map4_shaped (fun _ : xval => Fin 1) (Fin 0) Hx).
  rewrite (@minus_ten_clip_closed b k k h w _ _ Hx (or_introl eq_refl)).
  eexists. split; [reflexivity|].
  intros n c i j Hn Hc Hi Hj. split; [|split; [|split]].
  - rewrite (complement_closed Hgt). unfold complemented.
    rewrite (map4_shaped (fun v => clip01 (1 - v * 10)) 0 Hgt).
    now rewrite entry4_tab.
  - rewrite entry4_tab by assumption.
    assert (Hch : chan k c = c).
    { unfold chan. destruct (Nat.eqb_spec k 1); [lia | reflexivity]. }
    rewrite Hch, (from_numpy_get4 Hgt Hn Hc Hi Hj).
    cbn [xscale xsub xneg xadd xclip01]. reflexivity.
  - apply clip01_complement_zero.
  - intros [H1 H2]. rewrite (clip01_complement_zero H1) in H2. lra.
Qed.

Lemma complement_rule_witness :
  has_shape4 1 1 1 2 [[[[1; 0]]]] /\
  exists gf,
    complement_ground_false (from_numpy [[[[1; 0]]]]) = Some gf /\
    forall n c i j,
      (n < 1)%nat -> (c < 1)%nat -> (i < 1)%nat -> (j < 2)%nat ->
      entry4 (np_complement [[[[1; 0]]]]) n c i j
        = Some (clip01 (1 - at4 [[[[1; 0]]]] n c i j * 10)) /\
      entry4 gf n c i j
        = Some (Fin (clip01 (1 - at4 [[[[1; 0]]]] n c i j * 10))) /\
      (1 / 10 <= at4 [[[[1; 0]]]] n c i j ->
       clip01 (1 - at4 [[[[1; 0]]]] n c i j * 10) = 0) /\
      ~ (1 / 10 <= at4 [[[[1; 0]]]] n c i j /\
         0 < clip01 (1 - at4 [[[[1; 0]]]] n c i j * 10)).
Proof.
  assert (Hs : has_shape4 1 1 1 2 [[[[1; 0]]]])
    by (repeat (split || constructor)).
  split; [exact Hs|].
  exact (@complement_rule [[[[1; 0]]]] 1 1 1 2 Hs).
Defined.

(** ** The mode contract of the loss selector *)

Lemma mode_ok_false (mode : string) :
  mode <> "min"%string -> mode <> "max"%string -> mode_ok mode = false.
Proof.
  intros H1 H2. unfold mode_ok.
  apply String.eqb_neq in H1. apply String.eqb_neq in H2.
  now rewrite H1, H2.
Qed.

(** C9: [RegressionDisparity.forward] fails its assertion, before the
    generator is called and with nothing stored, for every mode other
    than [min] and [max]; for [min] it returns
    [criterion(y_adv, ground_truth, weight)] and for [max]
    [criterion(y_adv, ground_false, weight)], where the pair is what
    the generator returns on [y], and [weight] reaches the criterion as
    it was passed. *)
Theorem RegressionDisparity_mode_contract (L W : Type)
  (self : disparity L W) (y y_adv : tensor4) (weight : option W) :
  (forall mode, mode <> "min"%string -> mode <> "max"%string ->
     RegressionDisparity_forward self y y_adv weight mode
       = (AssertionError, self)) /\
  (forall gt gf, pseudo_label_generator self y = Some (gt, gf) ->
     fst (RegressionDisparity_forward self y y_adv weight "min")
       = Ok (criterion self y_adv gt weight) /\
     fst (RegressionDisparity_forward self y y_adv weight "max")
       = Ok (criterion self y_adv gf weight) /\
     forall mode, mode_ok mode = true ->
       ground_truth (snd (RegressionDisparity_forward self y y_adv weight mode))
         = Some gt /\
       ground_false (snd (RegressionDisparity_forward self y y_adv weight mode))
         = Some gf).
Proof.
  split.
  - intros mode H1 H2. unfold RegressionDisparity_forward.
    now rewrite (mode_ok_false H1 H2).
  - intros gt gf Hg. unfold RegressionDisparity_forward.
    split; [|split].
    + cbn [mode_ok String.eqb Ascii.eqb Bool.eqb orb andb]. rewrite Hg.
      reflexivity.
    + cbn [mode_ok String.eqb Ascii.eqb Bool.eqb orb andb]. rewrite Hg.
      reflexivity.
    + intros mode Hm. rewrite Hm, Hg. unfold select_loss.
      destruct (String.eqb mode "min"); split; reflexivity.
Qed.

Lemma RegressionDisparity_mode_contract_witness :
  RegressionDisparity_forward
    (new_disparity echo_criterion (fun _ => Some ([], [])))
    [] [] None "avg"
  = (AssertionError, new_disparity echo_criterion (fun _ => Some ([], [])))
  /\
  fst (RegressionDisparity_forward
         (new_disparity echo_criterion
            (fun _ => Some ([[[[Fin 1]]]], [[[[Fin 0]]]])))
         [] [] None "max")
  = Ok [[[[Fin 0]]]].
Proof.
  split.
  - apply (proj1 (@RegressionDisparity_mode_contract xtensor4 unit
             (new_disparity echo_criterion (fun _ => Some ([], [])))
             [] [] None)); discriminate.
  - apply (proj2 (@RegressionDisparity_mode_contract xtensor4 unit
             (new_disparity echo_criterion
                (fun _ => Some ([[[[Fin 1]]]], [[[[Fin 0]]]])))
             [] [] None) [[[[Fin 1]]]] [[[[Fin 0]]]] eq_refl).
Defined.

(** ** The presence map and its broadcast *)

Lemma repeat_tab {A : Type} (x : A) (n : nat) : repeat x n = tab n (fun _ => x).
Proof.
  induction n as [|n IH]; [reflexivity|].
  rewrite tab_S, <- IH. simpl. apply repeat_cons.
Qed.

Lemma pos_of_len {A : Type} (l : list A) (n : nat) :
  length l = n -> (0 < n)%nat -> (0 < length l)%nat.
Proof. intros -> H. exact H. Qed.

Lemma hd_nth0 {A : Type} (d : A) (l : list A) : hd d l = nth 0 l d.
Proof. destruct l; reflexivity. Qed.

Lemma sum_dim1_shaped (gt : xtensor4) (b k h w : nat) :
  has_shape4 b k h w gt -> (0 < k)%nat -> (0 < h)%nat ->
  sum_dim1 gt
  = tab b (fun n => tab h (fun i => tab w (fun j => presence gt n i j))).
Proof.
  intros Hgt Hk Hh. unfold sum_dim1. pose proof Hgt as [Hl _].
  apply eq_trans with
    (map (fun chans : list (list (list xval)) =>
            tab (length (hd [] chans)) (fun i =>
              tab (length (hd [] (hd [] chans))) (fun j =>
                xsum (map (fun m => get2 (Fin 0) m i j) chans))))
         (tab (length gt) (fun n => nth n gt []))).
  { now rewrite tab_nth. }
  replace (length gt) with b by (symmetry; exact Hl).
  rewrite map_tab. apply tab_ext. intros n Hn.
  pose proof (has_shape4_sample Hgt Hn) as H3.
  pose proof (has_shape3_channel H3 Hk) as H2.
  rewrite !hd_nth0.
  pose proof (has_shape2_row H2 Hh) as Hl1. destruct H2 as [Hl2 _].
  replace (length (nth 0 (nth n gt []) [])) with h by (symmetry; exact Hl2).
  replace (length (nth 0 (nth 0 (nth n gt []) []) [])) with w
    by (symmetry; exact Hl1).
  reflexivity.
Qed.

Lemma presence_label_closed (gt : xtensor4) (b k h w : nat) :
  has_shape4 b k h w gt -> (0 < k)%nat -> (0 < h)%nat ->
  unsqueeze_repeat 21 (map3 xclip01 (sum_dim1 gt))
  = tab b (fun n => tab 21 (fun _ => tab h (fun i => tab w (fun j =>
      xclip01 (presence gt n i j))))).
Proof.
  intros Hgt Hk Hh. rewrite (sum_dim1_shaped Hgt Hk Hh).
  unfold unsqueeze_repeat, map3. rewrite !map_tab.
  apply tab_ext. intros n _. rewrite repeat_tab. apply tab_ext. intros _ _.
  rewrite map_tab. apply tab_ext. intros i _. now rewrite map_tab.
Qed.

Lemma RegressionDisparity4_closed (gt : xtensor4) (b k h w : nat) :
  has_shape4 b k h w gt -> (0 < h)%nat -> k = 21%nat \/ k = 1%nat ->
  RegressionDisparity4_ground_false gt
  = Some (tab b (fun n => tab 21 (fun c => tab h (fun i => tab w (fun j =>
            xclip01 (xsub (xclip01 (presence gt n i j))
                          (xscale 10 (get4 (Fin 0) gt n (chan k c) i j)))))))).
Proof.
  intros Hgt Hh Hk. unfold RegressionDisparity4_ground_false.
  rewrite (presence_label_closed Hgt) by (assumption || lia).
  apply (@minus_ten_clip_closed b 21 k h w
           (fun n _ i j => xclip01 (presence gt n i j)) gt Hgt).
  destruct Hk as [->| ->]; [now left | right; split; [reflexivity | lia]].
Qed.

Lemma minus_ten_clip_mismatch (lp gt : xtensor4) (k : nat) :
  length lp = length gt -> (0 < length gt)%nat ->
  length (hd [] lp) = 21%nat -> length (hd [] gt) = k ->
  k <> 21%nat -> k <> 1%nat ->
  minus_ten_clip lp gt = None.
Proof.
  intros Hl Hpos Hlp Hgt H21 H1. unfold minus_ten_clip.
  assert (E1 : length (map4 (xscale 10) gt) = length gt)
    by (unfold map4; apply length_map).
  assert (E2 : length (hd [] (map4 (xscale 10) gt)) = k).
  { destruct gt as [|g0 gt']; [simpl in Hpos; lia|].
    unfold map4, map3. simpl. rewrite length_map. exact Hgt. }
  rewrite (@bcast4_channel_mismatch _ _ _ xsub 21 k);
    [ reflexivity
    | apply eq_trans with (length gt); [exact Hl | symmetry; exact E1]
    | eapply Nat.lt_le_trans;
        [exact Hpos | apply Nat.eq_le_incl; symmetry; exact Hl]
    | exact Hlp | exact E2 | lia..].
Qed.

Lemma length_hd_unsqueeze (n : nat) (t : xtensor3) :
  (0 < length t)%nat -> length (hd [] (unsqueeze_repeat n t)) = n.
Proof.
  intros Ht. destruct t as [|m t]; [simpl in Ht; lia|].
  simpl. apply repeat_length.
Qed.

Lemma length_unsqueeze (n : nat) (t : xtensor3) :
  length (unsqueeze_repeat n t) = length t.
Proof. unfold unsqueeze_repeat. apply length_map. Qed.

Lemma length_sum_dim1 (gt : xtensor4) : length (sum_dim1 gt) = length gt.
Proof. unfold sum_dim1. apply length_map. Qed.

Lemma RegressionDisparity4_mismatch (gt : xtensor4) (b k h w : nat) :
  has_shape4 b k h w gt -> (0 < b)%nat -> k <> 21%nat -> k <> 1%nat ->
  RegressionDisparity4_ground_false gt = None.
Proof.
  intros Hgt Hb H21 H1. pose proof Hgt as [Hl _].
  unfold RegressionDisparity4_ground_false.
  assert (Hpos : (0 < length gt)%nat) by exact (@pos_of_len _ _ _ Hl Hb).
  apply (@minus_ten_clip_mismatch _ gt k);
    [ | exact Hpos | | | exact H21 | exact H1].
  - rewrite length_unsqueeze. unfold map3.
    now rewrite length_map, length_sum_dim1.
  - apply length_hd_unsqueeze. unfold map3.
    rewrite length_map, length_sum_dim1. exact Hpos.
  - rewrite hd_nth0. now destruct (has_shape4_sample Hgt Hb).
Qed.

Lemma normalize_samples_length (b : nat) (t t' : xtensor3) :
  normalize_samples b t = Some t' -> length t' = b.
Proof.
  unfold normalize_samples. intros H.
  rewrite (mapM_length _ _ H). apply length_seq.
Qed.

Lemma aux_ground_false_mismatch (gt : xtensor4) (b k h w : nat)
  (lp : option xtensor3) :
  has_shape4 b k h w gt -> (0 < b)%nat -> k <> 21%nat -> k <> 1%nat ->
  bind lp (fun label_p =>
    bind (normalize_samples b label_p) (fun label_p' =>
      minus_ten_clip (unsqueeze_repeat 21 label_p') gt)) = None.
Proof.
  intros Hgt Hb H21 H1. pose proof Hgt as [Hl _].
  destruct lp as [label_p|]; [|reflexivity]. cbn [bind].
  destruct (normalize_samples b label_p) as [label_p'|] eqn:Hn;
    [|reflexivity].
  cbn [bind]. pose proof (normalize_samples_length _ _ Hn) as Hlen.
  assert (Hpos : (0 < length gt)%nat) by exact (@pos_of_len _ _ _ Hl Hb).
  apply (@minus_ten_clip_mismatch _ gt k);
    [ | exact Hpos | | | exact H21 | exact H1].
  - rewrite length_unsqueeze.
    apply eq_trans with b; [exact Hlen | symmetry; exact Hl].
  - apply length_hd_unsqueeze. exact (@pos_of_len _ _ _ Hlen Hb).
  - rewrite hd_nth0. now destruct (has_shape4_sample Hgt Hb).
Qed.

Lemma RegressionDisparity2_mismatch (gt gt1 gt2 : xtensor4) (b k h w : nat) :
  has_shape4 b k h w gt -> (0 < b)%nat -> k <> 21%nat -> k <> 1%nat ->
  RegressionDisparity2_ground_false b gt gt1 gt2 = None.
Proof.
  intros Hgt Hb H21 H1. unfold RegressionDisparity2_ground_false.
  destruct (bcast3 xadd (sum_dim1 gt1) (sum_dim1 gt)) as [s|];
    [|reflexivity].
  cbn [bind].
  exact (aux_ground_false_mismatch (bcast3 xadd s (sum_dim1 gt2))
           Hgt Hb H21 H1).
Qed.

Lemma RegressionDisparityx6_mismatch (gt : xtensor4) (y_adv2 : option tensor4)
  (b k h w : nat) :
  has_shape4 b k h w gt -> (0 < b)%nat -> k <> 21%nat -> k <> 1%nat ->
  RegressionDisparityx6_ground_false gt y_adv2 = None.
Proof.
  intros Hgt Hb H21 H1.
  unfold RegressionDisparityx6_ground_false, RegressionDisparityx6_combined.
  now rewrite (RegressionDisparity4_mismatch Hgt Hb H21 H1).
Qed.

(** The base generator on an all-zero batch of [k] channels. *)
Lemma base_on_zero64 (k : nat) :
  (0 < k)%nat ->
  exists gen gt gf,
    PseudoLabelGenerator_init (Z.of_nat k) 64 64 2 = Some gen /\
    PseudoLabelGenerator_forward gen (y_zero64 k)
      = Some (from_numpy gt, from_numpy gf) /\
    has_shape4 1 k 64 64 gt.
Proof.
  intros Hk.
  destruct (@PseudoLabelGenerator_forward_total (Z.of_nat k) 64 64 2
              (y_zero64 k) 1)
    as [gen [gt [gf [Hi [_ [Hf [Hgt _]]]]]]]; try lia.
  { rewrite Nat2Z.id. apply has_shape4_y_zero64. }
  exists gen, gt, gf. split; [exact Hi|]. split; [exact Hf|].
  rewrite Hgt.
  apply (has_shape4_gathered _ _ _ _ (has_shape4_y_zero64 k)); lia.
Qed.

(** C10 as stated fails: with one keypoint channel, which is not 21,
    the forward pass of [RegressionDisparity4] returns a value; its
    ground false has 21 channels. *)
Lemma single_channel_broadcasts :
  exists gen gf st,
    PseudoLabelGenerator_init 1 64 64 2 = Some gen /\
    shape4 (y_zero64 1) = (1, 1, 64, 64)%nat /\
    RegressionDisparity4_forward
      (new_disparity echo_criterion (PseudoLabelGenerator_forward gen))
      (y_zero64 1) (y_zero64 1) None "max"
    = (Ok gf, st) /\
    has_shape4 1 21 64 64 gf.
Proof.
  destruct (@base_on_zero64 1) as [gen [gt [gf0 [Hi [Hf Hgt]]]]]; [lia|].
  assert (Hx : has_shape4 1 1 64 64 (from_numpy gt))
    by now apply from_numpy_shape.
  assert (H64 : (0 < 64)%nat) by lia.
  exists gen. eexists. eexists.
  split; [exact Hi|].
  split; [apply (shape4_of (has_shape4_y_zero64 1)); lia|].
  unfold RegressionDisparity4_forward.
  cbn [mode_ok String.eqb Ascii.eqb Bool.eqb orb andb
       pseudo_label_generator new_disparity].
  rewrite Hf.
  rewrite (RegressionDisparity4_closed Hx H64 (or_intror eq_refl)).
  unfold select_loss.
  cbn [String.eqb Ascii.eqb Bool.eqb andb criterion new_disparity
       echo_criterion].
  split; [reflexivity|]. apply has_shape4_tab.
Qed.

(** ** The variants that normalise *)

Lemma mapM_seq {B : Type} (f : nat -> option B) (n : nat) (c : nat -> B) :
  (forall i, (i < n)%nat -> f i = Some (c i)) ->
  mapM f (seq 0 n) = Some (tab n c).
Proof.
  intros H. rewrite <- (map_id (seq 0 n)).
  exact (@mapM_tab nat B f n (fun i => i) c H).
Qed.

Lemma xmax_all_some (h w : nat) (f : nat -> nat -> xval) :
  (0 < h)%nat -> (0 < w)%nat ->
  xmax_all (tab h (fun i => tab w (f i))) = Some (slice_max f h w).
Proof.
  intros Hh Hw. unfold slice_max, xmax_all.
  destruct (flatten2 (tab h (fun i => tab w (f i)))) as [|a t] eqn:E;
    [|reflexivity].
  apply (f_equal (@length xval)) in E.
  rewrite length_flatten_tab in E. simpl in E. nia.
Qed.

Lemma div_by_max_closed (h w : nat) (f : nat -> nat -> xval) :
  (0 < h)%nat -> (0 < w)%nat ->
  div_by_max (tab h (fun i => tab w (f i)))
  = Some (tab h (fun i => tab w (fun j => xdiv (f i j) (slice_max f h w)))).
Proof.
  intros Hh Hw. unfold div_by_max.
  rewrite (xmax_all_some f Hh Hw). cbn [bind]. now rewrite map_map_tab.
Qed.

Lemma normalize_samples_closed (b h w : nat) (S : nat -> nat -> nat -> xval) :
  (0 < h)%nat -> (0 < w)%nat ->
  normalize_samples b (tab b (fun n => tab h (fun i => tab w (S n i))))
  = Some (tab b (fun n => tab h (fun i => tab w (fun j =>
            xdiv (S n i j) (slice_max (S n) h w))))).
Proof.
  intros Hh Hw. unfold normalize_samples. apply mapM_seq. intros n Hn.
  rewrite nth_error_tab by exact Hn. cbn [bind].
  now apply div_by_max_closed.
Qed.

Lemma bcast3_tab {A B C : Type} (f : A -> B -> C) (b h w : nat)
  (a : nat -> nat -> nat -> A) (a' : nat -> nat -> nat -> B) :
  bcast3 f (tab b (fun n => tab h (fun i => tab w (a n i))))
           (tab b (fun n => tab h (fun i => tab w (a' n i))))
  = Some (tab b (fun n => tab h (fun i => tab w (fun j =>
            f (a n i j) (a' n i j))))).
Proof.
  unfold bcast3. apply bcast_tab. intros n _. apply bcast2_tab.
Qed.

Lemma normalized_first_closed (S : nat -> nat -> nat -> xval)
  (gt : xtensor4) (b h w : nat) :
  has_shape4 b 21 h w gt -> (0 < h)%nat -> (0 < w)%nat ->
  bind (normalize_samples b
          (tab b (fun n => tab h (fun i => tab w (S n i)))))
       (fun label_p => minus_ten_clip (unsqueeze_repeat 21 label_p) gt)
  = Some (normalized_first S gt b h w).
Proof.
  intros Hgt Hh Hw. rewrite (normalize_samples_closed b S Hh Hw).
  cbn [bind]. unfold unsqueeze_repeat. rewrite map_tab.
  rewrite (@tab_ext _ b _
    (fun n => tab 21 (fun _ : nat => tab h (fun i => tab w (fun j =>
       xdiv (S n i j) (slice_max (S n) h w))))))
    by (intros n _; apply repeat_tab).
  rewrite (@minus_ten_clip_closed b 21 21 h w
             (fun n _ i j => xdiv (S n i j) (slice_max (S n) h w))
             gt Hgt (or_introl eq_refl)).
  reflexivity.
Qed.

Lemma RegressionDisparity2_closed (gt gt1 gt2 : xtensor4)
  (b k1 k2 h w : nat) :
  has_shape4 b 21 h w gt -> has_shape4 b k1 h w gt1 ->
  has_shape4 b k2 h w gt2 ->
  (0 < k1)%nat -> (0 < k2)%nat -> (0 < h)%nat -> (0 < w)%nat ->
  RegressionDisparity2_ground_false b gt gt1 gt2
  = Some (normalized_first (summed2 gt gt1 gt2) gt b h w).
Proof.
  intros Hgt Hgt1 Hgt2 Hk1 Hk2 Hh Hw.
  unfold RegressionDisparity2_ground_false.
  rewrite (sum_dim1_shaped Hgt) by (assumption || lia).
  rewrite (sum_dim1_shaped Hgt1) by assumption.
  rewrite (sum_dim1_shaped Hgt2) by assumption.
  rewrite bcast3_tab. cbn [bind]. rewrite bcast3_tab. cbn [bind].
  exact (normalized_first_closed (summed2 gt gt1 gt2) Hgt Hh Hw).
Qed.

Lemma map3_tab {A B : Type} (f : A -> B) (b h w : nat)
  (a : nat -> nat -> nat -> A) :
  map3 f (tab b (fun n => tab h (fun i => tab w (a n i))))
  = tab b (fun n => tab h (fun i => tab w (fun j => f (a n i j)))).
Proof.
  unfold map3. rewrite map_tab. apply tab_ext. intros n _.
  apply map_map_tab.
Qed.

Lemma RegressionDisparity3_closed (gt gt1 gt2 : xtensor4)
  (b k1 k2 h w : nat) :
  has_shape4 b 21 h w gt -> has_shape4 b k1 h w gt1 ->
  has_shape4 b k2 h w gt2 ->
  (0 < k1)%nat -> (0 < k2)%nat -> (0 < h)%nat -> (0 < w)%nat ->
  RegressionDisparity3_ground_false b gt gt1 gt2
  = Some (normalized_first (summed3 gt gt1 gt2) gt b h w).
Proof.
  intros Hgt Hgt1 Hgt2 Hk1 Hk2 Hh Hw.
  unfold RegressionDisparity3_ground_false.
  rewrite (sum_dim1_shaped Hgt) by (assumption || lia).
  rewrite (sum_dim1_shaped Hgt1) by assumption.
  rewrite (sum_dim1_shaped Hgt2) by assumption.
  rewrite !map3_tab.
  rewrite bcast3_tab. cbn [bind]. rewrite bcast3_tab. cbn [bind].
  exact (normalized_first_closed (summed3 gt gt1 gt2) Hgt Hh Hw).
Qed.

(** ** The combination rule of the specification *)

Lemma xadd_0_r (a : xval) : xadd a (Fin 0) = a.
Proof. destruct a; simpl; try reflexivity. f_equal. lra. Qed.

Lemma spec_presence_single (gt : xtensor4) (n i j : nat) :
  spec_presence [gt] n i j = xclip01 (presence gt n i j).
Proof.
  unfold spec_presence, presence. cbn [map xsum]. now rewrite xadd_0_r.
Qed.

Lemma normalize_channels_closed (b k h w : nat)
  (f : nat -> nat -> nat -> nat -> xval) :
  (0 < h)%nat -> (0 < w)%nat ->
  normalize_channels b k
    (tab b (fun n => tab k (fun c => tab h (fun i => tab w (f n c i)))))
  = Some (tab b (fun n => tab k (fun c => tab h (fun i => tab w (fun j =>
            xdiv (f n c i j) (slice_max (f n c) h w)))))).
Proof.
  intros Hh Hw. unfold normalize_channels. apply mapM_seq. intros n Hn.
  apply mapM_seq. intros c Hc.
  rewrite nth_error_tab by exact Hn. cbn [bind].
  rewrite nth_error_tab by exact Hc. cbn [bind].
  now apply div_by_max_closed.
Qed.

Lemma spec_renormalize_closed (b k h w : nat)
  (f : nat -> nat -> nat -> nat -> xval) :
  (0 < h)%nat -> (0 < w)%nat ->
  spec_renormalize
    (tab b (fun n => tab k (fun c => tab h (fun i => tab w (f n c i)))))
  = tab b (fun n => tab k (fun c => tab h (fun i => tab w (fun j =>
      xdiv (f n c i j) (slice_max (f n c) h w))))).
Proof.
  intros Hh Hw. unfold spec_renormalize. rewrite map_map_tab.
  apply tab_ext. intros n _. apply tab_ext. intros c _.
  rewrite (xmax_all_some (f n c) Hh Hw). now rewrite map_map_tab.
Qed.

(** C3, as the code has it: [RegressionDisparity4] builds its ground
    false by exactly the sequence sum, clip, repeat over the (21)
    channels, subtract [ground_truth*10], clip, with no
    renormalisation; [RegressionDisparityx6], called without [y_adv2],
    appends the division of every channel slice by its maximum.
    [RegressionDisparity2] and [RegressionDisparity3] compute something
    else: they add the presence maps of three ground truths
    ([RegressionDisparity3] clipping each first), divide every sample
    of the sum by its own maximum before the repeat, and then subtract
    and clip. *)
Theorem combination_rule (gt gt1 gt2 : xtensor4) (b k1 k2 h w : nat) :
  has_shape4 b 21 h w gt -> has_shape4 b k1 h w gt1 ->
  has_shape4 b k2 h w gt2 ->
  (0 < b)%nat -> (0 < k1)%nat -> (0 < k2)%nat ->
  (0 < h)%nat -> (0 < w)%nat ->
  RegressionDisparity4_ground_false gt
    = Some (spec_ground_false false [gt] gt) /\
  RegressionDisparityx6_ground_false gt None
    = Some (spec_ground_false true [gt] gt) /\
  RegressionDisparity2_ground_false b gt gt1 gt2
    = Some (normalized_first (summed2 gt gt1 gt2) gt b h w) /\
  RegressionDisparity3_ground_false b gt gt1 gt2
    = Some (normalized_first (summed3 gt gt1 gt2) gt b h w).
Proof.
  intros Hgt Hgt1 Hgt2 Hb Hk1 Hk2 Hh Hw.
  assert (H21 : (0 < 21)%nat) by lia.
  assert (Hspec : spec_combined [gt] gt
            = tab b (fun n => tab 21 (fun c => tab h (fun i => tab w (fun j =>
                xclip01 (xsub (xclip01 (presence gt n i j))
                   (xscale 10 (get4 (Fin 0) gt n (chan 21 c) i j)))))))).
  { unfold spec_combined. rewrite (shape4_of Hgt Hb H21 Hh).
    apply tab_ext. intros n _. apply tab_ext. intros c _.
    apply tab_ext. intros i _. apply tab_ext. intros j _.
    now rewrite spec_presence_single. }
  pose proof (RegressionDisparity4_closed Hgt Hh (or_introl eq_refl)) as H4.
  split; [|split; [|split]].
  - unfold spec_ground_false. now rewrite Hspec.
  - unfold RegressionDisparityx6_ground_false, RegressionDisparityx6_combined.
    rewrite H4. cbn [bind].
    unfold normalize_by_shape.
    rewrite (shape4_of (has_shape4_tab b 21 h w _) Hb H21 Hh).
    rewrite (normalize_channels_closed b 21 _ Hh Hw).
    unfold spec_ground_false. rewrite Hspec.
    now rewrite (spec_renormalize_closed b 21 _ Hh Hw).
  - exact (RegressionDisparity2_closed Hgt Hgt1 Hgt2 Hk1 Hk2 Hh Hw).
  - exact (RegressionDisparity3_closed Hgt Hgt1 Hgt2 Hk1 Hk2 Hh Hw).
Qed.

(** ** The generator on [y_row] *)

Lemma peak_of_row : peak_of 4 [[1; 0; 0; 0]] = (0, 0)%Z.
Proof.
  unfold peak_of, decode_image.
  change (flatten2 [[1; 0; 0; 0]]) with [1; 0; 0; 0].
  rewrite (@argmax_first [1; 0; 0; 0] 0%nat 1).
  - reflexivity.
  - simpl. lia.
  - reflexivity.
  - intros j Hj. lia.
  - intros j Hj. simpl in Hj.
    destruct j as [|[|[|[|j]]]]; simpl; try lra. lia.
Qed.

Lemma has_shape4_y_row : has_shape4 1 21 1 4 y_row.
Proof.
  exact (has_shape4_tab 1 21 1 4 (fun _ _ _ j => nth j [1; 0; 0; 0] 0)).
Qed.

Lemma has_shape4_row_truth : has_shape4 1 21 1 4 row_truth.
Proof. apply has_shape4_tab. Qed.

Lemma forward_y_row :
  exists gen gf,
    PseudoLabelGenerator_init 21 1 4 1 = Some gen /\
    PseudoLabelGenerator_forward gen y_row
      = Some (from_numpy row_truth, from_numpy gf).
Proof.
  destruct (@PseudoLabelGenerator_forward_total 21%Z 1%Z 4%Z 1%Z y_row 1%nat)
    as (gen & gt & gf & Hi & _ & Hf & Hgt & Hhm);
    try lia; [exact has_shape4_y_row|].
  exists gen, gf. split; [exact Hi|]. rewrite Hf. do 3 f_equal.
  rewrite Hgt, Hhm. unfold gathered_truth.
  change (shape4 y_row) with (1, 21, 1, 4)%nat.
  unfold row_truth. apply tab_ext. intros n Hn. apply tab_ext. intros k Hk.
  assert (n = 0%nat) by lia. subst n.
  change (nth 0 y_row []) with (tab 21 (fun _ : nat => [[1; 0; 0; 0]])).
  rewrite nth_tab by exact Hk. rewrite peak_of_row.
  apply tab_ext. intros i Hi'. apply tab_ext. intros j Hj.
  cbn [fst snd]. unfold template_bank, template, at2, get2.
  rewrite !nth_tab by (simpl; lia). reflexivity.
Qed.

Lemma combination_rule_witness :
  (has_shape4 1 21 1 4 (from_numpy row_truth) /\
   (0 < 1)%nat /\ (0 < 21)%nat /\ (0 < 4)%nat) /\
  (RegressionDisparity4_ground_false (from_numpy row_truth)
     = Some (spec_ground_false false [from_numpy row_truth]
                               (from_numpy row_truth)) /\
   RegressionDisparityx6_ground_false (from_numpy row_truth) None
     = Some (spec_ground_false true [from_numpy row_truth]
                               (from_numpy row_truth)) /\
   RegressionDisparity2_ground_false 1 (from_numpy row_truth)
       (from_numpy row_truth) (from_numpy row_truth)
     = Some (normalized_first
               (summed2 (from_numpy row_truth) (from_numpy row_truth)
                        (from_numpy row_truth))
               (from_numpy row_truth) 1 1 4) /\
   RegressionDisparity3_ground_false 1 (from_numpy row_truth)
       (from_numpy row_truth) (from_numpy row_truth)
     = Some (normalized_first
               (summed3 (from_numpy row_truth) (from_numpy row_truth)
                        (from_numpy row_truth))
               (from_numpy row_truth) 1 1 4)).
Proof.
  assert (Hs : has_shape4 1 21 1 4 (from_numpy row_truth))
    by exact (from_numpy_shape has_shape4_row_truth).
  split; [split; [exact Hs|lia]|].
  apply (@combination_rule (from_numpy row_truth) (from_numpy row_truth)
           (from_numpy row_truth) 1%nat 21%nat 21%nat 1%nat 4%nat);
    solve [exact Hs | lia].
Defined.

(** ** Where the normalised sum departs from the combination rule *)

Lemma from_numpy_row_truth :
  from_numpy row_truth
  = tab 1 (fun _ => tab 21 (fun _ => tab 1 (fun i => tab 4 (fun j =>
      Fin (template_value 1 3 0 0 (Z.of_nat i) (Z.of_nat j)))))).
Proof.
  unfold from_numpy.
  rewrite (map4_shaped Fin 0 has_shape4_row_truth).
  apply tab_ext. intros n Hn. apply tab_ext. intros c Hc.
  apply tab_ext. intros i Hi. apply tab_ext. intros j Hj.
  unfold row_truth. now rewrite get4_tab.
Qed.

Lemma xsum_const {A : Type} (l : list A) (r : R) :
  xsum (map (fun _ => Fin r) l) = Fin (INR (length l) * r).
Proof.
  induction l as [|a l IH].
  - simpl. f_equal. lra.
  - cbn [map xsum]. rewrite IH. cbn [xadd]. f_equal.
    rewrite length_cons, S_INR. lra.
Qed.

Lemma presence_tab (b k h w : nat) (f : nat -> nat -> nat -> nat -> xval)
  (n i j : nat) :
  (n < b)%nat -> (i < h)%nat -> (j < w)%nat ->
  presence (tab b (fun n => tab k (fun c => tab h (fun i => tab w (f n c i)))))
           n i j
  = xsum (tab k (fun c => f n c i j)).
Proof.
  intros Hn Hi Hj. unfold presence. rewrite nth_tab by exact Hn.
  rewrite map_tab. f_equal. apply tab_ext. intros c _.
  unfold get2. now rewrite !nth_tab.
Qed.

Lemma presence_row (j : nat) :
  (j < 4)%nat ->
  presence (from_numpy row_truth) 0 0 j
  = Fin (21 * template_value 1 3 0 0 0 (Z.of_nat j)).
Proof.
  intros Hj. rewrite from_numpy_row_truth.
  rewrite presence_tab by lia. unfold tab at 1.
  rewrite (xsum_const (seq 0 21)). rewrite length_seq. f_equal.
  change (Z.of_nat 0) with 0%Z. simpl INR. lra.
Qed.

Lemma get4_row (c j : nat) :
  (c < 21)%nat -> (j < 4)%nat ->
  get4 (Fin 0) (from_numpy row_truth) 0 c 0 j
  = Fin (template_value 1 3 0 0 0 (Z.of_nat j)).
Proof.
  intros Hc Hj. rewrite from_numpy_row_truth. now rewrite get4_tab by lia.
Qed.

Lemma slice_max_ext (f g : nat -> nat -> xval) (h w : nat) :
  (forall i j, (i < h)%nat -> (j < w)%nat -> f i j = g i j) ->
  slice_max f h w = slice_max g h w.
Proof.
  intros H. unfold slice_max.
  replace (tab h (fun i => tab w (f i))) with (tab h (fun i => tab w (g i)));
    [reflexivity|].
  apply tab_ext. intros i Hi. apply tab_ext. intros j Hj.
  symmetry. now apply H.
Qed.

Lemma slice_max_row (a : nat -> R) :
  slice_max (fun _ j => Fin (a j)) 1 4
  = Fin (Rmax (Rmax (Rmax (a 0%nat) (a 1%nat)) (a 2%nat)) (a 3%nat)).
Proof. reflexivity. Qed.

Lemma exp_far_small : 0 < exp (- 9 / 2) < 1 / 10.
Proof.
  replace (- 9 / 2) with (- (9 / 2)) by lra.
  assert (H1 : 13 / 4 < exp (9 / 4))
    by (pose proof (exp_ineq1 (9 / 4)); lra).
  assert (H2 : exp (9 / 2) = exp (9 / 4) * exp (9 / 4)).
  { rewrite <- exp_plus. f_equal. lra. }
  assert (H3 : exp (- (9 / 2)) * exp (9 / 2) = 1).
  { rewrite <- exp_plus. rewrite <- exp_0. f_equal. lra. }
  pose proof (exp_pos (- (9 / 2))) as H4.
  assert (H5 : 10 < exp (9 / 2)) by nra.
  split; [exact H4|]. nra.
Qed.

Lemma row_value_far :
  0 < template_value 1 3 0 0 0 (Z.of_nat 3) < 1 / 10.
Proof.
  rewrite template_value_inside by (simpl; lia).
  change (IZR ((Z.of_nat 3 - 0) ^ 2 + (0 - 0) ^ 2)) with 9.
  change (IZR (2 * 1 ^ 2)) with 2.
  exact exp_far_small.
Qed.

Lemma row_value_peak : template_value 1 3 0 0 0 (Z.of_nat 0) = 1.
Proof. apply template_value_peak; lia. Qed.

Lemma clip01_pos (x : R) : 0 < x -> 0 < clip01 x.
Proof.
  intros H. unfold clip01, Rmin, Rmax.
  destruct (Rle_dec x 0); destruct (Rle_dec _ 1); lra.
Qed.

Lemma presence_minus_peak (q t : R) :
  0 < t < 1 / 10 -> 11 * t <= q -> 0 < clip01 (clip01 q + - (t * 10)).
Proof.
  intros Ht Hq. apply clip01_pos.
  destruct (Rle_dec q 1).
  - rewrite clip01_id by lra. lra.
  - rewrite clip01_high by lra. lra.
Qed.

Lemma spec_presence_row (srcs : list xtensor4) :
  srcs = [from_numpy row_truth] \/
  srcs = [from_numpy row_truth; from_numpy row_truth; from_numpy row_truth] ->
  exists m, 11 <= m /\
    forall j, (j < 4)%nat ->
      spec_presence srcs 0 0 j
      = Fin (clip01 (m * template_value 1 3 0 0 0 (Z.of_nat j))).
Proof.
  intros [-> | ->]; [exists 21 | exists 63]; (split; [lra|]);
    intros j Hj; pose proof (presence_row Hj) as Hp; unfold presence in Hp;
    unfold spec_presence; cbn [map xsum]; rewrite !Hp;
    cbn [xadd xclip01]; do 2 f_equal; lra.
Qed.

Lemma Rmax4_last (a b c d : R) : d <= Rmax (Rmax (Rmax a b) c) d.
Proof. apply Rmax_r. Qed.

Lemma Rmax4_first (a b c d : R) : a <= Rmax (Rmax (Rmax a b) c) d.
Proof.
  eapply Rle_trans; [|apply Rmax_l].
  eapply Rle_trans; [|apply Rmax_l]. apply Rmax_l.
Qed.

Lemma xdiv_fin (x y : R) : y <> 0 -> xdiv (Fin x) (Fin y) = Fin (x / y).
Proof.
  intros Hy. unfold xdiv. destruct (Req_dec_T y 0); [contradiction|reflexivity].
Qed.

Lemma summed2_row (j : nat) :
  (j < 4)%nat ->
  summed2 (from_numpy row_truth) (from_numpy row_truth) (from_numpy row_truth)
          0 0 j
  = Fin (63 * template_value 1 3 0 0 0 (Z.of_nat j)).
Proof.
  intros Hj. unfold summed2. rewrite (presence_row Hj). cbn [xadd].
  f_equal. lra.
Qed.

(** On the ground truth that the base generator gathers from [y_row],
    [RegressionDisparity2] (all three labels being [y_row]) builds a
    ground false whose entry [(0, 0, 0, 3)] is 0, while the sequence
    sum, clip, repeat, subtract, clip, with or without the
    renormalisation, and over the primary ground truth or over all
    three, leaves a positive entry there. *)
Lemma normalised_sum_departs :
  exists gen gf_gen gf,
    PseudoLabelGenerator_init 21 1 4 1 = Some gen /\
    PseudoLabelGenerator_forward gen y_row
      = Some (from_numpy row_truth, gf_gen) /\
    RegressionDisparity2_ground_false 1 (from_numpy row_truth)
      (from_numpy row_truth) (from_numpy row_truth) = Some gf /\
    entry4 gf 0 0 0 3 = Some (Fin 0) /\
    forall renorm srcs,
      srcs = [from_numpy row_truth] \/
      srcs = [from_numpy row_truth; from_numpy row_truth;
              from_numpy row_truth] ->
      exists v,
        entry4 (spec_ground_false renorm srcs (from_numpy row_truth)) 0 0 0 3
          = Some (Fin v) /\ 0 < v.
Proof.
  destruct forward_y_row as (gen & gfn & Hinit & Hfwd).
  assert (Hs : has_shape4 1 21 1 4 (from_numpy row_truth))
    by exact (from_numpy_shape has_shape4_row_truth).
  pose proof row_value_far as Hfar. pose proof row_value_peak as Hpeak.
  set (t := fun j : nat => template_value 1 3 0 0 0 (Z.of_nat j)) in *.
  assert (Ht : forall j, 0 <= t j <= 1)
    by (intros j; apply template_value_range).
  exists gen, (from_numpy gfn). eexists.
  split; [exact Hinit|]. split; [exact Hfwd|]. split.
  { apply (@RegressionDisparity2_closed _ _ _ 1%nat 21%nat 21%nat 1%nat 4%nat);
      solve [exact Hs | lia]. }
  split.
  - unfold normalized_first. rewrite entry4_tab by lia.
    rewrite (@summed2_row 3) by lia.
    rewrite (@slice_max_ext _ (fun _ j => Fin (63 * t j)) 1 4).
    2:{ intros i j Hi Hj. assert (i = 0%nat) by lia. subst i.
        now apply summed2_row. }
    rewrite (slice_max_row (fun j => 63 * t j)).
    rewrite (@get4_row 0 3) by lia.
    fold (t 3%nat).
    set (M := Rmax (Rmax (Rmax (63 * t 0%nat) (63 * t 1%nat)) (63 * t 2%nat))
                   (63 * t 3%nat)).
    assert (HM : 63 <= M).
    { unfold M. eapply Rle_trans; [|apply Rmax4_first].
      unfold t at 1. rewrite Hpeak. lra. }
    rewrite xdiv_fin by lra.
    cbn [xscale xsub xneg xadd xclip01]. do 2 f_equal.
    apply clip01_low.
    assert (Hq : 63 * t 3%nat / M <= t 3%nat).
    { apply (Rmult_le_reg_r M); [lra|]. unfold Rdiv.
      rewrite Rmult_assoc, Rinv_l by lra. unfold t in *. nra. }
    unfold t in *. lra.
  - intros renorm srcs Hsrc.
    destruct (spec_presence_row Hsrc) as (m & Hm & Hpres).
    assert (Hcomb : spec_combined srcs (from_numpy row_truth)
      = tab 1 (fun n => tab 21 (fun c => tab 1 (fun i => tab 4 (fun j =>
          xclip01 (xsub (spec_presence srcs n i j)
            (xscale 10 (get4 (Fin 0) (from_numpy row_truth) n c i j)))))))).
    { unfold spec_combined.
      now rewrite (@shape4_of _ 1 21 1 4 _ Hs) by lia. }
    set (v := fun j : nat => clip01 (clip01 (m * t j) + - (t j * 10))).
    assert (Hv : forall j, (j < 4)%nat ->
      xclip01 (xsub (spec_presence srcs 0 0 j)
        (xscale 10 (get4 (Fin 0) (from_numpy row_truth) 0 0 0 j)))
      = Fin (v j)).
    { intros j Hj. rewrite (Hpres j Hj), (@get4_row 0 j) by lia.
      reflexivity. }
    assert (Hv3 : 0 < v 3%nat).
    { unfold v. apply presence_minus_peak; unfold t in *; [exact Hfar|nra]. }
    unfold spec_ground_false. rewrite Hcomb. destruct renorm.
    + rewrite spec_renormalize_closed by lia.
      rewrite entry4_tab by lia. rewrite (Hv 3%nat) by lia.
      rewrite (@slice_max_ext _ (fun _ j => Fin (v j)) 1 4).
      2:{ intros i j Hi Hj. assert (i = 0%nat) by lia. subst i.
          now apply Hv. }
      rewrite (slice_max_row v).
      pose proof (Rmax4_last (v 0%nat) (v 1%nat) (v 2%nat) (v 3%nat)) as HM.
      rewrite xdiv_fin by lra.
      eexists. split; [reflexivity|].
      apply Rdiv_lt_0_compat; lra.
    + rewrite entry4_tab by lia. rewrite (Hv 3%nat) by lia.
      exists (v 3%nat). split; [reflexivity|exact Hv3].
Qed.

(** ** A slice that is zero everywhere *)

Lemma fold_xmax2_zero (l : list xval) :
  Forall (fun v => v = Fin 0) l -> fold_left xmax2 l (Fin 0) = Fin 0.
Proof.
  induction 1 as [|a l Ha _ IH]; [reflexivity|].
  subst a. cbn [fold_left xmax2].
  replace (Rmax 0 0) with 0; [exact IH|].
  unfold Rmax. destruct (Rle_dec 0 0); reflexivity.
Qed.

Lemma slice_max_zero (f : nat -> nat -> xval) (h w : nat) :
  (0 < h)%nat -> (0 < w)%nat ->
  (forall i j, (i < h)%nat -> (j < w)%nat -> f i j = Fin 0) ->
  slice_max f h w = Fin 0.
Proof.
  intros Hh Hw Hz.
  rewrite (@slice_max_ext f (fun _ _ => Fin 0) h w Hz).
  unfold slice_max, xmax_all.
  assert (Hall : Forall (fun v => v = Fin 0)
            (flatten2 (tab h (fun _ => tab w (fun _ : nat => Fin 0))))).
  { unfold flatten2. apply Forall_forall. intros v Hv.
    apply in_concat in Hv. destruct Hv as (r & Hr & Hv).
    unfold tab in Hr. apply in_map_iff in Hr. destruct Hr as (i & <- & _).
    apply in_map_iff in Hv. now destruct Hv as (j & <- & _). }
  pose proof (length_flatten_tab h w (fun _ _ : nat => Fin 0)) as Hlen.
  destruct (flatten2 _) as [|a t].
  - simpl in Hlen. nia.
  - inversion Hall as [|? ? Ha Ht]; subst.
    now rewrite fold_xmax2_zero.
Qed.

Lemma xdiv_zero_zero : xdiv (Fin 0) (Fin 0) = NaN.
Proof.
  unfold xdiv. destruct (Req_dec_T 0 0) as [_|H]; [reflexivity|].
  exfalso. now apply H.
Qed.

Lemma div_by_max_zero_slice (f : nat -> nat -> xval) (h w : nat) :
  (0 < h)%nat -> (0 < w)%nat ->
  (forall i j, (i < h)%nat -> (j < w)%nat -> f i j = Fin 0) ->
  div_by_max (tab h (fun i => tab w (f i)))
  = Some (tab h (fun _ => tab w (fun _ => NaN))).
Proof.
  intros Hh Hw Hz. rewrite div_by_max_closed by assumption. f_equal.
  apply tab_ext. intros i Hi. apply tab_ext. intros j Hj.
  rewrite (@slice_max_zero f h w Hh Hw Hz), (Hz i j Hi Hj). exact xdiv_zero_zero.
Qed.

Lemma normalize_zero_tensor (b k h w : nat) :
  (0 < b)%nat -> (0 < k)%nat -> (0 < h)%nat -> (0 < w)%nat ->
  normalize_by_shape
    (tab b (fun _ => tab k (fun _ => tab h (fun _ => tab w (fun _ : nat =>
       Fin 0)))))
  = Some (tab b (fun _ => tab k (fun _ => tab h (fun _ => tab w (fun _ : nat =>
       NaN))))).
Proof.
  intros Hb Hk Hh Hw. unfold normalize_by_shape.
  rewrite (shape4_of (has_shape4_tab b k h w (fun _ _ _ _ => Fin 0)) Hb Hk Hh).
  rewrite (normalize_channels_closed b k (fun _ _ _ _ => Fin 0) Hh Hw).
  f_equal. apply tab_ext. intros n _. apply tab_ext. intros c _.
  apply tab_ext. intros i _. apply tab_ext. intros j _.
  rewrite (@slice_max_zero (fun _ _ => Fin 0) h w Hh Hw) by reflexivity.
  exact xdiv_zero_zero.
Qed.

Lemma combined_row_zero :
  RegressionDisparityx6_combined (from_numpy row_truth) (Some y_adv2_neg)
  = Some (row_const (Fin 0)).
Proof.
  assert (Hs : has_shape4 1 21 1 4 (from_numpy row_truth))
    by exact (from_numpy_shape has_shape4_row_truth).
  unfold RegressionDisparityx6_combined.
  rewrite (@RegressionDisparity4_closed _ 1 21 1 4 Hs) by (auto; lia).
  cbn [bind].
  change (from_numpy y_adv2_neg)
    with (tab 1 (fun _ => tab 21 (fun _ => tab 1 (fun _ => tab 4
            (fun _ : nat => Fin (-1)))))).
  rewrite (@bcast4_channels _ _ _ xadd 1 21 21 1 4) by (left; reflexivity).
  cbn [bind].
  rewrite (map4_shaped (xscale 100) (Fin 0) Hs).
  rewrite (@bcast4_channels _ _ _ xsub 1 21 21 1 4) by (left; reflexivity).
  cbn [bind]. f_equal.
  rewrite (map4_shaped xclip01 (Fin 0) (has_shape4_tab 1 21 1 4 _)).
  unfold row_const.
  apply tab_ext. intros n Hn. apply tab_ext. intros c Hc.
  apply tab_ext. intros i Hi. apply tab_ext. intros j Hj.
  rewrite get4_tab by assumption.
  assert (n = 0%nat) by lia. assert (i = 0%nat) by lia. subst n i.
  assert (Hch : chan 21 c = c) by reflexivity. rewrite !Hch.
  rewrite (presence_row Hj), (get4_row Hc Hj).
  pose proof (template_value_range 1 3 0 0 0 (Z.of_nat j)) as Ht.
  cbn [xscale xsub xneg xadd xclip01]. f_equal.
  apply clip01_low.
  match goal with |- clip01 ?u + _ + _ <= 0 =>
    pose proof (clip01_range u) end.
  lra.
Qed.

Lemma presence_row_const (j : nat) :
  (j < 4)%nat -> presence (row_const (Fin 0)) 0 0 j = Fin 0.
Proof.
  intros Hj. unfold row_const. rewrite presence_tab by lia.
  unfold tab at 1. rewrite (xsum_const (seq 0 21)). f_equal. lra.
Qed.

Lemma summed2_row_const (i j : nat) :
  (i < 1)%nat -> (j < 4)%nat ->
  summed2 (row_const (Fin 0)) (row_const (Fin 0)) (row_const (Fin 0)) 0 i j
  = Fin 0.
Proof.
  intros Hi Hj. assert (i = 0%nat) by lia. subst i.
  unfold summed2. rewrite (presence_row_const Hj). cbn [xadd].
  f_equal. lra.
Qed.

(** C8, as the code has it: the division of a slice by its maximum has
    no guard.  On [y_row], with an adversarial output that is [-1]
    everywhere, [RegressionDisparityx6] builds a ground false that is 0
    everywhere before the normalisation; every channel slice is then
    divided by its maximum 0, and the forward pass hands a tensor of
    [nan] to the criterion (nothing raises).  The per-sample division
    of [RegressionDisparity2] behaves alike on ground truths that are
    zero. *)
Theorem zero_slice_division_yields_nan :
  exists gen gf_gen,
    PseudoLabelGenerator_init 21 1 4 1 = Some gen /\
    PseudoLabelGenerator_forward gen y_row
      = Some (from_numpy row_truth, gf_gen) /\
    RegressionDisparityx6_combined (from_numpy row_truth) (Some y_adv2_neg)
      = Some (row_const (Fin 0)) /\
    normalize_by_shape (row_const (Fin 0)) = Some (row_const NaN) /\
    fst (RegressionDisparityx6_forward
           (new_disparity echo_criterion (PseudoLabelGenerator_forward gen))
           y_row y_row (Some y_adv2_neg) None "max")
      = Ok (row_const NaN) /\
    RegressionDisparity2_ground_false 1 (row_const (Fin 0))
      (row_const (Fin 0)) (row_const (Fin 0)) = Some (row_const NaN).
Proof.
  destruct forward_y_row as (gen & gfn & Hinit & Hfwd).
  assert (Hnorm : normalize_by_shape (row_const (Fin 0))
                  = Some (row_const NaN))
    by (apply normalize_zero_tensor; lia).
  exists gen, (from_numpy gfn).
  split; [exact Hinit|]. split; [exact Hfwd|].
  split; [exact combined_row_zero|]. split; [exact Hnorm|]. split.
  - unfold RegressionDisparityx6_forward, new_disparity.
    cbn [pseudo_label_generator]. rewrite Hfwd.
    change (mode_ok "max") with true. cbv iota.
    unfold RegressionDisparityx6_ground_false.
    rewrite combined_row_zero. cbn [bind]. rewrite Hnorm.
    reflexivity.
  - assert (Hz : has_shape4 1 21 1 4 (row_const (Fin 0)))
      by apply has_shape4_tab.
    rewrite (@RegressionDisparity2_closed _ _ _ 1 21 21 1 4 Hz Hz Hz)
      by lia.
    f_equal. unfold normalized_first, row_const.
    apply tab_ext. intros n Hn. apply tab_ext. intros c Hc.
    apply tab_ext. intros i Hi. apply tab_ext. intros j Hj.
    assert (n = 0%nat) by lia. subst n.
    fold (row_const (Fin 0)).
    rewrite (summed2_row_const Hi Hj).
    rewrite (@slice_max_zero _ 1 4) by (try lia; apply summed2_row_const).
    rewrite xdiv_zero_zero. reflexivity.
Qed.

(** * Further properties of the module *)

(** ** The banks of the other generators *)

Lemma template_bank_window (K ht wd s t : Z) (x y iy ix : Z) :
  (0 <= t)%Z ->
  (0 <= x < wd)%Z -> (0 <= y < ht)%Z -> (0 <= iy < ht)%Z -> (0 <= ix < wd)%Z ->
  bank_at (heatmaps (template_generator K ht wd s t)) x y y x = Some 1 /\
  (in_window t x y iy ix ->
   bank_at (heatmaps (template_generator K ht wd s t)) x y iy ix
   = Some (exp (- IZR (sq_dist x y iy ix) / IZR (2 * s ^ 2)))) /\
  (~ in_window t x y iy ix ->
   bank_at (heatmaps (template_generator K ht wd s t)) x y iy ix = Some 0).
Proof.
  intros Ht Hx Hy Hiy Hix. cbn [heatmaps template_generator].
  rewrite !template_bank_at by lia. split; [|split].
  - f_equal. now apply template_value_peak.
  - intros [H1 H2]. f_equal. now apply template_value_inside.
  - intros Hout. f_equal. apply template_value_outside.
    unfold in_window in Hout. lia.
Qed.

(** X1: the bank of [PseudoLabelGenerator03] holds, for every peak, the
    Gaussian of that peak on the square window of half-width
    [2 * sigma] around it, cut at the border of the image, and 0
    elsewhere; the peak itself holds 1. *)
Theorem lowres03_bank_window (K ht wd s : Z) (x y iy ix : Z) :
  (0 <= K)%Z -> (0 < ht)%Z -> (0 < wd)%Z -> (0 < s)%Z ->
  (0 <= x < wd)%Z -> (0 <= y < ht)%Z -> (0 <= iy < ht)%Z -> (0 <= ix < wd)%Z ->
  exists gen,
    PseudoLabelGenerator03_init K ht wd s = Some gen /\
    bank_at (heatmaps gen) x y y x = Some 1 /\
    (in_window (s * 2) x y iy ix ->
     bank_at (heatmaps gen) x y iy ix
     = Some (exp (- IZR (sq_dist x y iy ix) / IZR (2 * s ^ 2)))) /\
    (~ in_window (s * 2) x y iy ix ->
     bank_at (heatmaps gen) x y iy ix = Some 0).
Proof.
  intros HK Hh Hw Hs Hx Hy Hiy Hix.
  exists (template_generator K ht wd s (s * 2)).
  split; [now apply PseudoLabelGenerator03_init_closed|].
  apply template_bank_window; lia.
Qed.

Lemma lowres03_bank_window_witness :
  exists gen,
    PseudoLabelGenerator03_init 21 32 32 2 = Some gen /\
    bank_at (heatmaps gen) 5 7 7 5 = Some 1 /\
    (in_window (2 * 2) 5 7 9 2 ->
     bank_at (heatmaps gen) 5 7 9 2
     = Some (exp (- IZR (sq_dist 5 7 9 2) / IZR (2 * 2 ^ 2)))) /\
    (~ in_window (2 * 2) 5 7 9 2 ->
     bank_at (heatmaps gen) 5 7 9 2 = Some 0).
Proof.
  apply (@lowres03_bank_window 21%Z 32%Z 32%Z 2%Z 5%Z 7%Z 9%Z 2%Z); lia.
Defined.

Lemma frac_even_window (m mu : Z) :
  let q := (inject_Z (2 * m) * (3 # 2))%Q in
  py_int (inject_Z mu - q) = (mu - m * 3)%Z /\
  py_int (inject_Z mu + q + 1) = (mu + m * 3 + 1)%Z /\
  Qceiling (2 * q + 1) = (2 * (m * 3) + 1)%Z /\
  Qfloor ((2 * q + 1) / 2) = ((2 * (m * 3) + 1) / 2)%Z.
Proof.
  intros q. unfold q, py_int, Qceiling, Qfloor.
  cbn [Qplus Qminus Qmult Qopp Qnum Qden inject_Z Pos.mul Z.opp Qdiv Qinv].
  repeat split; Z.to_euclidean_division_equations; lia.
Qed.

Lemma frac_generator_even (K ht wd m : Z) :
  (0 < ht)%Z -> (0 < wd)%Z -> (0 <= m)%Z ->
  frac_generator K ht wd (2 * m) (inject_Z (2 * m) * (3 # 2))%Q
  = template_generator K ht wd (2 * m) (m * 3).
Proof.
  intros Hh Hw Hm. unfold frac_generator, template_generator. f_equal.
  unfold template_bank. apply tab_ext. intros i Hi. apply tab_ext. intros j Hj.
  unfold frac_template, frac_gaussian, frac_ul, frac_br.
  destruct (frac_even_window m (Z.of_nat i)) as (E1 & E2 & E3 & E4).
  destruct (frac_even_window m (Z.of_nat j)) as (F1 & F2 & _ & _).
  cbv zeta in E1, E2, E3, E4, F1, F2.
  rewrite E1, E2, E3, E4, F1, F2.
  now apply pasted_zeros_template; try lia.
Qed.

(** X2: with an even [sigma], the half-width [sigma * 1.5] of
    [PseudoLabelGenerator01] is a whole number and nothing is lost to
    truncation: every template holds 1 at its own peak, the Gaussian on
    the window of half-width [sigma * 3 / 2] around it, and 0
    elsewhere. *)
Theorem lowres01_even_sigma_bank (K ht wd m : Z) (x y iy ix : Z) :
  (0 <= K)%Z -> (0 < ht)%Z -> (0 < wd)%Z -> (0 < m)%Z ->
  (0 <= x < wd)%Z -> (0 <= y < ht)%Z -> (0 <= iy < ht)%Z -> (0 <= ix < wd)%Z ->
  exists gen,
    PseudoLabelGenerator01_init K ht wd (2 * m) = Some gen /\
    bank_at (heatmaps gen) x y y x = Some 1 /\
    (in_window (m * 3) x y iy ix ->
     bank_at (heatmaps gen) x y iy ix
     = Some (exp (- IZR (sq_dist x y iy ix) / IZR (2 * (2 * m) ^ 2)))) /\
    (~ in_window (m * 3) x y iy ix ->
     bank_at (heatmaps gen) x y iy ix = Some 0).
Proof.
  intros HK Hh Hw Hm Hx Hy Hiy Hix.
  exists (template_generator K ht wd (2 * m) (m * 3)).
  split.
  - rewrite PseudoLabelGenerator01_init_closed by lia.
    f_equal. apply frac_generator_even; lia.
  - apply template_bank_window; lia.
Qed.

Lemma lowres01_even_sigma_bank_witness :
  exists gen,
    PseudoLabelGenerator01_init 21 16 16 (2 * 1) = Some gen /\
    bank_at (heatmaps gen) 1 1 1 1 = Some 1 /\
    (in_window (1 * 3) 1 1 0 5 ->
     bank_at (heatmaps gen) 1 1 0 5
     = Some (exp (- IZR (sq_dist 1 1 0 5) / IZR (2 * (2 * 1) ^ 2)))) /\
    (~ in_window (1 * 3) 1 1 0 5 ->
     bank_at (heatmaps gen) 1 1 0 5 = Some 0).
Proof.
  apply (@lowres01_even_sigma_bank 21%Z 16%Z 16%Z 1%Z 1%Z 1%Z 0%Z 5%Z); lia.
Defined.

(** X3: every template of [PseudoLabelGenerator] is the same Gaussian
    window moved to its peak: a pixel of one template and the pixel of
    another at the same offset from the peak hold the same value, and
    exchanging the pixel with the peak changes nothing. *)
Theorem bank_shift_invariance (K ht wd s : Z) (x y iy ix dx dy : Z) :
  (0 <= K)%Z -> (0 < ht)%Z -> (0 < wd)%Z -> (0 < s)%Z ->
  (0 <= x < wd)%Z -> (0 <= y < ht)%Z -> (0 <= iy < ht)%Z -> (0 <= ix < wd)%Z ->
  (0 <= x + dx < wd)%Z -> (0 <= y + dy < ht)%Z ->
  (0 <= iy + dy < ht)%Z -> (0 <= ix + dx < wd)%Z ->
  exists gen,
    PseudoLabelGenerator_init K ht wd s = Some gen /\
    bank_at (heatmaps gen) (x + dx) (y + dy) (iy + dy) (ix + dx)
      = bank_at (heatmaps gen) x y iy ix /\
    bank_at (heatmaps gen) ix iy y x = bank_at (heatmaps gen) x y iy ix.
Proof.
  intros HK Hh Hw Hs Hx Hy Hiy Hix Hx' Hy' Hiy' Hix'.
  exists (template_generator K ht wd s (s * 3)).
  split; [now apply PseudoLabelGenerator_init_closed|].
  cbn [heatmaps template_generator].
  rewrite !template_bank_at by lia. unfold template_value. split.
  - replace (ix + dx - (x + dx))%Z with (ix - x)%Z by lia.
    replace (iy + dy - (y + dy))%Z with (iy - y)%Z by lia.
    reflexivity.
  - replace (Z.abs (x - ix)) with (Z.abs (ix - x)) by lia.
    replace (Z.abs (y - iy)) with (Z.abs (iy - y)) by lia.
    replace ((x - ix) ^ 2 + (y - iy) ^ 2)%Z
      with ((ix - x) ^ 2 + (iy - y) ^ 2)%Z by nia.
    reflexivity.
Qed.

Lemma bank_shift_invariance_witness :
  exists gen,
    PseudoLabelGenerator_init 21 64 64 2 = Some gen /\
    bank_at (heatmaps gen) (0 + 60) (3 + 10) (5 + 10) (2 + 60)
      = bank_at (heatmaps gen) 0 3 5 2 /\
    bank_at (heatmaps gen) 2 5 3 0 = bank_at (heatmaps gen) 0 3 5 2.
Proof.
  apply (@bank_shift_invariance 21%Z 64%Z 64%Z 2%Z 0%Z 3%Z 5%Z 2%Z 60%Z 10%Z);
    lia.
Defined.

(** ** When the constructors raise *)

Lemma loops_template_total (wd ht s t : Z) :
  (0 <= t)%Z ->
  init_loops (template_step wd ht s t) wd ht
    (tab (Z.to_nat wd) (fun _ =>
       tab (Z.to_nat ht) (fun _ => zeros (Z.to_nat ht) (Z.to_nat wd))))
  = Some (template_bank wd ht s t).
Proof.
  intros Ht.
  rewrite (@init_loops_closed _ _
             (fun mx my => template wd ht s t (Z.of_nat mx) (Z.of_nat my))).
  - reflexivity.
  - apply length_tab.
  - intros k Hk. rewrite nth_tab by exact Hk. apply length_tab.
  - intros hm i j Hi Hj Hl Hc He.
    apply template_step_closed; try assumption; try lia.
    eapply eq_trans; [exact He|].
    rewrite nth_tab by exact Hi. now rewrite nth_tab.
Qed.

Lemma loops_frac_total (wd ht s : Z) :
  (0 < s)%Z ->
  init_loops (template_step_frac wd ht s (inject_Z s * (3 # 2))%Q) wd ht
    (tab (Z.to_nat wd) (fun _ =>
       tab (Z.to_nat ht) (fun _ => zeros (Z.to_nat ht) (Z.to_nat wd))))
  = Some (heatmaps (frac_generator 0 ht wd s (inject_Z s * (3 # 2))%Q)).
Proof.
  intros Hs.
  rewrite (@init_loops_closed _ _
             (fun mx my => frac_template wd ht s (inject_Z s * (3 # 2))%Q
                             (Z.of_nat mx) (Z.of_nat my))).
  - reflexivity.
  - apply length_tab.
  - intros k Hk. rewrite nth_tab by exact Hk. apply length_tab.
  - intros hm i j Hi Hj Hl Hc He.
    apply template_step_frac_closed; try assumption; try lia.
    eapply eq_trans; [exact He|].
    rewrite nth_tab by exact Hi. now rewrite nth_tab.
Qed.

Lemma build_generator_raises (step : bank -> Z -> Z -> option bank)
  (K ht wd s : Z) (hm : bank) :
  init_loops step wd ht
    (tab (Z.to_nat wd) (fun _ =>
       tab (Z.to_nat ht) (fun _ => zeros (Z.to_nat ht) (Z.to_nat wd))))
  = Some hm ->
  (build_generator step K ht wd s = None <->
   (K < 0 \/ ht < 0 \/ wd < 0)%Z).
Proof.
  intros Hloops. unfold build_generator, np_zeros4, np_eye.
  destruct (Z.leb_spec 0 wd); destruct (Z.leb_spec 0 ht);
    cbn [andb bind]; try (split; [lia | reflexivity]).
  rewrite Hloops. cbn [bind].
  destruct (Z.leb_spec 0 K); cbn [bind].
  - split; [discriminate | lia].
  - split; [lia | reflexivity].
Qed.

Lemma init_gen_negative (v : variant) (K ht wd s : Z) :
  (0 < s)%Z -> (K < 0)%Z -> init_of v K ht wd s = None.
Proof.
  intros Hs HK.
  destruct v; cbn [init_of];
    unfold PseudoLabelGenerator_init, PseudoLabelGenerator01_init,
           PseudoLabelGenerator03_init.
  - apply (@build_generator_raises _ K ht wd s (template_bank wd ht s (s * 3)));
      [apply loops_template_total|]; lia.
  - eapply build_generator_raises; [now apply loops_frac_total|]. lia.
  - apply (@build_generator_raises _ K ht wd s (template_bank wd ht s (s * 2)));
      [apply loops_template_total|]; lia.
Qed.

(** X4: the constructors of the generators raise exactly when the number of
    keypoints, the height or the width is negative ([np.zeros] and
    [np.eye] refuse a negative dimension); a height or width of zero
    gives an empty bank without an error. *)
Theorem init_raises_iff_negative (v : variant) (K ht wd s : Z) :
  (0 < s)%Z ->
  (init_of v K ht wd s = None <-> (K < 0 \/ ht < 0 \/ wd < 0)%Z) /\
  (PseudoLabelGenerator02_init K ht wd s = None
   <-> (K < 0 \/ ht < 0 \/ wd < 0)%Z).
Proof.
  intros Hs. split.
  - destruct v; cbn [init_of];
      unfold PseudoLabelGenerator_init, PseudoLabelGenerator01_init,
             PseudoLabelGenerator03_init.
    + apply (@build_generator_raises _ K ht wd s (template_bank wd ht s (s * 3))).
      apply loops_template_total. lia.
    + eapply build_generator_raises. now apply loops_frac_total.
    + apply (@build_generator_raises _ K ht wd s (template_bank wd ht s (s * 2))).
      apply loops_template_total. lia.
  - unfold PseudoLabelGenerator02_init.
    apply (@build_generator_raises _ K ht wd s (template_bank wd ht s (s * 3))).
    apply loops_template_total. lia.
Qed.

Lemma init_raises_iff_negative_witness :
  (init_of Low01 21 0 (-1) 2 = None <-> (21 < 0 \/ 0 < 0 \/ -1 < 0)%Z) /\
  (PseudoLabelGenerator02_init 21 0 (-1) 2 = None
   <-> (21 < 0 \/ 0 < 0 \/ -1 < 0)%Z).
Proof.
  apply (@init_raises_iff_negative Low01 21%Z 0%Z (-1)%Z 2%Z). lia.
Defined.

(** ** When the forward passes return *)

Lemma forward_np_channel_mismatch (self : generator) (y : tensor4)
  (b k h w : nat) :
  shape4 y = (b, k, h, w) -> k <> length (false_matrix self) ->
  PseudoLabelGenerator_forward_np self y = None.
Proof.
  intros Hs Hk. unfold PseudoLabelGenerator_forward_np. rewrite Hs.
  destruct (get_max_preds y) as [pm|]; [|reflexivity]. cbn [bind].
  destruct (gather _ _) as [picked|]; [|reflexivity]. cbn [bind].
  destruct (reshape4 _ _ _ _ _) as [gt|]; [|reflexivity]. cbn [bind].
  unfold cross_suppression.
  destruct (reshape3_infer _ _ _) as [flat|]; [|reflexivity]. cbn [bind].
  unfold dot3. destruct (Nat.eqb_spec k (length (false_matrix self)));
    [contradiction | reflexivity].
Qed.

(** X5: on a batch of the height and width of the generator, the forward
    pass of [PseudoLabelGenerator] returns exactly when the batch has
    as many channels as the generator has keypoints: with another
    channel count the product with the suppression matrix raises, with
    the same count nothing does, and both results have the shape of the
    batch. *)
Theorem forward_returns_iff_channels_match (K ht wd s : Z) (y : tensor4)
  (b k : nat) :
  (0 <= K)%Z -> (0 < ht)%Z -> (0 < wd)%Z -> (0 < s)%Z ->
  (0 < b)%nat -> (0 < k)%nat ->
  has_shape4 b k (Z.to_nat ht) (Z.to_nat wd) y ->
  exists gen,
    PseudoLabelGenerator_init K ht wd s = Some gen /\
    (k <> Z.to_nat K -> PseudoLabelGenerator_forward gen y = None) /\
    (k = Z.to_nat K ->
     exists gt gf,
       PseudoLabelGenerator_forward gen y = Some (gt, gf) /\
       has_shape4 b k (Z.to_nat ht) (Z.to_nat wd) gt /\
       has_shape4 b k (Z.to_nat ht) (Z.to_nat wd) gf).
Proof.
  intros HK Hh Hw Hs Hb Hk Hy.
  set (gen := template_generator K ht wd s (s * 3)).
  exists gen. split; [apply PseudoLabelGenerator_init_closed; lia|].
  assert (Hsh : shape4 y = (b, k, Z.to_nat ht, Z.to_nat wd))
    by (apply (shape4_of Hy); lia).
  split.
  - intros Hne. unfold PseudoLabelGenerator_forward.
    rewrite (@forward_np_channel_mismatch gen y _ _ _ _ Hsh);
      [reflexivity|].
    pose proof (has_shape2_suppression (Z.to_nat K)) as [Hl _].
    unfold gen. cbn [false_matrix template_generator].
    intros Hc. apply Hne. rewrite Hc. exact Hl.
  - intros ->.
    assert (Hn : PseudoLabelGenerator_forward_np gen y =
               Some (gathered_truth (heatmaps gen) (fun z => z)
                       (Z.to_nat ht) (Z.to_nat wd) y,
                     cross_suppressed (false_matrix gen)
                       (gathered_truth (heatmaps gen) (fun z => z)
                          (Z.to_nat ht) (Z.to_nat wd) y))).
    { apply (@PseudoLabelGenerator_forward_np_closed gen b (Z.to_nat K));
        try lia.
      - exact Hy.
      - apply has_shape4_template_bank.
      - apply has_shape2_suppression. }
    assert (Hin : all4 in01 (heatmaps gen)).
    { apply (@PseudoLabelGenerator_init_in01 K ht wd s).
      apply PseudoLabelGenerator_init_closed; lia. }
    destruct (@forward_np_shape_range gen y _ _ b (Z.to_nat K)
                (Z.to_nat ht) (Z.to_nat wd) Hin Hsh Hn) as (H1 & H2 & _ & _).
    eexists. eexists. split.
    + unfold PseudoLabelGenerator_forward. rewrite Hn. reflexivity.
    + split; now apply from_numpy_shape.
Qed.

Lemma forward_returns_iff_channels_match_witness :
  exists gen,
    PseudoLabelGenerator_init 21 64 64 2 = Some gen /\
    (3%nat <> Z.to_nat 21 ->
     PseudoLabelGenerator_forward gen (y_zero64 3) = None) /\
    (3%nat = Z.to_nat 21 ->
     exists gt gf,
       PseudoLabelGenerator_forward gen (y_zero64 3) = Some (gt, gf) /\
       has_shape4 1 3 (Z.to_nat 64) (Z.to_nat 64) gt /\
       has_shape4 1 3 (Z.to_nat 64) (Z.to_nat 64) gf).
Proof.
  apply (@forward_returns_iff_channels_match 21%Z 64%Z 64%Z 2%Z
           (y_zero64 3) 1%nat 3%nat); try lia.
  exact (has_shape4_y_zero64 3).
Defined.

(** X6: the low-resolution generators, built for their own grid (16 by 16
    for [PseudoLabelGenerator01], 32 by 32 for
    [PseudoLabelGenerator03]), return on every batch of at most 64 by
    64 pixels, whatever its number of channels: the decoded
    coordinates divided by 4 (by 2) stay inside the bank, and the number
    of keypoints of the generator is never compared with the channels
    of the batch. *)
Theorem lowres_forward_returns (K s : Z) (y : tensor4) (b k hy wy : nat) :
  (0 <= K)%Z -> (0 < s)%Z ->
  (0 < b)%nat -> (0 < k)%nat -> (0 < hy <= 64)%nat -> (0 < wy <= 64)%nat ->
  has_shape4 b k hy wy y ->
  (exists gen gt gf,
     PseudoLabelGenerator01_init K 16 16 s = Some gen /\
     PseudoLabelGenerator01_forward gen y = Some (gt, gf) /\
     has_shape4 b k 16 16 gt /\ has_shape4 b k 16 16 gf) /\
  (exists gen gt gf,
     PseudoLabelGenerator03_init K 32 32 s = Some gen /\
     PseudoLabelGenerator03_forward gen y = Some (gt, gf) /\
     has_shape4 b k 32 32 gt /\ has_shape4 b k 32 32 gf).
Proof.
  intros HK Hs Hb Hk Hhy Hwy Hy. split.
  - set (gen := frac_generator K 16 16 s (inject_Z s * (3 # 2))%Q).
    set (gt := gathered_truth (heatmaps gen) (fun z => Z.quot z 4) 16 16 y).
    exists gen, (from_numpy gt), (from_numpy (complemented gt)).
    assert (Hgt : has_shape4 b k 16 16 gt)
      by (apply (has_shape4_gathered _ _ _ _ Hy); lia).
    split; [apply PseudoLabelGenerator01_init_closed; lia|]. split.
    + unfold PseudoLabelGenerator01_forward.
      rewrite (@lowres_forward_np_closed 4 16 gen b k hy wy); try lia.
      * reflexivity.
      * exact Hy.
      * apply (has_shape4_frac_bank K 16 16 s).
    + split; [now apply from_numpy_shape|].
      apply from_numpy_shape. unfold complemented. now apply has_shape4_map4.
  - set (gen := template_generator K 32 32 s (s * 2)).
    set (gt := gathered_truth (heatmaps gen) (fun z => Z.quot z 2) 32 32 y).
    exists gen, (from_numpy gt), (from_numpy (complemented gt)).
    assert (Hgt : has_shape4 b k 32 32 gt)
      by (apply (has_shape4_gathered _ _ _ _ Hy); lia).
    split; [apply PseudoLabelGenerator03_init_closed; lia|]. split.
    + unfold PseudoLabelGenerator03_forward.
      rewrite (@lowres_forward_np_closed 2 32 gen b k hy wy); try lia.
      * reflexivity.
      * exact Hy.
      * apply (has_shape4_template_bank 32 32 s (s * 2)).
    + split; [now apply from_numpy_shape|].
      apply from_numpy_shape. unfold complemented. now apply has_shape4_map4.
Qed.

Lemma lowres_forward_returns_witness :
  (exists gen gt gf,
     PseudoLabelGenerator01_init 21 16 16 2 = Some gen /\
     PseudoLabelGenerator01_forward gen (y_zero64 5) = Some (gt, gf) /\
     has_shape4 1 5 16 16 gt /\ has_shape4 1 5 16 16 gf) /\
  (exists gen gt gf,
     PseudoLabelGenerator03_init 21 32 32 2 = Some gen /\
     PseudoLabelGenerator03_forward gen (y_zero64 5) = Some (gt, gf) /\
     has_shape4 1 5 32 32 gt /\ has_shape4 1 5 32 32 gf).
Proof.
  apply (@lowres_forward_returns 21%Z 2%Z (y_zero64 5) 1%nat 5%nat
           64%nat 64%nat); try lia.
  exact (has_shape4_y_zero64 5).
Defined.

Lemma py_index_Some_In {A : Type} (l : list A) (i : Z) (x : A) :
  py_index l i = Some x -> In x l.
Proof.
  unfold py_index. destruct (_ && _)%bool.
  - apply nth_error_In.
  - destruct (_ && _)%bool; [apply nth_error_In | discriminate].
Qed.

Lemma gather_shapes (hm : bank) (preds : list (Z * Z)) (picked : list image)
  (wb hb h w : nat) :
  has_shape4 wb hb h w hm -> gather hm preds = Some picked ->
  has_shape3 (length preds) h w picked.
Proof.
  intros [_ Hhm] Hg. unfold gather in Hg. split.
  - exact (mapM_length _ _ Hg).
  - eapply mapM_Forall; [exact Hg|]. intros p img _ Himg.
    cbn beta in Himg.
    destruct (py_index hm (fst p)) as [col|] eqn:Hcol;
      cbn [bind] in Himg; [|discriminate].
    apply py_index_Some_In in Hcol. apply py_index_Some_In in Himg.
    rewrite Forall_forall in Hhm. destruct (Hhm col Hcol) as [_ Hc].
    rewrite Forall_forall in Hc. now apply Hc.
Qed.

Lemma length_peaks (f : image -> Z * Z) (g : Z * Z -> Z * Z) (y : tensor4)
  (b k h w : nat) :
  has_shape4 b k h w y ->
  length (map g (concat (map (map f) y))) = (b * k)%nat.
Proof.
  intros [Hl HF]. rewrite length_map.
  rewrite (@length_concat_uniform _ k).
  - rewrite length_map. f_equal. exact Hl.
  - apply Forall_map. eapply Forall_impl; [|exact HF].
    intros t [Ht _]. rewrite length_map. exact Ht.
Qed.

Lemma gather_reshape_size_mismatch (hm : bank) (preds : list (Z * Z))
  (wb hb h w b k h' w' : nat) :
  has_shape4 wb hb h w hm -> length preds = (b * k)%nat ->
  (0 < b)%nat -> (0 < k)%nat -> (h * w <> h' * w')%nat ->
  bind (gather hm preds)
       (fun picked => reshape4 b k h' w' (flatten3 picked)) = None.
Proof.
  intros Hhm Hlen Hb Hk Hne.
  destruct (gather hm preds) as [picked|] eqn:Hg; [|reflexivity].
  cbn [bind]. unfold reshape4.
  rewrite (length_flatten3 (@gather_shapes hm preds picked wb hb h w Hhm Hg)),
    Hlen.
  destruct (Nat.eqb_spec (b * k * (h * w)) (b * k * h' * w'));
    [|reflexivity].
  exfalso. apply Hne. nia.
Qed.

(** X7: the templates that [forward] gathers are reshaped to a literal
    shape, so the number of pixels must agree: on a batch that is not
    empty, [PseudoLabelGenerator.forward] raises when the batch has a
    number of pixels per map other than [height * width] of the
    generator, and [PseudoLabelGenerator01.forward]
    ([PseudoLabelGenerator03.forward]) raises when the generator was
    built with [height * width] other than 256 (1024). *)
Theorem forward_raises_on_size_mismatch (v : variant) (K ht wd s : Z)
  (gen : generator) (y : tensor4) (b k hy wy : nat) :
  (0 < ht)%Z -> (0 < wd)%Z -> (0 < s)%Z ->
  init_of v K ht wd s = Some gen ->
  has_shape4 b k hy wy y ->
  (0 < b)%nat -> (0 < k)%nat -> (0 < hy)%nat -> (0 < wy)%nat ->
  (Z.to_nat ht * Z.to_nat wd
   <> fst (output_size v hy wy) * snd (output_size v hy wy))%nat ->
  forward_of v gen y = None.
Proof.
  intros Hh Hw Hs Hinit Hy Hb Hk Hhy Hwy Hne.
  assert (HK : (0 <= K)%Z).
  { destruct (Z.leb_spec 0 K) as [|Hneg]; [assumption|].
    assert (Hnone : init_of v K ht wd s = None)
      by (apply init_gen_negative; lia).
    rewrite Hnone in Hinit. discriminate. }
  assert (Hbank : has_shape4 (Z.to_nat wd) (Z.to_nat ht) (Z.to_nat ht)
                    (Z.to_nat wd) (heatmaps gen)).
  { destruct v; cbn [init_of] in Hinit.
    - rewrite PseudoLabelGenerator_init_closed in Hinit by lia.
      inversion Hinit. apply has_shape4_template_bank.
    - rewrite PseudoLabelGenerator01_init_closed in Hinit by lia.
      inversion Hinit. apply has_shape4_frac_bank.
    - rewrite PseudoLabelGenerator03_init_closed in Hinit by lia.
      inversion Hinit. apply has_shape4_template_bank. }
  destruct (get_max_preds_closed Hy Hb Hk Hhy Hwy) as [mv Hmax].
  pose proof (shape4_of Hy Hb Hk Hhy) as Hsh.
  destruct v; cbn [forward_of output_size fst snd] in *.
  - unfold PseudoLabelGenerator_forward, PseudoLabelGenerator_forward_np.
    rewrite Hsh, Hmax. cbn [bind fst].
    destruct (gather _ _) as [picked|] eqn:Hg; [|reflexivity].
    pose proof (@gather_reshape_size_mismatch (heatmaps gen)
                  (concat (map (map (peak_of wy)) y)) _ _ _ _ b k hy wy
                  Hbank) as Hm.
    rewrite Hg in Hm. cbn [bind] in Hm |- *. rewrite Hm; try lia.
    + reflexivity.
    + rewrite <- (map_id (concat _)). apply (length_peaks _ _ Hy).
  - unfold PseudoLabelGenerator01_forward, lowres_forward_np.
    rewrite Hsh, Hmax. cbn [bind fst].
    destruct (gather _ _) as [picked|] eqn:Hg; [|reflexivity].
    pose proof (@gather_reshape_size_mismatch (heatmaps gen)
                  (map (fun p => (Z.quot (fst p) 4, Z.quot (snd p) 4))
                       (concat (map (map (peak_of wy)) y)))
                  _ _ _ _ b k 16 16 Hbank) as Hm.
    rewrite Hg in Hm. cbn [bind] in Hm |- *. rewrite Hm; try lia.
    + reflexivity.
    + apply (length_peaks _ _ Hy).
  - unfold PseudoLabelGenerator03_forward, lowres_forward_np.
    rewrite Hsh, Hmax. cbn [bind fst].
    destruct (gather _ _) as [picked|] eqn:Hg; [|reflexivity].
    pose proof (@gather_reshape_size_mismatch (heatmaps gen)
                  (map (fun p => (Z.quot (fst p) 2, Z.quot (snd p) 2))
                       (concat (map (map (peak_of wy)) y)))
                  _ _ _ _ b k 32 32 Hbank) as Hm.
    rewrite Hg in Hm. cbn [bind] in Hm |- *. rewrite Hm; try lia.
    + reflexivity.
    + apply (length_peaks _ _ Hy).
Qed.

Lemma forward_raises_on_size_mismatch_witness :
  forward_of Low01 (frac_generator 21 64 64 2 (inject_Z 2 * (3 # 2))%Q)
             (y_zero64 21)
  = None.
Proof.
  assert (Hi : init_of Low01 21 64 64 2
               = Some (frac_generator 21 64 64 2 (inject_Z 2 * (3 # 2))%Q))
    by (apply PseudoLabelGenerator01_init_closed; lia).
  refine (@forward_raises_on_size_mismatch Low01 21%Z 64%Z 64%Z 2%Z
           (frac_generator 21 64 64 2 (inject_Z 2 * (3 # 2))%Q)
           (y_zero64 21) 1%nat 21%nat 64%nat 64%nat _ _ _ Hi
           (has_shape4_y_zero64 21) _ _ _ _ _).
  all: try lia.
  cbn [output_size fst snd]. lia.
Defined.

(** ** The ground false of the generator *)

Lemma at2_suppression (K i j : nat) :
  (i < K)%nat -> (j < K)%nat ->
  at2 (suppression_matrix K) i j = 1 - (if Nat.eqb i j then 1 else 0).
Proof.
  intros Hi Hj. unfold suppression_matrix. now rewrite at2_tab.
Qed.

Lemma shape4_channels {A : Type} (b k h w n : nat)
  (t : list (list (list (list A)))) :
  has_shape4 b k h w t -> (n < b)%nat -> length (nth n t []) = k.
Proof.
  intros [Hl HF] Hn. rewrite <- Hl in Hn.
  exact (proj1 (Forall_nth_in [] HF Hn)).
Qed.

Lemma cross_suppressed_entry (gt : tensor4) (b k h w n c i j : nat) :
  has_shape4 b k h w gt ->
  (0 < b)%nat -> (0 < k)%nat -> (0 < h)%nat ->
  (n < b)%nat -> (c < k)%nat -> (i < h)%nat -> (j < w)%nat ->
  entry4 (cross_suppressed (suppression_matrix k) gt) n c i j
  = Some (clip01 (sum_others gt n c i j)).
Proof.
  intros Hgt Hb Hk Hh Hn Hc Hi Hj. unfold cross_suppressed.
  rewrite (shape4_of Hgt Hb Hk Hh). rewrite entry4_tab by assumption.
  unfold spec_cross_suppression, sum_others. do 3 f_equal.
  apply tab_ext. intros q Hq.
  assert (Hq' : (q < k)%nat).
  { eapply Nat.lt_le_trans; [exact Hq|].
    apply Nat.eq_le_incl. exact (shape4_channels Hgt Hn). } rewrite at2_suppression by assumption.
  destruct (Nat.eqb q c); lra.
Qed.

(** X8: for a generator built with a positive [sigma], the ground false
    that [PseudoLabelGenerator.forward] returns holds,
    in channel [c], the sum of the ground-truth maps of all the other
    channels, clipped to [0, 1]: the reshape, transpose, product with
    [1 - eye] and transpose back amount to leaving the own channel out
    of the sum.  With a single keypoint it is 0 everywhere. *)
Theorem ground_false_sums_other_channels (K ht wd s : Z) (gen : generator)
  (y g gf : tensor4) (b k h w n c i j : nat) :
  (0 < s)%Z ->
  PseudoLabelGenerator_init K ht wd s = Some gen ->
  has_shape4 b k h w y ->
  (0 < b)%nat -> (0 < k)%nat -> (0 < h)%nat -> (0 < w)%nat ->
  PseudoLabelGenerator_forward_np gen y = Some (g, gf) ->
  (n < b)%nat -> (c < k)%nat -> (i < h)%nat -> (j < w)%nat ->
  PseudoLabelGenerator_forward gen y = Some (from_numpy g, from_numpy gf) /\
  entry4 gf n c i j = Some (clip01 (sum_others g n c i j)) /\
  entry4 (from_numpy gf) n c i j = Some (Fin (clip01 (sum_others g n c i j))) /\
  (k = 1%nat -> entry4 gf n c i j = Some 0).
Proof.
  intros Hsigma Hinit Hy Hb Hk Hh Hw Hf Hn Hc Hi Hj.
  destruct (@forward_np_ground_false K ht wd s gen y g gf b k h w
              Hinit Hy Hb Hk Hh Hw Hf) as (Hg & _ & _ & ->).
  pose proof (cross_suppressed_entry Hg Hb Hk Hh Hn Hc Hi Hj) as He.
  split; [|split; [|split]].
  - unfold PseudoLabelGenerator_forward. now rewrite Hf.
  - exact He.
  - assert (Hgf : has_shape4 b k h w
                    (cross_suppressed (suppression_matrix k) g)).
    { unfold cross_suppressed. rewrite (shape4_of Hg Hb Hk Hh).
      apply has_shape4_tab. }
    unfold from_numpy. rewrite (map4_shaped Fin 0 Hgf).
    rewrite entry4_tab by assumption. do 2 f_equal.
    pose proof (@entry4_get4 _ 0 b k h w _ n c i j Hgf Hn Hc Hi Hj) as Hget.
    rewrite He in Hget. now inversion Hget.
  - intros ->. rewrite He. do 2 f_equal.
    assert (c = 0%nat) by lia. subst c.
    unfold sum_others.
    replace (length (nth n g [])) with 1%nat
      by (symmetry; exact (shape4_channels Hg Hn)).
    cbn. apply clip01_low. lra.
Qed.

Lemma ground_false_sums_other_channels_witness :
  exists gen g gf,
    ((0 < 2)%Z /\
     PseudoLabelGenerator_init 21 64 64 2 = Some gen /\
     has_shape4 1 21 64 64 (y_zero64 21) /\
     PseudoLabelGenerator_forward_np gen (y_zero64 21) = Some (g, gf)) /\
    PseudoLabelGenerator_forward gen (y_zero64 21)
      = Some (from_numpy g, from_numpy gf) /\
    entry4 gf 0 3 5 7 = Some (clip01 (sum_others g 0 3 5 7)) /\
    entry4 (from_numpy gf) 0 3 5 7
      = Some (Fin (clip01 (sum_others g 0 3 5 7))) /\
    (21%nat = 1%nat -> entry4 gf 0 3 5 7 = Some 0).
Proof.
  destruct (@PseudoLabelGenerator_forward_total 21 64 64 2 (y_zero64 21) 1)
    as [gen [g [gf [Hi [Hn _]]]]]; try lia.
  { apply has_shape4_y_zero64. }
  exists gen, g, gf.
  pose proof (has_shape4_y_zero64 21) as Hy.
  split; [split; [lia|split; [exact Hi|split; [exact Hy|exact Hn]]]|].
  apply (@ground_false_sums_other_channels 21%Z 64%Z 64%Z 2%Z gen
           (y_zero64 21) g gf 1%nat 21%nat 64%nat 64%nat 0%nat 3%nat
           5%nat 7%nat); try assumption; lia.
Defined.

(** ** The division of a slice by its maximum *)

Lemma fold_xmax2_fin (l : list R) (a : R) :
  fold_left xmax2 (map Fin l) (Fin a) = Fin (fold_left Rmax l a).
Proof.
  revert a. induction l as [|x l IH]; intros a; [reflexivity|].
  cbn [map fold_left xmax2]. apply IH.
Qed.

Lemma fold_Rmax_ge (l : list R) (a : R) :
  a <= fold_left Rmax l a /\
  forall x, In x l -> x <= fold_left Rmax l a.
Proof.
  revert a. induction l as [|y l IH]; intros a.
  - split; [simpl; lra | intros x []].
  - cbn [fold_left]. destruct (IH (Rmax a y)) as [H1 H2]. split.
    + eapply Rle_trans; [apply Rmax_l | exact H1].
    + intros x [<- | Hx]; [|now apply H2].
      eapply Rle_trans; [apply Rmax_r | exact H1].
Qed.

Lemma fold_Rmax_attained (l : list R) (a : R) :
  fold_left Rmax l a = a \/ In (fold_left Rmax l a) l.
Proof.
  revert a. induction l as [|y l IH]; intros a; [now left|].
  cbn [fold_left]. destruct (IH (Rmax a y)) as [H | H].
  - rewrite H. unfold Rmax. destruct (Rle_dec a y); [right; now left | now left].
  - right. now right.
Qed.

Lemma flatten_fin_slice (a : nat -> nat -> R) (h w : nat) :
  flatten2 (fin_slice a h w)
  = map Fin (flatten2 (tab h (fun i => tab w (a i)))).
Proof.
  unfold flatten2, fin_slice. rewrite concat_map. f_equal.
  rewrite map_tab. apply tab_ext. intros i _. now rewrite map_tab.
Qed.

Lemma In_flatten_tab {A : Type} (f : nat -> nat -> A) (h w : nat) (x : A) :
  In x (flatten2 (tab h (fun i => tab w (f i)))) <->
  exists i j, (i < h)%nat /\ (j < w)%nat /\ x = f i j.
Proof.
  unfold flatten2. rewrite in_concat. split.
  - intros (r & Hr & Hx). unfold tab in Hr. apply in_map_iff in Hr.
    destruct Hr as (i & <- & Hi). apply in_seq in Hi.
    apply in_map_iff in Hx. destruct Hx as (j & <- & Hj). apply in_seq in Hj.
    exists i, j. repeat split; lia.
  - intros (i & j & Hi & Hj & ->). exists (tab w (f i)). split.
    + unfold tab. apply in_map_iff. exists i. split; [reflexivity|].
      apply in_seq. lia.
    + unfold tab. apply in_map_iff. exists j. split; [reflexivity|].
      apply in_seq. lia.
Qed.

Lemma slice_max_fin (a : nat -> nat -> R) (h w : nat) :
  (0 < h)%nat -> (0 < w)%nat ->
  exists M,
    slice_max (fun i j => Fin (a i j)) h w = Fin M /\
    (forall i j, (i < h)%nat -> (j < w)%nat -> a i j <= M) /\
    (exists i j, (i < h)%nat /\ (j < w)%nat /\ a i j = M).
Proof.
  intros Hh Hw. unfold slice_max, xmax_all.
  change (tab h (fun i => tab w (fun j => Fin (a i j))))
    with (fin_slice a h w).
  rewrite flatten_fin_slice.
  pose proof (length_flatten_tab h w a) as Hlen.
  pose proof (In_flatten_tab a h w) as Hin.
  destruct (flatten2 (tab h (fun i => tab w (a i)))) as [|x l].
  - simpl in Hlen. nia.
  - cbn [map]. rewrite fold_xmax2_fin. exists (fold_left Rmax l x).
    destruct (fold_Rmax_ge l x) as [G1 G2]. split; [reflexivity|]. split.
    + intros i j Hi Hj.
      assert (Hm : In (a i j) (x :: l)) by (apply Hin; eauto).
      destruct Hm as [<- | Hm]; [exact G1 | now apply G2].
    + destruct (fold_Rmax_attained l x) as [E | E].
      * assert (Hx : In x (x :: l)) by now left.
        apply Hin in Hx. destruct Hx as (i & j & Hi & Hj & Hx).
        exists i, j. repeat split; try assumption. now rewrite E.
      * assert (Hx : In (fold_left Rmax l x) (x :: l)) by now right.
        apply Hin in Hx. destruct Hx as (i & j & Hi & Hj & Hx).
        exists i, j. repeat split; try assumption. now symmetry.
Qed.

(** X9: [m / torch.max(m)] on a slice of finite entries that are not
    negative: when the maximum [M] is positive every entry becomes
    [a / M], a number of [0, 1], and an entry that held the maximum
    becomes 1; when the slice is 0 everywhere every entry becomes
    [nan].  Nothing raises in either case. *)
Theorem division_by_maximum (a : nat -> nat -> R) (h w : nat) :
  (0 < h)%nat -> (0 < w)%nat ->
  (forall i j, (i < h)%nat -> (j < w)%nat -> 0 <= a i j) ->
  exists M out,
    div_by_max (fin_slice a h w) = Some out /\
    has_shape2 h w out /\
    (forall i j, (i < h)%nat -> (j < w)%nat -> a i j <= M) /\
    (0 < M ->
     (forall i j, (i < h)%nat -> (j < w)%nat ->
        pixel out i j = Some (Fin (a i j / M)) /\ 0 <= a i j / M <= 1) /\
     (exists i j, (i < h)%nat /\ (j < w)%nat /\ pixel out i j = Some (Fin 1))) /\
    (~ 0 < M ->
     forall i j, (i < h)%nat -> (j < w)%nat -> pixel out i j = Some NaN).
Proof.
  intros Hh Hw Hpos.
  destruct (slice_max_fin a Hh Hw) as (M & HM & Hub & (i0 & j0 & Hi0 & Hj0 & Hat)).
  exists M. eexists. unfold fin_slice.
  split; [apply (div_by_max_closed (fun i j => Fin (a i j)) Hh Hw)|].
  split; [apply has_shape2_tab|]. split; [exact Hub|]. split.
  - intros HMpos. split.
    + intros i j Hi Hj. rewrite pixel_tab by assumption.
      rewrite HM, xdiv_fin by lra. split; [reflexivity|].
      pose proof (Hpos i j Hi Hj). pose proof (Hub i j Hi Hj). split.
      * apply Rmult_le_pos; [assumption|].
        left. now apply Rinv_0_lt_compat.
      * apply (Rmult_le_reg_r M); [lra|]. unfold Rdiv.
        rewrite Rmult_assoc, Rinv_l by lra. lra.
    + exists i0, j0. repeat split; try assumption.
      rewrite pixel_tab by assumption. rewrite HM, xdiv_fin by lra.
      do 2 f_equal. rewrite Hat. field. lra.
  - intros HM0 i j Hi Hj. rewrite pixel_tab by assumption. rewrite HM.
    assert (HMz : M = 0).
    { pose proof (Hpos i0 j0 Hi0 Hj0). lra. }
    assert (Haz : a i j = 0).
    { pose proof (Hpos i j Hi Hj). pose proof (Hub i j Hi Hj). lra. }
    rewrite HMz, Haz. f_equal. exact xdiv_zero_zero.
Qed.

Lemma division_by_maximum_witness :
  exists M out,
    div_by_max (fin_slice (fun i j => INR (i + j)) 2 3) = Some out /\
    has_shape2 2 3 out /\
    (forall i j, (i < 2)%nat -> (j < 3)%nat -> INR (i + j) <= M) /\
    (0 < M ->
     (forall i j, (i < 2)%nat -> (j < 3)%nat ->
        pixel out i j = Some (Fin (INR (i + j) / M)) /\
        0 <= INR (i + j) / M <= 1) /\
     (exists i j, (i < 2)%nat /\ (j < 3)%nat /\ pixel out i j = Some (Fin 1))) /\
    (~ 0 < M ->
     forall i j, (i < 2)%nat -> (j < 3)%nat -> pixel out i j = Some NaN).
Proof.
  apply (@division_by_maximum (fun i j => INR (i + j)) 2%nat 3%nat);
    try lia.
  intros i j _ _. apply pos_INR.
Defined.

(** ** The selectors that add other labels *)

Lemma xsum_fin (l : list R) : xsum (map Fin l) = Fin (sumR l).
Proof.
  induction l as [|a l IH]; [reflexivity|].
  cbn [map xsum sumR]. now rewrite IH.
Qed.

Lemma presence_from_numpy (g : tensor4) (n i j : nat) :
  presence (from_numpy g) n i j = Fin (presence_np g n i j).
Proof.
  unfold presence, presence_np, from_numpy, map4, map3.
  change (@nil (list (list xval))) with (map (map (map Fin)) (@nil image)).
  rewrite map_nth, map_map, <- xsum_fin, map_map. f_equal.
  apply map_ext. intros m. unfold at2, get2.
  change (@nil xval) with (map Fin (@nil R)).
  now rewrite map_nth, map_nth.
Qed.

Lemma label_closed (lab : nat -> nat -> nat -> R) (g : tensor4)
  (b h w : nat) :
  has_shape4 b 21 h w g ->
  minus_ten_clip
    (unsqueeze_repeat 21
       (tab b (fun n => tab h (fun i => tab w (fun j => Fin (lab n i j))))))
    (from_numpy g)
  = Some (ground_false_of lab g b h w).
Proof.
  intros Hg. unfold unsqueeze_repeat. rewrite map_tab.
  rewrite (@tab_ext _ b _
    (fun n => tab 21 (fun _ : nat => tab h (fun i => tab w (fun j =>
       Fin (lab n i j))))))
    by (intros n _; apply repeat_tab).
  rewrite (@minus_ten_clip_closed b 21 21 h w
             (fun n _ i j => Fin (lab n i j))
             (from_numpy g) (from_numpy_shape Hg) (or_introl eq_refl)).
  f_equal. unfold ground_false_of.
  apply tab_ext. intros n Hn. apply tab_ext. intros c Hc.
  apply tab_ext. intros i Hi. apply tab_ext. intros j Hj.
  assert (Hch : chan 21 c = c) by reflexivity. rewrite Hch.
  rewrite (from_numpy_get4 Hg Hn Hc Hi Hj). reflexivity.
Qed.

Lemma clipped_presence_closed (g : tensor4) (b k h w : nat) :
  has_shape4 b k h w g -> (0 < k)%nat -> (0 < h)%nat ->
  map3 xclip01 (sum_dim1 (from_numpy g))
  = tab b (fun n => tab h (fun i => tab w (fun j => Fin (label4 g n i j)))).
Proof.
  intros Hg Hk Hh.
  rewrite (sum_dim1_shaped (from_numpy_shape Hg) Hk Hh). rewrite map3_tab.
  apply tab_ext. intros n _. apply tab_ext. intros i _.
  apply tab_ext. intros j _. now rewrite presence_from_numpy.
Qed.

Lemma RegressionDisparity4_label (g : tensor4) (b h w : nat) :
  has_shape4 b 21 h w g -> (0 < h)%nat ->
  RegressionDisparity4_ground_false (from_numpy g)
  = Some (ground_false_of (label4 g) g b h w).
Proof.
  intros Hg Hh. unfold RegressionDisparity4_ground_false.
  rewrite (clipped_presence_closed Hg) by lia.
  now apply label_closed.
Qed.

Lemma RegressionDisparity5_label (g g1 g2 : tensor4) (b k1 k2 h w : nat) :
  has_shape4 b 21 h w g -> has_shape4 b k1 h w g1 ->
  has_shape4 b k2 h w g2 ->
  (0 < k1)%nat -> (0 < k2)%nat -> (0 < h)%nat ->
  RegressionDisparity5_ground_false (from_numpy g) (from_numpy g1)
                                    (from_numpy g2)
  = Some (ground_false_of (label5 g g1 g2) g b h w).
Proof.
  intros Hg Hg1 Hg2 Hk1 Hk2 Hh. unfold RegressionDisparity5_ground_false.
  rewrite (clipped_presence_closed Hg) by lia.
  rewrite (clipped_presence_closed Hg1) by lia.
  rewrite (clipped_presence_closed Hg2) by lia.
  rewrite bcast3_tab. cbn [bind]. rewrite map3_tab.
  rewrite bcast3_tab. cbn [bind]. rewrite map3_tab.
  rewrite bcast3_tab. cbn [bind]. rewrite bcast3_tab. cbn [bind].
  rewrite map3_tab. now apply label_closed.
Qed.

Lemma RegressionDisparity6_label (g g1 : tensor4) (b k1 h w : nat) :
  has_shape4 b 21 h w g -> has_shape4 b k1 h w g1 ->
  (0 < k1)%nat -> (0 < h)%nat ->
  RegressionDisparity6_ground_false (from_numpy g) (from_numpy g1)
  = Some (ground_false_of (label6 g g1) g b h w).
Proof.
  intros Hg Hg1 Hk1 Hh. unfold RegressionDisparity6_ground_false.
  rewrite (clipped_presence_closed Hg) by lia.
  rewrite (clipped_presence_closed Hg1) by lia.
  rewrite bcast3_tab. cbn [bind]. rewrite map3_tab.
  rewrite bcast3_tab. cbn [bind].
  rewrite map3_tab. now apply label_closed.
Qed.

Lemma map4_tab {A B : Type} (f : A -> B) (b k h w : nat)
  (a : nat -> nat -> nat -> nat -> A) :
  map4 f (tab b (fun n => tab k (fun c => tab h (fun i => tab w (a n c i)))))
  = tab b (fun n => tab k (fun c => tab h (fun i => tab w (fun j =>
      f (a n c i j))))).
Proof.
  unfold map4. rewrite map_tab. apply tab_ext. intros n _. apply map3_tab.
Qed.

Lemma from_numpy_as_tab (g : tensor4) (b k h w : nat) :
  has_shape4 b k h w g ->
  from_numpy g
  = tab b (fun n => tab k (fun c => tab h (fun i => tab w (fun j =>
      Fin (at4 g n c i j))))).
Proof. intros Hg. exact (map4_shaped Fin 0 Hg). Qed.

Lemma excess_closed (g1 g : tensor4) (b h w : nat) :
  has_shape4 b 21 h w g1 -> has_shape4 b 21 h w g -> (0 < h)%nat ->
  bind (bcast4 xsub (from_numpy g1) (from_numpy g))
       (fun e => Some (map3 xclip01 (sum_dim1 (map4 xclip01 e))))
  = Some (tab b (fun n => tab h (fun i => tab w (fun j =>
            Fin (excess g1 g n i j))))).
Proof.
  intros Hg1 Hg Hh.
  rewrite (from_numpy_as_tab Hg1), (from_numpy_as_tab Hg).
  rewrite (@bcast4_channels _ _ _ xsub b 21 21 h w) by (left; reflexivity).
  cbn [bind]. f_equal. rewrite map4_tab.
  rewrite (sum_dim1_shaped (has_shape4_tab b 21 h w _)) by lia.
  rewrite map3_tab.
  apply tab_ext. intros n Hn. apply tab_ext. intros i Hi.
  apply tab_ext. intros j Hj.
  rewrite presence_tab by assumption.
  assert (Hch : forall c, chan 21 c = c) by reflexivity.
  rewrite (@tab_ext _ 21 _
    (fun c => Fin (clip01 (at4 g1 n c i j - at4 g n c i j))))
    by (intros c _; rewrite Hch; reflexivity).
  rewrite <- (map_tab Fin). rewrite xsum_fin. reflexivity.
Qed.

Lemma RegressionDisparity8_label (g g1 g2 : tensor4) (b h w : nat) :
  has_shape4 b 21 h w g -> has_shape4 b 21 h w g1 ->
  has_shape4 b 21 h w g2 -> (0 < h)%nat ->
  RegressionDisparity8_ground_false (from_numpy g) (from_numpy g1)
                                    (from_numpy g2)
  = Some (ground_false_of (label8 g g1 g2) g b h w).
Proof.
  intros Hg Hg1 Hg2 Hh. unfold RegressionDisparity8_ground_false.
  rewrite (clipped_presence_closed Hg) by lia.
  pose proof (excess_closed Hg1 Hg Hh) as E1.
  pose proof (excess_closed Hg2 Hg Hh) as E2.
  destruct (bcast4 xsub (from_numpy g1) (from_numpy g)) as [e1|];
    [|discriminate E1].
  cbn [bind] in E1 |- *. injection E1 as ->.
  destruct (bcast4 xsub (from_numpy g2) (from_numpy g)) as [e2|];
    [|discriminate E2].
  cbn [bind] in E2 |- *. injection E2 as ->.
  rewrite bcast3_tab. cbn [bind]. rewrite bcast3_tab. cbn [bind].
  rewrite map3_tab. now apply label_closed.
Qed.

Lemma clip01_mono (x y : R) : x <= y -> clip01 x <= clip01 y.
Proof.
  intros H. unfold clip01, Rmax.
  destruct (Rle_dec x 0); destruct (Rle_dec y 0); unfold Rmin;
    repeat match goal with |- context [Rle_dec ?a ?b] =>
      destruct (Rle_dec a b) end; lra.
Qed.

Lemma clip01_nonneg (x : R) : 0 <= clip01 x.
Proof. apply clip01_range. Qed.

Lemma label4_range (g : tensor4) (n i j : nat) : 0 <= label4 g n i j <= 1.
Proof. apply clip01_range. Qed.

Lemma label6_max (g g1 : tensor4) (n i j : nat) :
  label6 g g1 n i j = Rmax (label4 g n i j) (label4 g1 n i j).
Proof.
  unfold label6.
  pose proof (label4_range g n i j) as H. pose proof (label4_range g1 n i j) as H1.
  unfold Rmax. destruct (Rle_dec (label4 g n i j) (label4 g1 n i j)).
  - rewrite (@clip01_id (label4 g1 n i j - label4 g n i j)) by lra.
    rewrite clip01_id by lra. lra.
  - rewrite (@clip01_low (label4 g1 n i j - label4 g n i j)) by lra.
    rewrite clip01_id by lra. lra.
Qed.

Lemma ground_false_of_entry (lab : nat -> nat -> nat -> R) (g : tensor4)
  (b h w n c i j : nat) :
  (n < b)%nat -> (c < 21)%nat -> (i < h)%nat -> (j < w)%nat ->
  entry4 (ground_false_of lab g b h w) n c i j
  = Some (Fin (clip01 (lab n i j - at4 g n c i j * 10))).
Proof.
  intros Hn Hc Hi Hj. unfold ground_false_of. now rewrite entry4_tab.
Qed.

Lemma ground_false_of_ext (lab lab' : nat -> nat -> nat -> R) (g : tensor4)
  (b h w : nat) :
  (forall n i j, (n < b)%nat -> (i < h)%nat -> (j < w)%nat ->
     lab n i j = lab' n i j) ->
  ground_false_of lab g b h w = ground_false_of lab' g b h w.
Proof.
  intros H. unfold ground_false_of.
  apply tab_ext. intros n Hn. apply tab_ext. intros c Hc.
  apply tab_ext. intros i Hi. apply tab_ext. intros j Hj.
  now rewrite H.
Qed.

Lemma sumR_zero (l : list R) : Forall (fun x => x = 0) l -> sumR l = 0.
Proof.
  induction 1 as [|x l Hx _ IH]; [reflexivity|].
  cbn [sumR]. rewrite Hx, IH. lra.
Qed.

Lemma excess_self (g : tensor4) (n i j : nat) : excess g g n i j = 0.
Proof.
  unfold excess. rewrite sumR_zero.
  - apply clip01_low. lra.
  - apply Forall_tab. intros c _. apply clip01_low. lra.
Qed.

Lemma excess_nonneg (g1 g : tensor4) (n i j : nat) : 0 <= excess g1 g n i j.
Proof. apply clip01_range. Qed.

(** X10: [RegressionDisparity6] repeats the pointwise maximum of the two
    clipped presence maps: the presence of the primary ground truth
    plus what the other presence has beyond it is the greater of the
    two. *)
Theorem RegressionDisparity6_takes_maximum (g g1 : tensor4)
  (b k1 h w n c i j : nat) :
  has_shape4 b 21 h w g -> has_shape4 b k1 h w g1 ->
  (0 < k1)%nat -> (0 < h)%nat ->
  (n < b)%nat -> (c < 21)%nat -> (i < h)%nat -> (j < w)%nat ->
  exists gf,
    RegressionDisparity6_ground_false (from_numpy g) (from_numpy g1)
      = Some gf /\
    has_shape4 b 21 h w gf /\
    entry4 gf n c i j
      = Some (Fin (clip01 (Rmax (clip01 (presence_np g n i j))
                                (clip01 (presence_np g1 n i j))
                           - at4 g n c i j * 10))).
Proof.
  intros Hg Hg1 Hk1 Hh Hn Hc Hi Hj.
  exists (ground_false_of (label6 g g1) g b h w).
  split; [now apply (RegressionDisparity6_label Hg Hg1)|].
  split; [apply has_shape4_tab|].
  rewrite ground_false_of_entry by assumption.
  now rewrite label6_max.
Qed.

Lemma RegressionDisparity6_takes_maximum_witness :
  exists gf,
    RegressionDisparity6_ground_false (from_numpy row_truth)
                                      (from_numpy row_truth) = Some gf /\
    has_shape4 1 21 1 4 gf /\
    entry4 gf 0 2 0 3
      = Some (Fin (clip01 (Rmax (clip01 (presence_np row_truth 0 0 3))
                                (clip01 (presence_np row_truth 0 0 3))
                           - at4 row_truth 0 2 0 3 * 10))).
Proof.
  apply (@RegressionDisparity6_takes_maximum row_truth row_truth
           1%nat 21%nat 1%nat 4%nat 0%nat 2%nat 0%nat 3%nat);
    solve [exact has_shape4_row_truth | lia].
Defined.

(** X11: the selectors that take other labels only add to the ground false
    of [RegressionDisparity4]: entry by entry, what
    [RegressionDisparity6], [RegressionDisparity5] and
    [RegressionDisparity8] build is at least what
    [RegressionDisparity4] builds from the primary ground truth alone,
    and when the other labels are the primary one all four agree. *)
Theorem other_labels_only_add (g g1 g2 : tensor4) (b h w n c i j : nat) :
  has_shape4 b 21 h w g -> has_shape4 b 21 h w g1 ->
  has_shape4 b 21 h w g2 -> (0 < h)%nat ->
  (n < b)%nat -> (c < 21)%nat -> (i < h)%nat -> (j < w)%nat ->
  (exists gf4 gf5 gf6 gf8 a4 a5 a6 a8,
     RegressionDisparity4_ground_false (from_numpy g) = Some gf4 /\
     RegressionDisparity5_ground_false (from_numpy g) (from_numpy g1)
       (from_numpy g2) = Some gf5 /\
     RegressionDisparity6_ground_false (from_numpy g) (from_numpy g1)
       = Some gf6 /\
     RegressionDisparity8_ground_false (from_numpy g) (from_numpy g1)
       (from_numpy g2) = Some gf8 /\
     entry4 gf4 n c i j = Some (Fin a4) /\
     entry4 gf5 n c i j = Some (Fin a5) /\
     entry4 gf6 n c i j = Some (Fin a6) /\
     entry4 gf8 n c i j = Some (Fin a8) /\
     a4 <= a6 /\ a6 <= a5 /\ a4 <= a8) /\
  RegressionDisparity5_ground_false (from_numpy g) (from_numpy g)
    (from_numpy g) = RegressionDisparity4_ground_false (from_numpy g) /\
  RegressionDisparity6_ground_false (from_numpy g) (from_numpy g)
    = RegressionDisparity4_ground_false (from_numpy g) /\
  RegressionDisparity8_ground_false (from_numpy g) (from_numpy g)
    (from_numpy g) = RegressionDisparity4_ground_false (from_numpy g).
Proof.
  intros Hg Hg1 Hg2 Hh Hn Hc Hi Hj.
  assert (H21 : (0 < 21)%nat) by lia.
  pose proof (label4_range g n i j) as R0.
  pose proof (label4_range g1 n i j) as R1.
  pose proof (label4_range g2 n i j) as R2.
  split; [|split; [|split]].
  - do 4 eexists. do 4 eexists.
    split; [exact (RegressionDisparity4_label Hg Hh)|].
    split; [exact (RegressionDisparity5_label Hg Hg1 Hg2 H21 H21 Hh)|].
    split; [exact (RegressionDisparity6_label Hg Hg1 H21 Hh)|].
    split; [exact (RegressionDisparity8_label Hg Hg1 Hg2 Hh)|].
    rewrite !ground_false_of_entry by assumption.
    repeat (split; [reflexivity|]).
    pose proof (clip01_nonneg (label4 g1 n i j - label4 g n i j)) as P1.
    pose proof (clip01_nonneg (label4 g2 n i j - label4 g n i j)) as P2.
    pose proof (excess_nonneg g1 g n i j) as Q1.
    pose proof (excess_nonneg g2 g n i j) as Q2.
    split; [|split]; apply clip01_mono; apply Rplus_le_compat_r.
    + unfold label6. rewrite <- (@clip01_id (label4 g n i j)) at 1 by lra.
      apply clip01_mono. lra.
    + unfold label6, label5. apply clip01_mono. lra.
    + unfold label8. rewrite <- (@clip01_id (label4 g n i j)) at 1 by lra.
      apply clip01_mono. lra.
  - rewrite (RegressionDisparity5_label Hg Hg Hg H21 H21 Hh),
            (RegressionDisparity4_label Hg Hh).
    f_equal. apply ground_false_of_ext. intros n' i' j' _ _ _.
    unfold label5. pose proof (label4_range g n' i' j').
    rewrite (@clip01_low (label4 g n' i' j' - label4 g n' i' j')) by lra.
    replace (label4 g n' i' j' + 0 + 0) with (label4 g n' i' j') by lra.
    apply clip01_id. lra.
  - rewrite (RegressionDisparity6_label Hg Hg H21 Hh),
            (RegressionDisparity4_label Hg Hh).
    f_equal. apply ground_false_of_ext. intros n' i' j' _ _ _.
    rewrite label6_max. unfold Rmax.
    destruct (Rle_dec _ _); reflexivity.
  - rewrite (RegressionDisparity8_label Hg Hg Hg Hh),
            (RegressionDisparity4_label Hg Hh).
    f_equal. apply ground_false_of_ext. intros n' i' j' _ _ _.
    unfold label8. rewrite !excess_self.
    pose proof (label4_range g n' i' j').
    replace (label4 g n' i' j' + 0 + 0) with (label4 g n' i' j') by lra.
    apply clip01_id. lra.
Qed.

Lemma other_labels_only_add_witness :
  (exists gf4 gf5 gf6 gf8 a4 a5 a6 a8,
     RegressionDisparity4_ground_false (from_numpy row_truth) = Some gf4 /\
     RegressionDisparity5_ground_false (from_numpy row_truth)
       (from_numpy row_truth) (from_numpy row_truth) = Some gf5 /\
     RegressionDisparity6_ground_false (from_numpy row_truth)
       (from_numpy row_truth) = Some gf6 /\
     RegressionDisparity8_ground_false (from_numpy row_truth)
       (from_numpy row_truth) (from_numpy row_truth) = Some gf8 /\
     entry4 gf4 0 2 0 3 = Some (Fin a4) /\
     entry4 gf5 0 2 0 3 = Some (Fin a5) /\
     entry4 gf6 0 2 0 3 = Some (Fin a6) /\
     entry4 gf8 0 2 0 3 = Some (Fin a8) /\
     a4 <= a6 /\ a6 <= a5 /\ a4 <= a8) /\
  RegressionDisparity5_ground_false (from_numpy row_truth)
    (from_numpy row_truth) (from_numpy row_truth)
    = RegressionDisparity4_ground_false (from_numpy row_truth) /\
  RegressionDisparity6_ground_false (from_numpy row_truth)
    (from_numpy row_truth)
    = RegressionDisparity4_ground_false (from_numpy row_truth) /\
  RegressionDisparity8_ground_false (from_numpy row_truth)
    (from_numpy row_truth) (from_numpy row_truth)
    = RegressionDisparity4_ground_false (from_numpy row_truth).
Proof.
  apply (@other_labels_only_add row_truth row_truth row_truth
           1%nat 1%nat 4%nat 0%nat 2%nat 0%nat 3%nat);
    solve [exact has_shape4_row_truth | lia].
Defined.

Lemma label_ranges (g g1 g2 : tensor4) (n i j : nat) :
  0 <= label5 g g1 g2 n i j <= 1 /\ 0 <= label6 g g1 n i j <= 1 /\
  0 <= label8 g g1 g2 n i j <= 1.
Proof. repeat split; apply clip01_range. Qed.

(** X12: in every selector that repeats a presence map, a channel's own
    ground truth is taken out of its ground false: the label repeated
    over the channels never exceeds 1 and ten times the ground truth
    is subtracted, so the ground false of [RegressionDisparity4],
    [RegressionDisparity5], [RegressionDisparity6] and
    [RegressionDisparity8] is 0 wherever the channel's own ground truth
    is at least 0.1; where the own ground truth is 0, the ground false
    of [RegressionDisparity4] is the clipped presence itself. *)
Theorem own_ground_truth_is_excluded (g g1 g2 : tensor4)
  (b h w n c i j : nat) :
  has_shape4 b 21 h w g -> has_shape4 b 21 h w g1 ->
  has_shape4 b 21 h w g2 -> (0 < h)%nat ->
  (n < b)%nat -> (c < 21)%nat -> (i < h)%nat -> (j < w)%nat ->
  exists gf4 gf5 gf6 gf8,
    RegressionDisparity4_ground_false (from_numpy g) = Some gf4 /\
    RegressionDisparity5_ground_false (from_numpy g) (from_numpy g1)
      (from_numpy g2) = Some gf5 /\
    RegressionDisparity6_ground_false (from_numpy g) (from_numpy g1)
      = Some gf6 /\
    RegressionDisparity8_ground_false (from_numpy g) (from_numpy g1)
      (from_numpy g2) = Some gf8 /\
    (1 / 10 <= at4 g n c i j ->
       entry4 gf4 n c i j = Some (Fin 0) /\
       entry4 gf5 n c i j = Some (Fin 0) /\
       entry4 gf6 n c i j = Some (Fin 0) /\
       entry4 gf8 n c i j = Some (Fin 0)) /\
    (at4 g n c i j = 0 ->
       entry4 gf4 n c i j = Some (Fin (clip01 (presence_np g n i j)))).
Proof.
  intros Hg Hg1 Hg2 Hh Hn Hc Hi Hj.
  assert (H21 : (0 < 21)%nat) by lia.
  do 4 eexists.
  split; [exact (RegressionDisparity4_label Hg Hh)|].
  split; [exact (RegressionDisparity5_label Hg Hg1 Hg2 H21 H21 Hh)|].
  split; [exact (RegressionDisparity6_label Hg Hg1 H21 Hh)|].
  split; [exact (RegressionDisparity8_label Hg Hg1 Hg2 Hh)|].
  rewrite !ground_false_of_entry by assumption.
  pose proof (label4_range g n i j) as R4.
  destruct (label_ranges g g1 g2 n i j) as (R5 & R6 & R8).
  split.
  - intros Hat. repeat split; do 2 f_equal; apply clip01_low; lra.
  - intros Hz. do 2 f_equal. rewrite Hz.
    replace (label4 g n i j - 0 * 10) with (label4 g n i j) by lra.
    apply clip01_id. exact R4.
Qed.

Lemma own_ground_truth_is_excluded_witness :
  exists gf4 gf5 gf6 gf8,
    RegressionDisparity4_ground_false (from_numpy row_truth) = Some gf4 /\
    RegressionDisparity5_ground_false (from_numpy row_truth)
      (from_numpy row_truth) (from_numpy row_truth) = Some gf5 /\
    RegressionDisparity6_ground_false (from_numpy row_truth)
      (from_numpy row_truth) = Some gf6 /\
    RegressionDisparity8_ground_false (from_numpy row_truth)
      (from_numpy row_truth) (from_numpy row_truth) = Some gf8 /\
    (1 / 10 <= at4 row_truth 0 2 0 0 ->
       entry4 gf4 0 2 0 0 = Some (Fin 0) /\
       entry4 gf5 0 2 0 0 = Some (Fin 0) /\
       entry4 gf6 0 2 0 0 = Some (Fin 0) /\
       entry4 gf8 0 2 0 0 = Some (Fin 0)) /\
    (at4 row_truth 0 2 0 0 = 0 ->
       entry4 gf4 0 2 0 0 = Some (Fin (clip01 (presence_np row_truth 0 0 0)))).
Proof.
  apply (@own_ground_truth_is_excluded row_truth row_truth row_truth
           1%nat 1%nat 4%nat 0%nat 2%nat 0%nat 0%nat);
    solve [exact has_shape4_row_truth | lia].
Defined.

(** ** The optional second adversarial output *)

Lemma complement_returns (gt : xtensor4) (b k h w : nat) :
  has_shape4 b k h w gt -> exists gf1, complement_ground_false gt = Some gf1.
Proof.
  intros Hx. unfold complement_ground_false, ones_like.
  rewrite (map4_shaped (fun _ : xval => Fin 1) (Fin 0) Hx).
  rewrite (@minus_ten_clip_closed b k k h w _ _ Hx (or_introl eq_refl)).
  eexists. reflexivity.
Qed.

(** X13: [RegressionDisparityx4] tests [y_adv2] with [if y_adv2:], the truth
    value of a tensor: a tensor with any number of entries other than
    one makes the forward pass raise, and a tensor whose single entry
    is 0 counts as absent.  When [y_adv2] is absent,
    [RegressionDisparityx4] and [RegressionDisparityx5] normalise the
    ground false of the generator; the complement they compute first
    is dropped. *)
Theorem truth_value_of_y_adv2 (L W : Type) (self : disparity L W)
  (y y_adv : tensor4) (weight : option W) (mode : string)
  (gt gf_gen : xtensor4) (b k h w : nat) :
  mode_ok mode = true ->
  pseudo_label_generator self y = Some (gt, gf_gen) ->
  has_shape4 b k h w gt ->
  (forall t, length (flatten4 t) <> 1%nat ->
     RegressionDisparityx4_forward self y y_adv weight (Some t) mode
       = (Raised, self)) /\
  (forall t, flatten4 t = [0] ->
     RegressionDisparityx4_ground_false gt gf_gen (Some t)
       = normalize_by_shape gf_gen) /\
  RegressionDisparityx4_ground_false gt gf_gen None
    = normalize_by_shape gf_gen /\
  RegressionDisparityx5_ground_false gt gf_gen None
    = normalize_by_shape gf_gen.
Proof.
  intros Hm Hg Hgt.
  destruct (complement_returns Hgt) as [gf1 Hc].
  split; [|split; [|split]].
  - intros t Hlen. unfold RegressionDisparityx4_forward.
    rewrite Hm, Hg. unfold RegressionDisparityx4_ground_false.
    rewrite Hc. cbn [bind]. unfold truthy.
    destruct (flatten4 t) as [|v [|v' l]]; cbn [bind]; try reflexivity.
    exfalso. apply Hlen. reflexivity.
  - intros t Ht. unfold RegressionDisparityx4_ground_false.
    rewrite Hc. cbn [bind]. unfold truthy. rewrite Ht.
    destruct (Req_dec_T 0 0) as [_|Hne]; [reflexivity|].
    exfalso. now apply Hne.
  - unfold RegressionDisparityx4_ground_false. rewrite Hc. reflexivity.
  - unfold RegressionDisparityx5_ground_false, RegressionDisparityx5_combined.
    rewrite Hc. reflexivity.
Qed.

Lemma truth_value_of_y_adv2_witness :
  exists gen gf,
    PseudoLabelGenerator_init 21 1 4 1 = Some gen /\
    (forall t, length (flatten4 t) <> 1%nat ->
       RegressionDisparityx4_forward
         (new_disparity echo_criterion (PseudoLabelGenerator_forward gen))
         y_row y_row None (Some t) "max"
       = (Raised,
          new_disparity echo_criterion (PseudoLabelGenerator_forward gen))) /\
    (forall t, flatten4 t = [0] ->
       RegressionDisparityx4_ground_false (from_numpy row_truth)
         (from_numpy gf) (Some t)
       = normalize_by_shape (from_numpy gf)) /\
    RegressionDisparityx4_ground_false (from_numpy row_truth)
      (from_numpy gf) None
      = normalize_by_shape (from_numpy gf) /\
    RegressionDisparityx5_ground_false (from_numpy row_truth)
      (from_numpy gf) None
      = normalize_by_shape (from_numpy gf).
Proof.
  destruct forward_y_row as (gen & gf & Hi & Hf).
  exists gen, gf. split; [exact Hi|].
  exact (@truth_value_of_y_adv2 _ unit
           (new_disparity echo_criterion (PseudoLabelGenerator_forward gen))
           y_row y_row None "max"%string (from_numpy row_truth)
           (from_numpy gf) 1%nat 21%nat 1%nat 4%nat eq_refl Hf
           (from_numpy_shape has_shape4_row_truth)).
Defined.

(** ** The selectors that divide by the maximum of a sample *)


Lemma sumR_nonneg (l : list R) :
  Forall (fun x => 0 <= x) l ->
  0 <= sumR l /\ forall x, In x l -> x <= sumR l.
Proof.
  induction 1 as [|a l Ha _ [IH1 IH2]].
  - split; [simpl; lra | intros x []].
  - cbn [sumR]. split; [lra|].
    intros x [<- | Hx]; [lra|]. specialize (IH2 x Hx). lra.
Qed.

Lemma presence_np_bounds (g : tensor4) (b k h w n c i j : nat) :
  has_shape4 b k h w g ->
  (forall c', (c' < k)%nat -> 0 <= at4 g n c' i j) ->
  (n < b)%nat -> (c < k)%nat ->
  0 <= presence_np g n i j /\ at4 g n c i j <= presence_np g n i j.
Proof.
  intros Hg Hpos Hn Hc. unfold presence_np.
  pose proof (shape4_channels Hg Hn) as Hlen.
  assert (HF : Forall (fun x => 0 <= x)
                 (map (fun m : image => at2 m i j) (nth n g []))).
  { apply Forall_forall. intros x Hx. apply in_map_iff in Hx.
    destruct Hx as (m & <- & Hm).
    destruct (In_nth _ _ [] Hm) as (c' & Hc' & <-).
    apply (Hpos c'). eapply Nat.lt_le_trans; [exact Hc'|].
    apply Nat.eq_le_incl. exact Hlen. }
  destruct (sumR_nonneg HF) as [H0 Hle]. split; [exact H0|].
  apply Hle. apply in_map_iff. exists (nth c (nth n g []) []).
  split; [reflexivity|]. apply nth_In.
  eapply Nat.lt_le_trans; [exact Hc|].
  apply Nat.eq_le_incl. symmetry. exact Hlen.
Qed.





(** ** From the decoded peak to the ground truth *)

Lemma nth_map_in {A B : Type} (f : A -> B) (l : list A) (n : nat)
  (d : B) (d' : A) :
  (n < length l)%nat -> nth n (map f l) d = f (nth n l d').
Proof.
  intros Hn. rewrite (nth_indep _ d (f d')) by now rewrite length_map.
  apply map_nth.
Qed.

Lemma entry4_map4 {A B : Type} (f : A -> B)
  (t : list (list (list (list A)))) (n c i j : nat) (v : A) :
  entry4 t n c i j = Some v -> entry4 (map4 f t) n c i j = Some (f v).
Proof.
  unfold entry4, pixel, map4, map3. intros H.
  rewrite nth_error_map.
  destruct (nth_error t n) as [s|]; [|discriminate]. cbn [option_map bind] in *.
  rewrite nth_error_map.
  destruct (nth_error s c) as [m|]; [|discriminate]. cbn [option_map bind] in *.
  rewrite nth_error_map.
  destruct (nth_error m i) as [r|]; [|discriminate]. cbn [option_map bind] in *.
  rewrite nth_error_map. now rewrite H.
Qed.

Lemma gathered_peak_value (wd ht s t : Z) (r : Z -> Z) (y : tensor4)
  (b k hy wy n c : nat) :
  has_shape4 b k hy wy y ->
  (0 < b)%nat -> (0 < k)%nat -> (0 < hy)%nat -> (0 < wy)%nat ->
  (n < b)%nat -> (c < k)%nat -> (0 <= t)%Z ->
  (0 <= r (fst (peak_of wy (nth c (nth n y []) []))) < wd)%Z ->
  (0 <= r (snd (peak_of wy (nth c (nth n y []) []))) < ht)%Z ->
  entry4 (gathered_truth (template_bank wd ht s t) r
            (Z.to_nat ht) (Z.to_nat wd) y) n c
         (Z.to_nat (r (snd (peak_of wy (nth c (nth n y []) [])))))
         (Z.to_nat (r (fst (peak_of wy (nth c (nth n y []) [])))))
  = Some 1.
Proof.
  intros Hy Hb Hk Hhy Hwy Hn Hc Ht Hx Hyy. unfold gathered_truth.
  rewrite (shape4_of Hy Hb Hk Hhy).
  rewrite entry4_tab by (assumption || lia). f_equal.
  cbv zeta. unfold template_bank.
  rewrite nth_tab by lia. rewrite nth_tab by lia.
  unfold template. rewrite at2_tab by lia.
  rewrite !Z2Nat.id by lia. apply template_value_peak. exact Ht.
Qed.

Lemma decoded_preds (y : tensor4) (b k hy wy n c : nat)
  (preds : list (list (Z * Z))) (mv : list (list R)) :
  has_shape4 b k hy wy y ->
  (0 < b)%nat -> (0 < k)%nat -> (0 < hy)%nat -> (0 < wy)%nat ->
  (n < b)%nat -> (c < k)%nat ->
  get_max_preds y = Some (preds, mv) ->
  nth c (nth n preds []) (0, 0)%Z = peak_of wy (nth c (nth n y []) []) /\
  (0 <= fst (peak_of wy (nth c (nth n y []) [])) < Z.of_nat wy)%Z /\
  (0 <= snd (peak_of wy (nth c (nth n y []) [])) < Z.of_nat hy)%Z.
Proof.
  intros Hy Hb Hk Hhy Hwy Hn Hc Hg.
  destruct (get_max_preds_closed Hy Hb Hk Hhy Hwy) as [mv' Hc'].
  rewrite Hc' in Hg. injection Hg as <- _.
  pose proof (has_shape4_sample Hy Hn) as H3.
  pose proof (has_shape3_channel H3 Hc) as H2.
  split; [|exact (peak_of_range H2 Hhy Hwy)].
  destruct Hy as [Hl _]. destruct H3 as [Hl3 _].
  rewrite (@nth_map_in _ _ _ y n [] [])
    by (eapply Nat.lt_le_trans;
        [exact Hn | apply Nat.eq_le_incl; symmetry; exact Hl]).
  now rewrite (@nth_map_in _ _ _ (nth n y []) c (0, 0)%Z [])
    by (eapply Nat.lt_le_trans;
        [exact Hc | apply Nat.eq_le_incl; symmetry; exact Hl3]).
Qed.

Lemma lowres_peak_entry (divisor : Z) (out : nat) (K s t : Z) (y : tensor4)
  (b k hy wy n c : nat) :
  has_shape4 b k hy wy y ->
  (0 < b)%nat -> (0 < k)%nat -> (0 < hy)%nat -> (0 < wy)%nat ->
  (n < b)%nat -> (c < k)%nat -> (0 <= t)%Z -> (0 < divisor)%Z ->
  (Z.of_nat hy <= Z.of_nat out * divisor)%Z ->
  (Z.of_nat wy <= Z.of_nat out * divisor)%Z ->
  exists gt gf,
    lowres_forward_np divisor out
      (template_generator K (Z.of_nat out) (Z.of_nat out) s t) y
      = Some (gt, gf) /\
    entry4 gt n c
      (Z.to_nat (Z.quot (snd (peak_of wy (nth c (nth n y []) []))) divisor))
      (Z.to_nat (Z.quot (fst (peak_of wy (nth c (nth n y []) []))) divisor))
    = Some 1.
Proof.
  intros Hy Hb Hk Hhy Hwy Hn Hc Ht Hd Hfh Hfw.
  set (gen := template_generator K (Z.of_nat out) (Z.of_nat out) s t).
  assert (Hbank : has_shape4 out out out out (heatmaps gen)).
  { pose proof (has_shape4_template_bank (Z.of_nat out) (Z.of_nat out) s t)
      as H. rewrite !Nat2Z.id in H. exact H. }
  do 2 eexists. split.
  - apply (@lowres_forward_np_closed divisor out gen b k hy wy);
      assumption.
  - pose proof (has_shape4_sample Hy Hn) as H3.
    pose proof (has_shape3_channel H3 Hc) as H2.
    destruct (peak_of_range H2 Hhy Hwy) as [Hx Hyy].
    pose proof (@gathered_peak_value (Z.of_nat out) (Z.of_nat out) s t
                  (fun z => Z.quot z divisor) y b k hy wy n c
                  Hy Hb Hk Hhy Hwy Hn Hc Ht) as G.
    rewrite !Nat2Z.id in G. unfold gen. cbn [heatmaps template_generator].
    apply G.
    + cbv beta. split; [apply Z.quot_pos; [exact (proj1 Hx) | lia]|].
      apply Z.quot_lt_upper_bound; [exact (proj1 Hx) | lia |].
      eapply Z.lt_le_trans; [exact (proj2 Hx) | lia].
    + cbv beta. split; [apply Z.quot_pos; [exact (proj1 Hyy) | lia]|].
      apply Z.quot_lt_upper_bound; [exact (proj1 Hyy) | lia |].
      eapply Z.lt_le_trans; [exact (proj2 Hyy) | lia].
Qed.

(** X15: the ground truth carries the decoded peak: in every channel of
    every sample, the ground truth that [forward] returns holds 1 at
    the position that [get_max_preds] decoded from the prediction, for
    [PseudoLabelGenerator]; at that position divided by 2, for
    [PseudoLabelGenerator03]; and at that position divided by 4, for
    [PseudoLabelGenerator01] with an even [sigma]. *)
Theorem decoded_peak_holds_one (v : variant) (K ht wd s : Z) (y : tensor4)
  (b k hy wy n c : nat) :
  (0 <= K)%Z -> (0 < ht)%Z -> (0 < wd)%Z -> (0 < s)%Z ->
  (v = Low01 -> Z.even s = true) ->
  fits v K ht wd k hy wy ->
  has_shape4 b k hy wy y ->
  (0 < b)%nat -> (0 < k)%nat -> (0 < hy)%nat -> (0 < wy)%nat ->
  (n < b)%nat -> (c < k)%nat ->
  exists gen preds mv gt gf,
    init_of v K ht wd s = Some gen /\
    get_max_preds y = Some (preds, mv) /\
    forward_of v gen y = Some (gt, gf) /\
    entry4 gt n c
      (Z.to_nat (rescale_of v (snd (nth c (nth n preds []) (0, 0)%Z))))
      (Z.to_nat (rescale_of v (fst (nth c (nth n preds []) (0, 0)%Z))))
    = Some (Fin 1).
Proof.
  intros HK Hh Hw Hs Heven Hfit Hy Hb Hk Hhy Hwy Hn Hc.
  destruct (get_max_preds_closed Hy Hb Hk Hhy Hwy) as [mv Hmax].
  destruct (decoded_preds Hy Hb Hk Hhy Hwy Hn Hc Hmax) as (Hp & Hx & Hyy).
  destruct v; cbn [fits init_of forward_of rescale_of] in *.
  - destruct Hfit as (-> & -> & ->).
    set (gen := template_generator K ht wd s (s * 3)).
    exists gen. do 4 eexists.
    split; [apply PseudoLabelGenerator_init_closed; lia|].
    split; [exact Hmax|].
    assert (Hnp : PseudoLabelGenerator_forward_np gen y =
               Some (gathered_truth (heatmaps gen) (fun z => z)
                       (Z.to_nat ht) (Z.to_nat wd) y,
                     cross_suppressed (false_matrix gen)
                       (gathered_truth (heatmaps gen) (fun z => z)
                          (Z.to_nat ht) (Z.to_nat wd) y))).
    { apply (@PseudoLabelGenerator_forward_np_closed gen b (Z.to_nat K));
        try lia.
      - exact Hy.
      - apply has_shape4_template_bank.
      - apply has_shape2_suppression. }
    split.
    + unfold PseudoLabelGenerator_forward. rewrite Hnp. reflexivity.
    + cbn [fst]. rewrite Hp. apply entry4_map4.
      unfold gen. cbn [heatmaps template_generator].
      apply (@gathered_peak_value wd ht s (s * 3) (fun z => z) y b
               (Z.to_nat K) (Z.to_nat ht) (Z.to_nat wd) n c);
        try assumption; lia.
  - destruct Hfit as (-> & -> & Hfh & Hfw).
    destruct (Zeven_ex s) as [m Hm]; [apply Zeven_bool_iff; now apply Heven|].
    subst s.
    destruct (@lowres_peak_entry 4 16 K (2 * m) (m * 3) y b k hy wy n c)
      as (gt & gf & Hf & He); try assumption; try lia.
    exists (template_generator K 16 16 (2 * m) (m * 3)),
           (map (map (peak_of wy)) y), mv.
    exists (from_numpy gt), (from_numpy gf).
    split.
    { rewrite PseudoLabelGenerator01_init_closed by lia.
      f_equal. apply frac_generator_even; lia. }
    split; [exact Hmax|]. split.
    + unfold PseudoLabelGenerator01_forward.
      change (Z.of_nat 16) with 16%Z in Hf. rewrite Hf. reflexivity.
    + cbn [fst]. rewrite Hp. apply entry4_map4. exact He.
  - destruct Hfit as (-> & -> & Hfh & Hfw).
    destruct (@lowres_peak_entry 2 32 K s (s * 2) y b k hy wy n c)
      as (gt & gf & Hf & He); try assumption; try lia.
    exists (template_generator K 32 32 s (s * 2)),
           (map (map (peak_of wy)) y), mv.
    exists (from_numpy gt), (from_numpy gf).
    split; [apply PseudoLabelGenerator03_init_closed; lia|].
    split; [exact Hmax|]. split.
    + unfold PseudoLabelGenerator03_forward.
      change (Z.of_nat 32) with 32%Z in Hf. rewrite Hf. reflexivity.
    + cbn [fst]. rewrite Hp. apply entry4_map4. exact He.
Qed.

Lemma decoded_peak_holds_one_witness :
  exists gen preds mv gt gf,
    init_of Low01 21 16 16 2 = Some gen /\
    get_max_preds (y_zero64 21) = Some (preds, mv) /\
    forward_of Low01 gen (y_zero64 21) = Some (gt, gf) /\
    entry4 gt 0 3
      (Z.to_nat (rescale_of Low01 (snd (nth 3 (nth 0 preds []) (0, 0)%Z))))
      (Z.to_nat (rescale_of Low01 (fst (nth 3 (nth 0 preds []) (0, 0)%Z))))
    = Some (Fin 1).
Proof.
  refine (@decoded_peak_holds_one Low01 21%Z 16%Z 16%Z 2%Z (y_zero64 21)
            1%nat 21%nat 64%nat 64%nat 0%nat 3%nat
            _ _ _ _ (fun _ => eq_refl) _ (has_shape4_y_zero64 21)
            _ _ _ _ _ _); try lia.
  cbn [fits]. repeat split; lia.
Defined.

(** ** The two constructions of a ground false *)

Lemma all4_at4 (P : R -> Prop) (t : tensor4) (b k h w n c i j : nat) :
  all4 P t -> has_shape4 b k h w t ->
  (n < b)%nat -> (c < k)%nat -> (i < h)%nat -> (j < w)%nat ->
  P (at4 t n c i j).
Proof.
  intros Hall Ht Hn Hc Hi Hj. unfold at4, get4, get3, get2.
  pose proof (has_shape4_sample Ht Hn) as H3.
  pose proof (has_shape3_channel H3 Hc) as H2.
  pose proof (has_shape2_row H2 Hi) as Hr.
  destruct Ht as [Hl _]. destruct H3 as [Hl3 _]. destruct H2 as [Hl2 _].
  unfold all4, all2 in Hall.
  assert (A1 : Forall (Forall (Forall P)) (nth n t [])).
  { apply (Forall_nth_in [] Hall).
    eapply Nat.lt_le_trans; [exact Hn|].
    apply Nat.eq_le_incl. symmetry. exact Hl. }
  assert (A2 : Forall (Forall P) (nth c (nth n t []) [])).
  { apply (Forall_nth_in [] A1).
    eapply Nat.lt_le_trans; [exact Hc|].
    apply Nat.eq_le_incl. symmetry. exact Hl3. }
  assert (A3 : Forall P (nth i (nth c (nth n t []) []) [])).
  { apply (Forall_nth_in [] A2).
    eapply Nat.lt_le_trans; [exact Hi|].
    apply Nat.eq_le_incl. symmetry. exact Hl2. }
  apply (Forall_nth_in 0 A3).
  eapply Nat.lt_le_trans; [exact Hj|].
  apply Nat.eq_le_incl. symmetry. exact Hr.
Qed.

Lemma sumR_skip (f : nat -> R) (c : nat) (l : list nat) :
  NoDup l -> In c l ->
  sumR (map (fun q => if Nat.eqb q c then 0 else f q) l)
  = sumR (map f l) - f c.
Proof.
  induction 1 as [|a l Ha Hnd IH]; intros Hin; [destruct Hin|].
  cbn [map sumR]. destruct Hin as [-> | Hin].
  - rewrite Nat.eqb_refl.
    assert (E : map (fun q => if Nat.eqb q c then 0 else f q) l = map f l).
    { apply map_ext_in. intros q Hq.
      destruct (Nat.eqb_spec q c) as [->|]; [contradiction|reflexivity]. }
    rewrite E. lra.
  - destruct (Nat.eqb_spec a c) as [->|]; [contradiction|].
    rewrite (IH Hin). lra.
Qed.

Lemma presence_np_as_tab (g : tensor4) (n i j : nat) :
  presence_np g n i j
  = sumR (tab (length (nth n g [])) (fun q => at4 g n q i j)).
Proof.
  unfold presence_np.
  rewrite <- (tab_nth (nth n g []) []) at 1.
  now rewrite map_tab.
Qed.

Lemma sum_others_presence (g : tensor4) (b k h w n c i j : nat) :
  has_shape4 b k h w g -> (n < b)%nat -> (c < k)%nat ->
  sum_others g n c i j = presence_np g n i j - at4 g n c i j.
Proof.
  intros Hg Hn Hc. rewrite presence_np_as_tab. unfold sum_others, tab.
  apply (@sumR_skip (fun q => at4 g n q i j) c); [apply seq_NoDup|].
  apply in_seq. split; [lia|]. cbn.
  eapply Nat.lt_le_trans; [exact Hc|].
  apply Nat.eq_le_incl. symmetry. exact (shape4_channels Hg Hn).
Qed.

Lemma clip01_below (x : R) : 0 <= x -> clip01 x <= x.
Proof.
  intros H. unfold clip01, Rmin, Rmax.
  destruct (Rle_dec x 0); destruct (Rle_dec _ 1); lra.
Qed.

(** X16: for a generator built with a positive [sigma], the ground
    false that [PseudoLabelGenerator.forward] returns is the
    total presence minus the channel's own map, clipped; the ground
    false that [RegressionDisparity4] builds from the same ground
    truth is never greater, entry by entry. *)
Theorem presence_ground_false_is_sharper (K ht wd s : Z) (gen : generator)
  (y g gf : tensor4) (b h w n c i j : nat) :
  (0 < s)%Z ->
  PseudoLabelGenerator_init K ht wd s = Some gen ->
  has_shape4 b 21 h w y ->
  (0 < b)%nat -> (0 < h)%nat -> (0 < w)%nat ->
  PseudoLabelGenerator_forward_np gen y = Some (g, gf) ->
  (n < b)%nat -> (c < 21)%nat -> (i < h)%nat -> (j < w)%nat ->
  exists gf4 a4 a,
    RegressionDisparity4_ground_false (from_numpy g) = Some gf4 /\
    entry4 gf4 n c i j = Some (Fin a4) /\
    entry4 (from_numpy gf) n c i j = Some (Fin a) /\
    a = clip01 (presence_np g n i j - at4 g n c i j) /\
    a4 <= a.
Proof.
  intros Hsigma Hinit Hy Hb Hh Hw Hf Hn Hc Hi Hj.
  assert (H21 : (0 < 21)%nat) by lia.
  destruct (@forward_np_ground_false K ht wd s gen y g gf b 21 h w
              Hinit Hy Hb H21 Hh Hw Hf) as (Hg & Hin & _ & ->).
  pose proof (cross_suppressed_entry Hg Hb H21 Hh Hn Hc Hi Hj) as He.
  rewrite (sum_others_presence i j Hg Hn Hc) in He.
  do 3 eexists.
  split; [exact (RegressionDisparity4_label Hg Hh)|].
  split; [now apply ground_false_of_entry|].
  split; [apply entry4_map4; exact He|].
  split; [reflexivity|].
  apply clip01_mono.
  assert (P0 : 0 <= presence_np g n i j).
  { apply (@presence_np_bounds g b 21 h w n c i j Hg); try assumption.
    intros c' Hc'. apply (all4_at4 Hin Hg); assumption. }
  pose proof (all4_at4 Hin Hg Hn Hc Hi Hj) as [G0 _].
  pose proof (clip01_below P0). unfold label4. lra.
Qed.

Lemma presence_ground_false_is_sharper_witness :
  exists gen g gf,
    ((0 < 2)%Z /\
     PseudoLabelGenerator_init 21 64 64 2 = Some gen /\
     has_shape4 1 21 64 64 (y_zero64 21) /\
     PseudoLabelGenerator_forward_np gen (y_zero64 21) = Some (g, gf)) /\
    exists gf4 a4 a,
      RegressionDisparity4_ground_false (from_numpy g) = Some gf4 /\
      entry4 gf4 0 3 5 7 = Some (Fin a4) /\
      entry4 (from_numpy gf) 0 3 5 7 = Some (Fin a) /\
      a = clip01 (presence_np g 0 5 7 - at4 g 0 3 5 7) /\
      a4 <= a.
Proof.
  destruct (@PseudoLabelGenerator_forward_total 21 64 64 2 (y_zero64 21) 1)
    as [gen [g [gf [Hi [Hn _]]]]]; try lia.
  { apply has_shape4_y_zero64. }
  exists gen, g, gf.
  pose proof (has_shape4_y_zero64 21) as Hy.
  split; [split; [lia|split; [exact Hi|split; [exact Hy|exact Hn]]]|].
  apply (@presence_ground_false_is_sharper 21%Z 64%Z 64%Z 2%Z gen
           (y_zero64 21) g gf 1%nat 64%nat 64%nat 0%nat 3%nat 5%nat 7%nat);
    try assumption; lia.
Defined.

(** ** The channel count in the selectors with other labels *)

Lemma bcast_length {A B C : Type} (f : A -> B -> option C)
  (xs : list A) (ys : list B) (r : list C) :
  length xs = length ys -> bcast f xs ys = Some r -> length r = length xs.
Proof.
  intros Hl Hb. rewrite (bcast_eq_len f xs ys Hl) in Hb.
  rewrite (mapM_length _ _ Hb), length_combine, Hl. apply Nat.min_id.
Qed.

Lemma bcast3_length {A B C : Type} (f : A -> B -> C)
  (xs : list (list (list A))) (ys : list (list (list B)))
  (r : list (list (list C))) (b : nat) :
  length xs = b -> length ys = b -> bcast3 f xs ys = Some r -> length r = b.
Proof.
  intros Hx Hy Hr. unfold bcast3 in Hr.
  rewrite (@bcast_length _ _ _ (bcast2 f) xs ys r); [exact Hx | | exact Hr].
  now rewrite Hx, Hy.
Qed.

Lemma length_clipped_presence (gt : xtensor4) (b : nat) :
  length gt = b -> length (map3 xclip01 (sum_dim1 gt)) = b.
Proof.
  intros H. unfold map3. now rewrite length_map, length_sum_dim1.
Qed.

Lemma length_clipped_presence_raw (l : xtensor3) (b : nat) :
  length l = b -> length (map3 xclip01 l) = b.
Proof. intros H. unfold map3. now rewrite length_map. Qed.

Lemma label_mismatch (gt : xtensor4) (l : xtensor3) (b k h w : nat) :
  has_shape4 b k h w gt -> (0 < b)%nat -> k <> 21%nat -> k <> 1%nat ->
  length l = b ->
  minus_ten_clip (unsqueeze_repeat 21 (map3 xclip01 l)) gt = None.
Proof.
  intros Hgt Hb H21 H1 Hl. pose proof Hgt as [Hlen _].
  assert (Hpos : (0 < length gt)%nat) by exact (@pos_of_len _ _ _ Hlen Hb).
  assert (Hl' : length (map3 xclip01 l) = b)
    by (unfold map3; now rewrite length_map).
  apply (@minus_ten_clip_mismatch _ gt k);
    [ | exact Hpos | | | exact H21 | exact H1].
  - rewrite length_unsqueeze.
    apply eq_trans with b; [exact Hl' | symmetry; exact Hlen].
  - apply length_hd_unsqueeze. exact (@pos_of_len _ _ _ Hl' Hb).
  - rewrite hd_nth0. now destruct (has_shape4_sample Hgt Hb).
Qed.

Lemma RegressionDisparity5_mismatch (gt gt1 gt2 : xtensor4) (b k h w : nat) :
  has_shape4 b k h w gt -> length gt1 = b -> length gt2 = b ->
  (0 < b)%nat -> k <> 21%nat -> k <> 1%nat ->
  RegressionDisparity5_ground_false gt gt1 gt2 = None.
Proof.
  intros Hgt L1 L2 Hb H21 H1. pose proof Hgt as [L0 _].
  pose proof (@length_clipped_presence gt b L0) as P0.
  pose proof (@length_clipped_presence gt1 b L1) as P1.
  pose proof (@length_clipped_presence gt2 b L2) as P2.
  unfold RegressionDisparity5_ground_false.
  destruct (bcast3 xsub _ _) as [d1|] eqn:E1; [|reflexivity]. cbn [bind].
  destruct (bcast3 xsub (map3 xclip01 (sum_dim1 gt2)) _) as [d2|] eqn:E2;
    [|reflexivity]. cbn [bind].
  pose proof (@bcast3_length _ _ _ _ _ _ _ b P1 P0 E1) as D1.
  pose proof (@bcast3_length _ _ _ _ _ _ _ b P2 P0 E2) as D2.
  destruct (bcast3 xadd _ (map3 xclip01 d1)) as [s1|] eqn:E3;
    [|reflexivity]. cbn [bind].
  pose proof (@bcast3_length _ _ _ _ _ _ _ b P0 (@length_clipped_presence_raw d1 b D1) E3)
    as S1.
  destruct (bcast3 xadd s1 _) as [s2|] eqn:E4; [|reflexivity]. cbn [bind].
  pose proof (@bcast3_length _ _ _ _ _ _ _ b S1 (@length_clipped_presence_raw d2 b D2) E4)
    as S2.
  exact (@label_mismatch gt s2 b k h w Hgt Hb H21 H1 S2).
Qed.

Lemma RegressionDisparity6_mismatch (gt gt1 : xtensor4) (b k h w : nat) :
  has_shape4 b k h w gt -> length gt1 = b ->
  (0 < b)%nat -> k <> 21%nat -> k <> 1%nat ->
  RegressionDisparity6_ground_false gt gt1 = None.
Proof.
  intros Hgt L1 Hb H21 H1. pose proof Hgt as [L0 _].
  pose proof (@length_clipped_presence gt b L0) as P0.
  pose proof (@length_clipped_presence gt1 b L1) as P1.
  unfold RegressionDisparity6_ground_false.
  destruct (bcast3 xsub _ _) as [d1|] eqn:E1; [|reflexivity]. cbn [bind].
  pose proof (@bcast3_length _ _ _ _ _ _ _ b P1 P0 E1) as D1.
  destruct (bcast3 xadd _ (map3 xclip01 d1)) as [s1|] eqn:E3;
    [|reflexivity]. cbn [bind].
  pose proof (@bcast3_length _ _ _ _ _ _ _ b P0 (@length_clipped_presence_raw d1 b D1) E3)
    as S1.
  exact (@label_mismatch gt s1 b k h w Hgt Hb H21 H1 S1).
Qed.

Lemma RegressionDisparity7_mismatch (gt gt1 : xtensor4) (b k h w : nat) :
  has_shape4 b k h w gt -> (0 < b)%nat -> k <> 21%nat -> k <> 1%nat ->
  RegressionDisparity7_ground_false b gt gt1 = None.
Proof.
  intros Hgt Hb H21 H1. unfold RegressionDisparity7_ground_false.
  exact (aux_ground_false_mismatch
           (bcast3 xadd (map3 xclip01 (sum_dim1 gt1))
                        (map3 xclip01 (sum_dim1 gt)))
           Hgt Hb H21 H1).
Qed.

Lemma length_excess_label (e : xtensor4) (b : nat) :
  length e = b -> length (map3 xclip01 (sum_dim1 (map4 xclip01 e))) = b.
Proof.
  intros H. apply length_clipped_presence. unfold map4.
  now rewrite length_map.
Qed.

Lemma RegressionDisparity8_mismatch (gt gt1 gt2 : xtensor4) (b k h w : nat) :
  has_shape4 b k h w gt -> length gt1 = b -> length gt2 = b ->
  (0 < b)%nat -> k <> 21%nat -> k <> 1%nat ->
  RegressionDisparity8_ground_false gt gt1 gt2 = None.
Proof.
  intros Hgt L1 L2 Hb H21 H1. pose proof Hgt as [L0 _].
  pose proof (@length_clipped_presence gt b L0) as P0.
  unfold RegressionDisparity8_ground_false.
  destruct (bcast4 xsub gt1 gt) as [e1|] eqn:E1; [|reflexivity]. cbn [bind].
  destruct (bcast4 xsub gt2 gt) as [e2|] eqn:E2; [|reflexivity]. cbn [bind].
  assert (X1 : length e1 = b).
  { unfold bcast4 in E1.
    rewrite (@bcast_length _ _ _ (bcast3 xsub) gt1 gt e1);
      [exact L1 | | exact E1].
    apply eq_trans with b; [exact L1 | symmetry; exact L0]. }
  assert (X2 : length e2 = b).
  { unfold bcast4 in E2.
    rewrite (@bcast_length _ _ _ (bcast3 xsub) gt2 gt e2);
      [exact L2 | | exact E2].
    apply eq_trans with b; [exact L2 | symmetry; exact L0]. }
  destruct (bcast3 xadd _ _) as [s1|] eqn:E3; [|reflexivity]. cbn [bind].
  pose proof (@bcast3_length _ _ _ _ _ _ _ b P0
                (@length_excess_label e1 b X1) E3) as S1.
  destruct (bcast3 xadd s1 _) as [s2|] eqn:E4; [|reflexivity]. cbn [bind].
  pose proof (@bcast3_length _ _ _ _ _ _ _ b S1
                (@length_excess_label e2 b X2) E4) as S2.
  exact (@label_mismatch gt s2 b k h w Hgt Hb H21 H1 S2).
Qed.

(** X17: the selectors with other labels repeat their label 21 times as
    well: when the primary ground truth has a number of channels other
    than 1 and 21, the forward passes of [RegressionDisparity5],
    [RegressionDisparity6], [RegressionDisparity7] and
    [RegressionDisparity8] raise, in mode [min] too, where the ground
    false is not used for the loss; the object keeps the pair of its
    last successful call. *)
Theorem other_label_selectors_need_21_channels (L W : Type)
  (self : disparity L W) (y y_adv label_1 label_2 : tensor4)
  (weight : option W) (mode : string)
  (gt gt1 gt2 o o1 o2 : xtensor4) (b k h w : nat) :
  mode_ok mode = true ->
  pseudo_label_generator self y = Some (gt, o) ->
  pseudo_label_generator self label_1 = Some (gt1, o1) ->
  pseudo_label_generator self label_2 = Some (gt2, o2) ->
  length y = b -> has_shape4 b k h w gt ->
  length gt1 = b -> length gt2 = b ->
  (0 < b)%nat -> k <> 21%nat -> k <> 1%nat ->
  RegressionDisparity5_forward self y y_adv label_1 label_2 weight mode
    = (Raised, self) /\
  RegressionDisparity6_forward self y y_adv label_1 weight mode
    = (Raised, self) /\
  RegressionDisparity7_forward self y y_adv label_1 weight mode
    = (Raised, self) /\
  RegressionDisparity8_forward self y y_adv label_1 label_2 weight mode
    = (Raised, self).
Proof.
  intros Hm Hg Hg1 Hg2 Hy Hgt L1 L2 Hb H21 H1.
  unfold RegressionDisparity5_forward, RegressionDisparity6_forward,
         RegressionDisparity7_forward, RegressionDisparity8_forward,
         aux_forward, aux1_forward.
  destruct (shape4 y) as [[[b' k'] h'] w'] eqn:Hs.
  assert (Hb' : b' = b).
  { unfold shape4 in Hs. injection Hs as Hs _ _ _.
    apply eq_trans with (length y); [symmetry; exact Hs | exact Hy]. }
  subst b'. rewrite Hm, Hg, Hg1, Hg2.
  rewrite (@RegressionDisparity5_mismatch gt gt1 gt2 b k h w)
    by assumption.
  rewrite (@RegressionDisparity6_mismatch gt gt1 b k h w) by assumption.
  rewrite (@RegressionDisparity7_mismatch gt gt1 b k h w) by assumption.
  rewrite (@RegressionDisparity8_mismatch gt gt1 gt2 b k h w)
    by assumption.
  repeat split.
Qed.

Lemma other_label_selectors_need_21_channels_witness :
  exists gen,
    PseudoLabelGenerator_init 2 64 64 2 = Some gen /\
    RegressionDisparity5_forward
      (new_disparity echo_criterion (PseudoLabelGenerator_forward gen))
      (y_zero64 2) (y_zero64 2) (y_zero64 2) (y_zero64 2) None "min"
    = (Raised,
       new_disparity echo_criterion (PseudoLabelGenerator_forward gen)) /\
    RegressionDisparity6_forward
      (new_disparity echo_criterion (PseudoLabelGenerator_forward gen))
      (y_zero64 2) (y_zero64 2) (y_zero64 2) None "min"
    = (Raised,
       new_disparity echo_criterion (PseudoLabelGenerator_forward gen)) /\
    RegressionDisparity7_forward
      (new_disparity echo_criterion (PseudoLabelGenerator_forward gen))
      (y_zero64 2) (y_zero64 2) (y_zero64 2) None "min"
    = (Raised,
       new_disparity echo_criterion (PseudoLabelGenerator_forward gen)) /\
    RegressionDisparity8_forward
      (new_disparity echo_criterion (PseudoLabelGenerator_forward gen))
      (y_zero64 2) (y_zero64 2) (y_zero64 2) (y_zero64 2) None "min"
    = (Raised,
       new_disparity echo_criterion (PseudoLabelGenerator_forward gen)).
Proof.
  destruct (@base_on_zero64 2) as [gen [gt [gf [Hi [Hf Hgt]]]]]; [lia|].
  exists gen. split; [exact Hi|].
  assert (Hx : has_shape4 1 2 64 64 (from_numpy gt))
    by now apply from_numpy_shape.
  exact (@other_label_selectors_need_21_channels xtensor4 unit
           (new_disparity echo_criterion (PseudoLabelGenerator_forward gen))
           (y_zero64 2) (y_zero64 2) (y_zero64 2) (y_zero64 2) None
           "min"%string
           (from_numpy gt) (from_numpy gt) (from_numpy gt)
           (from_numpy gf) (from_numpy gf) (from_numpy gf)
           1%nat 2%nat 64%nat 64%nat
           eq_refl Hf Hf Hf eq_refl Hx (proj1 Hx) (proj1 Hx)
           ltac:(lia) ltac:(lia) ltac:(lia)).
Defined.

(** ** The channel count of the repeated label, variant by variant *)

Lemma label_returns (l : nat -> nat -> nat -> xval) (gt : xtensor4)
  (b k h w : nat) :
  has_shape4 b k h w gt -> k = 21%nat \/ k = 1%nat ->
  exists gf,
    minus_ten_clip
      (unsqueeze_repeat 21
         (tab b (fun n => tab h (fun i => tab w (l n i))))) gt = Some gf /\
    has_shape4 b 21 h w gf.
Proof.
  intros Hgt Hk. unfold unsqueeze_repeat. rewrite map_tab.
  rewrite (@tab_ext _ b _
    (fun n => tab 21 (fun _ : nat => tab h (fun i => tab w (l n i)))))
    by (intros n _; apply repeat_tab).
  rewrite (@minus_ten_clip_closed b 21 k h w (fun n _ i => l n i) gt Hgt).
  - eexists. split; [reflexivity | apply has_shape4_tab].
  - destruct Hk as [->| ->]; [now left | right; split; [reflexivity | lia]].
Qed.

Lemma normalized_label_returns (l : nat -> nat -> nat -> xval)
  (gt : xtensor4) (b k h w : nat) :
  has_shape4 b k h w gt -> k = 21%nat \/ k = 1%nat ->
  (0 < h)%nat -> (0 < w)%nat ->
  exists gf,
    bind (normalize_samples b
            (tab b (fun n => tab h (fun i => tab w (l n i)))))
         (fun label_p => minus_ten_clip (unsqueeze_repeat 21 label_p) gt)
    = Some gf /\
    has_shape4 b 21 h w gf.
Proof.
  intros Hgt Hk Hh Hw. rewrite (normalize_samples_closed b l Hh Hw).
  cbn [bind].
  exact (@label_returns
           (fun n i j => xdiv (l n i j) (slice_max (l n) h w))
           gt b k h w Hgt Hk).
Qed.

Lemma pos_channels (k : nat) : k = 21%nat \/ k = 1%nat -> (0 < k)%nat.
Proof. intros [->| ->]; lia. Qed.

Lemma RegressionDisparity2_returns (gt gt1 gt2 : xtensor4) (b k h w : nat) :
  has_shape4 b k h w gt -> has_shape4 b k h w gt1 ->
  has_shape4 b k h w gt2 ->
  k = 21%nat \/ k = 1%nat -> (0 < h)%nat -> (0 < w)%nat ->
  exists gf,
    RegressionDisparity2_ground_false b gt gt1 gt2 = Some gf /\
    has_shape4 b 21 h w gf.
Proof.
  intros Hgt Hgt1 Hgt2 Hk Hh Hw. pose proof (pos_channels Hk) as Hp.
  unfold RegressionDisparity2_ground_false.
  rewrite (sum_dim1_shaped Hgt Hp Hh), (sum_dim1_shaped Hgt1 Hp Hh),
          (sum_dim1_shaped Hgt2 Hp Hh).
  rewrite bcast3_tab. cbn [bind]. rewrite bcast3_tab. cbn [bind].
  exact (@normalized_label_returns _ gt b k h w Hgt Hk Hh Hw).
Qed.

Lemma RegressionDisparity3_returns (gt gt1 gt2 : xtensor4) (b k h w : nat) :
  has_shape4 b k h w gt -> has_shape4 b k h w gt1 ->
  has_shape4 b k h w gt2 ->
  k = 21%nat \/ k = 1%nat -> (0 < h)%nat -> (0 < w)%nat ->
  exists gf,
    RegressionDisparity3_ground_false b gt gt1 gt2 = Some gf /\
    has_shape4 b 21 h w gf.
Proof.
  intros Hgt Hgt1 Hgt2 Hk Hh Hw. pose proof (pos_channels Hk) as Hp.
  unfold RegressionDisparity3_ground_false.
  rewrite (sum_dim1_shaped Hgt Hp Hh), (sum_dim1_shaped Hgt1 Hp Hh),
          (sum_dim1_shaped Hgt2 Hp Hh).
  rewrite !map3_tab.
  rewrite bcast3_tab. cbn [bind]. rewrite bcast3_tab. cbn [bind].
  exact (@normalized_label_returns _ gt b k h w Hgt Hk Hh Hw).
Qed.

Lemma RegressionDisparity3_mismatch (gt gt1 gt2 : xtensor4) (b k h w : nat) :
  has_shape4 b k h w gt -> (0 < b)%nat -> k <> 21%nat -> k <> 1%nat ->
  RegressionDisparity3_ground_false b gt gt1 gt2 = None.
Proof.
  intros Hgt Hb H21 H1. unfold RegressionDisparity3_ground_false.
  destruct (bcast3 xadd (map3 xclip01 (sum_dim1 gt))
                        (map3 xclip01 (sum_dim1 gt1))) as [s|];
    [|reflexivity].
  cbn [bind].
  exact (aux_ground_false_mismatch
           (bcast3 xadd s (map3 xclip01 (sum_dim1 gt2))) Hgt Hb H21 H1).
Qed.

Lemma RegressionDisparity4_returns (gt : xtensor4) (b k h w : nat) :
  has_shape4 b k h w gt -> k = 21%nat \/ k = 1%nat -> (0 < h)%nat ->
  exists gf,
    RegressionDisparity4_ground_false gt = Some gf /\
    has_shape4 b 21 h w gf.
Proof.
  intros Hgt Hk Hh. eexists.
  split; [apply (RegressionDisparity4_closed Hgt Hh Hk)|].
  apply has_shape4_tab.
Qed.

Lemma RegressionDisparity5_returns (gt gt1 gt2 : xtensor4) (b k h w : nat) :
  has_shape4 b k h w gt -> has_shape4 b k h w gt1 ->
  has_shape4 b k h w gt2 ->
  k = 21%nat \/ k = 1%nat -> (0 < h)%nat ->
  exists gf,
    RegressionDisparity5_ground_false gt gt1 gt2 = Some gf /\
    has_shape4 b 21 h w gf.
Proof.
  intros Hgt Hgt1 Hgt2 Hk Hh. pose proof (pos_channels Hk) as Hp.
  unfold RegressionDisparity5_ground_false.
  rewrite (sum_dim1_shaped Hgt Hp Hh), (sum_dim1_shaped Hgt1 Hp Hh),
          (sum_dim1_shaped Hgt2 Hp Hh).
  rewrite !map3_tab.
  rewrite bcast3_tab. cbn [bind]. rewrite bcast3_tab. cbn [bind].
  rewrite !map3_tab.
  rewrite bcast3_tab. cbn [bind]. rewrite bcast3_tab. cbn [bind].
  rewrite map3_tab.
  exact (@label_returns _ gt b k h w Hgt Hk).
Qed.

Lemma RegressionDisparity6_returns (gt gt1 : xtensor4) (b k h w : nat) :
  has_shape4 b k h w gt -> has_shape4 b k h w gt1 ->
  k = 21%nat \/ k = 1%nat -> (0 < h)%nat ->
  exists gf,
    RegressionDisparity6_ground_false gt gt1 = Some gf /\
    has_shape4 b 21 h w gf.
Proof.
  intros Hgt Hgt1 Hk Hh. pose proof (pos_channels Hk) as Hp.
  unfold RegressionDisparity6_ground_false.
  rewrite (sum_dim1_shaped Hgt Hp Hh), (sum_dim1_shaped Hgt1 Hp Hh).
  rewrite !map3_tab.
  rewrite bcast3_tab. cbn [bind]. rewrite map3_tab.
  rewrite bcast3_tab. cbn [bind]. rewrite map3_tab.
  exact (@label_returns _ gt b k h w Hgt Hk).
Qed.

Lemma RegressionDisparity7_returns (gt gt1 : xtensor4) (b k h w : nat) :
  has_shape4 b k h w gt -> has_shape4 b k h w gt1 ->
  k = 21%nat \/ k = 1%nat -> (0 < h)%nat -> (0 < w)%nat ->
  exists gf,
    RegressionDisparity7_ground_false b gt gt1 = Some gf /\
    has_shape4 b 21 h w gf.
Proof.
  intros Hgt Hgt1 Hk Hh Hw. pose proof (pos_channels Hk) as Hp.
  unfold RegressionDisparity7_ground_false.
  rewrite (sum_dim1_shaped Hgt Hp Hh), (sum_dim1_shaped Hgt1 Hp Hh).
  rewrite !map3_tab.
  rewrite bcast3_tab. cbn [bind].
  exact (@normalized_label_returns _ gt b k h w Hgt Hk Hh Hw).
Qed.

Lemma bcast4_shaped {A B C : Type} (f : A -> B -> C) (d : A) (d' : B)
  (b k h w : nat) (t : list (list (list (list A))))
  (t' : list (list (list (list B)))) :
  has_shape4 b k h w t -> has_shape4 b k h w t' ->
  bcast4 f t t'
  = Some (tab b (fun n => tab k (fun c => tab h (fun i => tab w (fun j =>
            f (get4 d t n c i j) (get4 d' t' n (chan k c) i j)))))).
Proof.
  intros Ht Ht'.
  rewrite <- (@bcast4_channels A B C f b k k h w
                (fun n c i j => get4 d t n c i j)
                (fun n c i j => get4 d' t' n c i j) (or_introl eq_refl)).
  f_equal; [exact (shaped4_as_tab d Ht) | exact (shaped4_as_tab d' Ht')].
Qed.

Lemma excess_label_tab (gt1 gt : xtensor4) (b k h w : nat) :
  has_shape4 b k h w gt1 -> has_shape4 b k h w gt ->
  (0 < k)%nat -> (0 < h)%nat ->
  exists l,
    bind (bcast4 xsub gt1 gt) (fun e =>
      Some (map3 xclip01 (sum_dim1 (map4 xclip01 e))))
    = Some (tab b (fun n => tab h (fun i => tab w (l n i)))).
Proof.
  intros Hgt1 Hgt Hp Hh.
  rewrite (bcast4_shaped xsub (Fin 0) (Fin 0) Hgt1 Hgt). cbn [bind].
  rewrite map4_tab.
  rewrite (sum_dim1_shaped (has_shape4_tab b k h w _) Hp Hh).
  rewrite map3_tab. eexists. reflexivity.
Qed.

Lemma RegressionDisparity8_returns (gt gt1 gt2 : xtensor4) (b k h w : nat) :
  has_shape4 b k h w gt -> has_shape4 b k h w gt1 ->
  has_shape4 b k h w gt2 ->
  k = 21%nat \/ k = 1%nat -> (0 < h)%nat ->
  exists gf,
    RegressionDisparity8_ground_false gt gt1 gt2 = Some gf /\
    has_shape4 b 21 h w gf.
Proof.
  intros Hgt Hgt1 Hgt2 Hk Hh. pose proof (pos_channels Hk) as Hp.
  destruct (excess_label_tab Hgt1 Hgt Hp Hh) as [l1 E1].
  destruct (excess_label_tab Hgt2 Hgt Hp Hh) as [l2 E2].
  unfold RegressionDisparity8_ground_false.
  destruct (bcast4 xsub gt1 gt) as [e1|]; [|discriminate E1].
  destruct (bcast4 xsub gt2 gt) as [e2|]; [|discriminate E2].
  cbn [bind] in E1, E2 |- *.
  injection E1 as E1. injection E2 as E2. rewrite E1, E2.
  rewrite (sum_dim1_shaped Hgt Hp Hh). rewrite map3_tab.
  rewrite bcast3_tab. cbn [bind]. rewrite bcast3_tab. cbn [bind].
  rewrite map3_tab.
  exact (@label_returns _ gt b k h w Hgt Hk).
Qed.

Lemma RegressionDisparityx6_returns (gt : xtensor4) (b k h w : nat) :
  has_shape4 b k h w gt -> k = 21%nat \/ k = 1%nat ->
  (0 < b)%nat -> (0 < h)%nat -> (0 < w)%nat ->
  exists gf,
    RegressionDisparityx6_ground_false gt None = Some gf /\
    has_shape4 b 21 h w gf.
Proof.
  intros Hgt Hk Hb Hh Hw.
  unfold RegressionDisparityx6_ground_false, RegressionDisparityx6_combined.
  rewrite (RegressionDisparity4_closed Hgt Hh Hk). cbn [bind].
  unfold normalize_by_shape.
  rewrite (shape4_of (has_shape4_tab b 21 h w _) Hb) by lia.
  rewrite (normalize_channels_closed b 21 _ Hh Hw).
  eexists. split; [reflexivity | apply has_shape4_tab].
Qed.

Lemma complement_shaped (gt : xtensor4) (b k h w : nat) :
  has_shape4 b k h w gt ->
  exists gf,
    complement_ground_false gt = Some gf /\ has_shape4 b k h w gf.
Proof.
  intros Hx. unfold complement_ground_false, ones_like.
  rewrite (map4_shaped (fun _ : xval => Fin 1) (Fin 0) Hx).
  rewrite (@minus_ten_clip_closed b k k h w _ _ Hx (or_introl eq_refl)).
  eexists. split; [reflexivity | apply has_shape4_tab].
Qed.

(** The [forward] of the selectors with other labels, once the
    generator has returned on all of them. *)
Lemma aux_forward_gathered {L W : Type}
  (build : nat -> xtensor4 -> xtensor4 -> xtensor4 -> option xtensor4)
  (self : disparity L W) (y y_adv label_1 label_2 : tensor4)
  (weight : option W) (mode : string) (gt gt1 gt2 o o1 o2 : xtensor4)
  (b : nat) :
  mode_ok mode = true -> length y = b ->
  pseudo_label_generator self y = Some (gt, o) ->
  pseudo_label_generator self label_1 = Some (gt1, o1) ->
  pseudo_label_generator self label_2 = Some (gt2, o2) ->
  aux_forward build self y y_adv label_1 label_2 weight mode
  = match build b gt gt1 gt2 with
    | Some gf => select_loss self y_adv gt gf weight mode
    | None => (Raised, self)
    end.
Proof.
  intros Hm Hy Hg Hg1 Hg2. unfold aux_forward.
  destruct (shape4 y) as [[[b' k'] h'] w'] eqn:Hs.
  assert (Hb' : b' = b).
  { unfold shape4 in Hs. injection Hs as Hs _ _ _.
    apply eq_trans with (length y); [symmetry; exact Hs | exact Hy]. }
  subst b'. now rewrite Hm, Hg, Hg1, Hg2.
Qed.

Lemma aux1_forward_gathered {L W : Type}
  (build : nat -> xtensor4 -> xtensor4 -> option xtensor4)
  (self : disparity L W) (y y_adv label_1 : tensor4)
  (weight : option W) (mode : string) (gt gt1 o o1 : xtensor4)
  (b : nat) :
  mode_ok mode = true -> length y = b ->
  pseudo_label_generator self y = Some (gt, o) ->
  pseudo_label_generator self label_1 = Some (gt1, o1) ->
  aux1_forward build self y y_adv label_1 weight mode
  = match build b gt gt1 with
    | Some gf => select_loss self y_adv gt gf weight mode
    | None => (Raised, self)
    end.
Proof.
  intros Hm Hy Hg Hg1. unfold aux1_forward.
  destruct (shape4 y) as [[[b' k'] h'] w'] eqn:Hs.
  assert (Hb' : b' = b).
  { unfold shape4 in Hs. injection Hs as Hs _ _ _.
    apply eq_trans with (length y); [symmetry; exact Hs | exact Hy]. }
  subst b'. now rewrite Hm, Hg, Hg1.
Qed.

Lemma returns_loss_on_built {L W : Type} (self : disparity L W)
  (y_adv : tensor4) (gt : xtensor4) (weight : option W) (mode : string)
  (b c h w : nat) (built : option xtensor4)
  (out : result L * disparity L W) :
  (exists gf, built = Some gf /\ has_shape4 b c h w gf) ->
  out = match built with
        | Some gf => select_loss self y_adv gt gf weight mode
        | None => (Raised, self)
        end ->
  returns_loss_on self y_adv gt weight mode b c h w built out.
Proof.
  intros [gf [Hb Hs]] Ho. exists gf. split; [exact Hb|]. split; [exact Hs|].
  rewrite Ho, Hb. reflexivity.
Qed.

Lemma raised_on_none {L W : Type} (self : disparity L W)
  (y_adv : tensor4) (gt : xtensor4) (weight : option W) (mode : string)
  (built : option xtensor4) (out : result L * disparity L W) :
  built = None ->
  out = match built with
        | Some gf => select_loss self y_adv gt gf weight mode
        | None => (Raised, self)
        end ->
  out = (Raised, self).
Proof. intros Hb Ho. rewrite Ho, Hb. reflexivity. Qed.

Lemma plain_forward_gathered {L W : Type} (self : disparity L W)
  (y : tensor4) (mode : string) (gt o : xtensor4)
  (k : xtensor4 -> result L * disparity L W) :
  mode_ok mode = true ->
  pseudo_label_generator self y = Some (gt, o) ->
  (if mode_ok mode then
     match pseudo_label_generator self y with
     | Some (gt, _) => k gt
     | None => (Raised, self)
     end
   else (AssertionError, self)) = k gt.
Proof. intros Hm Hg. now rewrite Hm, Hg. Qed.

(** C10, as the code has it: [RegressionDisparity2] to
    [RegressionDisparity8] and [RegressionDisparityx6] repeat their
    label 21 times and subtract [ground_truth*10] from it, and the
    subtraction broadcasts.  So, for a ground truth of [k] channels:
    when [k] is 21 or 1 each of them builds a ground false of 21
    channels and its forward pass returns the loss selected on it
    (those that divide by a maximum need a slice that is not empty, and
    [RegressionDisparityx6] is taken without [y_adv2]); when [k] is
    neither, the construction gives nothing and every one of these
    forward passes raises, whatever the mode.  [RegressionDisparityx2]
    repeats the summed map 21 times as well but never uses the result:
    its ground false is the complement, with the [k] channels of the
    ground truth, and its forward pass returns for every [k]. *)
Theorem hardcoded_channel_count (L W : Type) (self : disparity L W)
  (y y_adv : tensor4) (weight : option W) (mode : string)
  (gt gf0 : xtensor4) (b k h w : nat) :
  pseudo_label_generator self y = Some (gt, gf0) ->
  has_shape4 b k h w gt -> (0 < b)%nat -> (0 < h)%nat ->
  mode_ok mode = true ->
  (k = 21%nat \/ k = 1%nat ->
     returns_loss_on self y_adv gt weight mode b 21 h w
       (RegressionDisparity4_ground_false gt)
       (RegressionDisparity4_forward self y y_adv weight mode) /\
     ((0 < w)%nat ->
        returns_loss_on self y_adv gt weight mode b 21 h w
          (RegressionDisparityx6_ground_false gt None)
          (RegressionDisparityx6_forward self y y_adv None weight mode))) /\
  (k <> 21%nat -> k <> 1%nat ->
     RegressionDisparity4_forward self y y_adv weight mode = (Raised, self) /\
     (forall g1 g2,
        RegressionDisparity2_ground_false b gt g1 g2 = None /\
        RegressionDisparity3_ground_false b gt g1 g2 = None) /\
     (forall y_adv2,
        RegressionDisparityx6_ground_false gt y_adv2 = None /\
        RegressionDisparityx6_forward self y y_adv y_adv2 weight mode
          = (Raised, self))) /\
  (forall (label_1 label_2 : tensor4) (gt1 gt2 o1 o2 : xtensor4),
     length y = b ->
     pseudo_label_generator self label_1 = Some (gt1, o1) ->
     pseudo_label_generator self label_2 = Some (gt2, o2) ->
     has_shape4 b k h w gt1 -> has_shape4 b k h w gt2 ->
     (k = 21%nat \/ k = 1%nat ->
        returns_loss_on self y_adv gt weight mode b 21 h w
          (RegressionDisparity5_ground_false gt gt1 gt2)
          (RegressionDisparity5_forward self y y_adv label_1 label_2
             weight mode) /\
        returns_loss_on self y_adv gt weight mode b 21 h w
          (RegressionDisparity6_ground_false gt gt1)
          (RegressionDisparity6_forward self y y_adv label_1 weight mode) /\
        returns_loss_on self y_adv gt weight mode b 21 h w
          (RegressionDisparity8_ground_false gt gt1 gt2)
          (RegressionDisparity8_forward self y y_adv label_1 label_2
             weight mode) /\
        ((0 < w)%nat ->
           returns_loss_on self y_adv gt weight mode b 21 h w
             (RegressionDisparity2_ground_false b gt gt1 gt2)
             (RegressionDisparity2_forward self y y_adv label_1 label_2
                weight mode) /\
           returns_loss_on self y_adv gt weight mode b 21 h w
             (RegressionDisparity3_ground_false b gt gt1 gt2)
             (RegressionDisparity3_forward self y y_adv label_1 label_2
                weight mode) /\
           returns_loss_on self y_adv gt weight mode b 21 h w
             (RegressionDisparity7_ground_false b gt gt1)
             (RegressionDisparity7_forward self y y_adv label_1
                weight mode))) /\
     (k <> 21%nat -> k <> 1%nat ->
        RegressionDisparity2_forward self y y_adv label_1 label_2 weight mode
          = (Raised, self) /\
        RegressionDisparity3_forward self y y_adv label_1 label_2 weight mode
          = (Raised, self) /\
        RegressionDisparity5_forward self y y_adv label_1 label_2 weight mode
          = (Raised, self) /\
        RegressionDisparity6_forward self y y_adv label_1 weight mode
          = (Raised, self) /\
        RegressionDisparity7_forward self y y_adv label_1 weight mode
          = (Raised, self) /\
        RegressionDisparity8_forward self y y_adv label_1 label_2 weight mode
          = (Raised, self))) /\
  returns_loss_on self y_adv gt weight mode b k h w
    (complement_ground_false gt)
    (RegressionDisparityx2_forward self y y_adv weight mode).
Proof.
  intros Hg Hgt Hb Hh Hm.
  assert (P : forall kont : xtensor4 -> result L * disparity L W,
            (if mode_ok mode then
               match pseudo_label_generator self y with
               | Some (gt', _) => kont gt'
               | None => (Raised, self)
               end
             else (AssertionError, self)) = kont gt)
    by (intros kont; exact (@plain_forward_gathered L W self y mode gt gf0 kont Hm Hg)).
  split; [|split; [|split]].
  - intros Hk. split.
    + apply returns_loss_on_built;
        [exact (RegressionDisparity4_returns Hgt Hk Hh)|].
      exact (P (fun g => match RegressionDisparity4_ground_false g with
                         | Some gf => select_loss self y_adv g gf weight mode
                         | None => (Raised, self)
                         end)).
    + intros Hw. apply returns_loss_on_built;
        [exact (RegressionDisparityx6_returns Hgt Hk Hb Hh Hw)|].
      exact (P (fun g => match RegressionDisparityx6_ground_false g None with
                         | Some gf => select_loss self y_adv g gf weight mode
                         | None => (Raised, self)
                         end)).
  - intros H21 H1. split; [|split].
    + unfold RegressionDisparity4_forward.
      now rewrite Hm, Hg, (RegressionDisparity4_mismatch Hgt Hb H21 H1).
    + intros g1 g2. split.
      * exact (RegressionDisparity2_mismatch g1 g2 Hgt Hb H21 H1).
      * exact (RegressionDisparity3_mismatch g1 g2 Hgt Hb H21 H1).
    + intros y_adv2.
      pose proof (RegressionDisparityx6_mismatch y_adv2 Hgt Hb H21 H1) as Hx.
      split; [exact Hx|].
      unfold RegressionDisparityx6_forward. now rewrite Hm, Hg, Hx.
  - intros label_1 label_2 gt1 gt2 o1 o2 Hy Hg1 Hg2 Hgt1 Hgt2.
    pose proof (fun build =>
      @aux_forward_gathered L W build self y y_adv label_1 label_2 weight
        mode gt gt1 gt2 gf0 o1 o2 b Hm Hy Hg Hg1 Hg2) as A3.
    pose proof (fun build =>
      @aux1_forward_gathered L W build self y y_adv label_1 weight
        mode gt gt1 gf0 o1 b Hm Hy Hg Hg1) as A2.
    split.
    + intros Hk. split; [|split; [|split]].
      * apply returns_loss_on_built;
          [exact (RegressionDisparity5_returns Hgt Hgt1 Hgt2 Hk Hh)|].
        exact (A3 (fun _ => RegressionDisparity5_ground_false)).
      * apply returns_loss_on_built;
          [exact (RegressionDisparity6_returns Hgt Hgt1 Hk Hh)|].
        exact (A2 (fun _ => RegressionDisparity6_ground_false)).
      * apply returns_loss_on_built;
          [exact (RegressionDisparity8_returns Hgt Hgt1 Hgt2 Hk Hh)|].
        exact (A3 (fun _ => RegressionDisparity8_ground_false)).
      * intros Hw. split; [|split].
        -- apply returns_loss_on_built;
             [exact (RegressionDisparity2_returns Hgt Hgt1 Hgt2 Hk Hh Hw)|].
           exact (A3 RegressionDisparity2_ground_false).
        -- apply returns_loss_on_built;
             [exact (RegressionDisparity3_returns Hgt Hgt1 Hgt2 Hk Hh Hw)|].
           exact (A3 RegressionDisparity3_ground_false).
        -- apply returns_loss_on_built;
             [exact (RegressionDisparity7_returns Hgt Hgt1 Hk Hh Hw)|].
           exact (A2 RegressionDisparity7_ground_false).
    + intros H21 H1.
      pose proof (proj1 Hgt1) as L1. pose proof (proj1 Hgt2) as L2.
      repeat split.
      * exact (@raised_on_none L W self y_adv gt weight mode _ _
                 (RegressionDisparity2_mismatch gt1 gt2 Hgt Hb H21 H1)
                 (A3 RegressionDisparity2_ground_false)).
      * exact (@raised_on_none L W self y_adv gt weight mode _ _
                 (RegressionDisparity3_mismatch gt1 gt2 Hgt Hb H21 H1)
                 (A3 RegressionDisparity3_ground_false)).
      * exact (@raised_on_none L W self y_adv gt weight mode _ _
                 (@RegressionDisparity5_mismatch gt gt1 gt2 b k h w
                    Hgt L1 L2 Hb H21 H1)
                 (A3 (fun _ => RegressionDisparity5_ground_false))).
      * exact (@raised_on_none L W self y_adv gt weight mode _ _
                 (@RegressionDisparity6_mismatch gt gt1 b k h w
                    Hgt L1 Hb H21 H1)
                 (A2 (fun _ => RegressionDisparity6_ground_false))).
      * exact (@raised_on_none L W self y_adv gt weight mode _ _
                 (@RegressionDisparity7_mismatch gt gt1 b k h w
                    Hgt Hb H21 H1)
                 (A2 RegressionDisparity7_ground_false)).
      * exact (@raised_on_none L W self y_adv gt weight mode _ _
                 (@RegressionDisparity8_mismatch gt gt1 gt2 b k h w
                    Hgt L1 L2 Hb H21 H1)
                 (A3 (fun _ => RegressionDisparity8_ground_false))).
  - apply returns_loss_on_built; [exact (complement_shaped Hgt)|].
    exact (P (fun g => match complement_ground_false g with
                       | Some gf => select_loss self y_adv g gf weight mode
                       | None => (Raised, self)
                       end)).
Qed.

Lemma hardcoded_channel_count_witness :
  exists gen gt gf,
    (PseudoLabelGenerator_init 2 64 64 2 = Some gen /\
     pseudo_label_generator
       (new_disparity echo_criterion (PseudoLabelGenerator_forward gen))
       (y_zero64 2) = Some (gt, gf) /\
     has_shape4 1 2 64 64 gt /\ (0 < 1)%nat /\ (0 < 64)%nat /\
     mode_ok "max" = true) /\
    RegressionDisparity4_forward
      (new_disparity echo_criterion (PseudoLabelGenerator_forward gen))
      (y_zero64 2) (y_zero64 2) None "max"
    = (Raised,
       new_disparity echo_criterion (PseudoLabelGenerator_forward gen)) /\
    RegressionDisparity3_forward
      (new_disparity echo_criterion (PseudoLabelGenerator_forward gen))
      (y_zero64 2) (y_zero64 2) (y_zero64 2) (y_zero64 2) None "max"
    = (Raised,
       new_disparity echo_criterion (PseudoLabelGenerator_forward gen)) /\
    returns_loss_on
      (new_disparity echo_criterion (PseudoLabelGenerator_forward gen))
      (y_zero64 2) gt (@None unit) "max" 1 2 64 64
      (complement_ground_false gt)
      (RegressionDisparityx2_forward
         (new_disparity echo_criterion (PseudoLabelGenerator_forward gen))
         (y_zero64 2) (y_zero64 2) None "max").
Proof.
  destruct (@base_on_zero64 2) as [gen [gt [gf [Hi [Hf Hgt]]]]]; [lia|].
  exists gen, (from_numpy gt), (from_numpy gf).
  assert (Hx : has_shape4 1 2 64 64 (from_numpy gt))
    by now apply from_numpy_shape.
  split.
  { split; [exact Hi|]. split; [exact Hf|]. split; [exact Hx|].
    repeat (split; [lia|]). reflexivity. }
  destruct (@hardcoded_channel_count xtensor4 unit
              (new_disparity echo_criterion (PseudoLabelGenerator_forward gen))
              (y_zero64 2) (y_zero64 2) None "max"%string
              (from_numpy gt) (from_numpy gf) 1%nat 2%nat 64%nat 64%nat
              Hf Hx ltac:(lia) ltac:(lia) eq_refl)
    as [_ [Hfail [Hlab Hx2]]].
  split; [apply Hfail; lia|].
  split; [|exact Hx2].
  destruct (Hlab (y_zero64 2) (y_zero64 2) (from_numpy gt) (from_numpy gt)
              (from_numpy gf) (from_numpy gf) eq_refl Hf Hf Hx Hx)
    as [_ Hraise].
  apply Hraise; lia.
Defined.
